(** * Ingestion assets of project_ask_ai_dagster: embedding pipeline

    A shallow embedding of
    [examples/project_ask_ai_dagster/project_ask_ai_dagster/assets/ingestion.py]:
    the three embedding assets ([github_issues_embeddings],
    [github_discussions_embeddings], [docs_embedding]) and the scraping asset
    [docs_scrape_raw], together with the Python primitives they rely on
    ([isinstance], dict comprehensions, [range], slices, [zip], [str],
    [hashlib.md5]).

    External collaborators (the OpenAI client, the Pinecone index, the sitemap
    scraper, [time.sleep]) are calls whose effect is recorded in a trace of
    events; the answers of the OpenAI client and of the scraper come from an
    arbitrary stateful oracle. *)

From Stdlib Require Import List String Ascii Bool Arith ZArith Lia.
From Stdlib Require Import QArith.QArith_base.
From Stdlib Require Import Floats.PrimFloat.
From Stdlib Require Import Numbers.DecimalString Numbers.DecimalNat.
From Stdlib Require Import Strings.Byte.
Import ListNotations.

Local Open Scope string_scope.
Local Open Scope list_scope.
Local Open Scope nat_scope.

Set Warnings "-register-all".

(** ** Python values found in a document's metadata *)

Module Py.

(** The classes the code tests against, and the other classes a metadata value
    scraped from JSON can have. *)
Inductive pytype : Type :=
| ty_str | ty_int | ty_float | ty_bool | ty_NoneType | ty_list | ty_dict.

Inductive pyval : Type :=
| PStr (s : string)
| PInt (n : Z)
| PFloat (x : float)
| PBool (b : bool)
| PNone
| PList (items : list pyval)
| PDict (items : list (string * pyval)).

(** A Python [dict] with string keys keeps its entries in insertion order: an
    association list whose keys are pairwise distinct. *)
Definition dict : Type := list (string * pyval).

Definition keys (d : dict) : list string := map fst d.

Definition dict_wf (d : dict) : Prop := NoDup (keys d).

Definition type_of (v : pyval) : pytype :=
  match v with
  | PStr _ => ty_str
  | PInt _ => ty_int
  | PFloat _ => ty_float
  | PBool _ => ty_bool
  | PNone => ty_NoneType
  | PList _ => ty_list
  | PDict _ => ty_dict
  end.

Definition pytype_eqb (a b : pytype) : bool :=
  match a, b with
  | ty_str, ty_str | ty_int, ty_int | ty_float, ty_float | ty_bool, ty_bool
  | ty_NoneType, ty_NoneType | ty_list, ty_list | ty_dict, ty_dict => true
  | _, _ => false
  end.

(** [bool] is a subclass of [int]; the other classes are unrelated. *)
Definition issubclass (a b : pytype) : bool :=
  pytype_eqb a b || (pytype_eqb a ty_bool && pytype_eqb b ty_int).

(** [isinstance(v, (c1, ..., cn))]. *)
Definition isinstance (v : pyval) (classes : list pytype) : bool :=
  existsb (issubclass (type_of v)) classes.

(** [d[k] = v]: an existing key keeps its position and takes the new value, a
    new key goes last. *)
Fixpoint dict_setitem (d : dict) (k : string) (v : pyval) : dict :=
  match d with
  | [] => [(k, v)]
  | (k', v') :: d' =>
      if String.eqb k' k then (k', v) :: d'
      else (k', v') :: dict_setitem d' k v
  end.

(** [d.get(k)], [None] when the key is absent. *)
Fixpoint dict_lookup (d : dict) (k : string) : option pyval :=
  match d with
  | [] => None
  | (k', v) :: d' => if String.eqb k' k then Some v else dict_lookup d' k
  end.

(** [{k: v for k, v in items if cond(k, v)}]: the entries are visited in
    order and stored one by one into a dict that starts empty. *)
Definition dict_comprehension (cond : string -> pyval -> bool)
    (items : list (string * pyval)) : dict :=
  fold_left (fun acc kv => if cond (fst kv) (snd kv)
                           then dict_setitem acc (fst kv) (snd kv)
                           else acc)
            items [].

(** [range(start, stop, step)] for a positive step, as the iteration it
    stands for; [bound] limits the number of values. *)
Fixpoint range_from (bound i stop step : nat) : list nat :=
  match bound with
  | 0 => []
  | S bound' =>
      if i <? stop then i :: range_from bound' (i + step) stop step else []
  end.

Definition py_range3 (start stop step : nat) : list nat :=
  range_from stop start stop step.

(** [range(n)]. *)
Definition py_range (n : nat) : list nat := py_range3 0 n 1.

(** [l[lo:hi]] for non-negative bounds: out-of-range bounds are clipped. *)
Definition py_slice {A : Type} (l : list A) (lo hi : nat) : list A :=
  firstn (hi - lo) (skipn lo l).

(** [zip(a, b, c)]: stops with the shortest of the three. *)
Fixpoint py_zip3 {A B C : Type} (a : list A) (b : list B) (c : list C)
  : list (A * B * C) :=
  match a, b, c with
  | x :: a', y :: b', z :: c' => (x, y, z) :: py_zip3 a' b' c'
  | _, _, _ => []
  end.

(** [str(i)] for a non-negative [int]: its decimal digits. *)
Definition py_str (i : nat) : string :=
  NilEmpty.string_of_uint (Nat.to_uint i).

End Py.
Export Py.

(** ** [hashlib.md5]: the MD5 message digest (RFC 1321)

    32-bit words are integers in [0, 2^32) with the wrap-around written out. *)

Module MD5.

Local Open Scope Z_scope.

Definition mask32 : Z := 0xffffffff.

Definition add32 (a b : Z) : Z := Z.land (a + b) mask32.

Definition not32 (a : Z) : Z := Z.lxor a mask32.

Definition rotl32 (x c : Z) : Z :=
  Z.lor (Z.land (Z.shiftl x c) mask32) (Z.shiftr x (32 - c)).

Definition F (b c d : Z) : Z := Z.lor (Z.land b c) (Z.land (not32 b) d).
Definition G (b c d : Z) : Z := Z.lor (Z.land b d) (Z.land c (not32 d)).
Definition H (b c d : Z) : Z := Z.lxor (Z.lxor b c) d.
Definition I (b c d : Z) : Z := Z.lxor c (Z.lor b (not32 d)).

(** Per-round shift amounts. *)
Definition S : list Z :=
  [7; 12; 17; 22; 7; 12; 17; 22; 7; 12; 17; 22; 7; 12; 17; 22;
   5; 9; 14; 20; 5; 9; 14; 20; 5; 9; 14; 20; 5; 9; 14; 20;
   4; 11; 16; 23; 4; 11; 16; 23; 4; 11; 16; 23; 4; 11; 16; 23;
   6; 10; 15; 21; 6; 10; 15; 21; 6; 10; 15; 21; 6; 10; 15; 21].

(** [K[i] = floor(2^32 * abs(sin(i + 1)))]. *)
Definition K : list Z :=
  [0xd76aa478; 0xe8c7b756; 0x242070db; 0xc1bdceee;
   0xf57c0faf; 0x4787c62a; 0xa8304613; 0xfd469501;
   0x698098d8; 0x8b44f7af; 0xffff5bb1; 0x895cd7be;
   0x6b901122; 0xfd987193; 0xa679438e; 0x49b40821;
   0xf61e2562; 0xc040b340; 0x265e5a51; 0xe9b6c7aa;
   0xd62f105d; 0x02441453; 0xd8a1e681; 0xe7d3fbc8;
   0x21e1cde6; 0xc33707d6; 0xf4d50d87; 0x455a14ed;
   0xa9e3e905; 0xfcefa3f8; 0x676f02d9; 0x8d2a4c8a;
   0xfffa3942; 0x8771f681; 0x6d9d6122; 0xfde5380c;
   0xa4beea44; 0x4bdecfa9; 0xf6bb4b60; 0xbebfbc70;
   0x289b7ec6; 0xeaa127fa; 0xd4ef3085; 0x04881d05;
   0xd9d4d039; 0xe6db99e5; 0x1fa27cf8; 0xc4ac5665;
   0xf4292244; 0x432aff97; 0xab9423a7; 0xfc93a039;
   0x655b59c3; 0x8f0ccc92; 0xffeff47d; 0x85845dd1;
   0x6fa87e4f; 0xfe2ce6e0; 0xa3014314; 0x4e0811a1;
   0xf7537e82; 0xbd3af235; 0x2ad7d2bb; 0xeb86d391].

Definition state : Type := (Z * Z * Z * Z)%type.

Definition init : state := (0x67452301, 0xefcdab89, 0x98badcfe, 0x10325476).

(** Little-endian bytes of a word, and back. *)
Definition le_bytes (n : nat) (w : Z) : list Z :=
  map (fun k => Z.land (Z.shiftr w (8 * Z.of_nat k)) 0xff) (seq 0 n).

Definition word_at (block : list Z) (j : nat) : Z :=
  fold_right (fun b acc => b + 256 * acc) 0
             (firstn 4 (skipn (4 * j) block)).

Definition words (block : list Z) : list Z := map (word_at block) (seq 0 16).

(** One of the 64 operations on a block. *)
Definition step (M : list Z) (st : state) (i : nat) : state :=
  let '(a, b, c, d) := st in
  let '(f, g) :=
    match (i / 16)%nat with
    | 0%nat => (F b c d, i)
    | 1%nat => (G b c d, ((5 * i + 1) mod 16)%nat)
    | 2%nat => (H b c d, ((3 * i + 5) mod 16)%nat)
    | _ => (I b c d, ((7 * i) mod 16)%nat)
    end in
  let f' := add32 (add32 (add32 f a) (nth i K 0)) (nth g M 0) in
  (d, add32 b (rotl32 f' (nth i S 0)), b, c).

Definition compress (st : state) (block : list Z) : state :=
  let '(a0, b0, c0, d0) := st in
  let '(a, b, c, d) := fold_left (step (words block)) (seq 0 64) st in
  (add32 a0 a, add32 b0 b, add32 c0 c, add32 d0 d).

(** The message, a 1 bit, zero bits up to 56 modulo 64 bytes, then the bit
    length on 64 bits. *)
Definition pad (msg : list Z) : list Z :=
  let len := List.length msg in
  msg ++ [0x80]
      ++ repeat 0 ((119 - len mod 64) mod 64)%nat
      ++ le_bytes 8 (Z.land (8 * Z.of_nat len) 0xffffffffffffffff).

Fixpoint blocks (n : nat) (msg : list Z) (st : state) : state :=
  match n with
  | O => st
  | Datatypes.S n' => blocks n' (skipn 64 msg) (compress st (firstn 64 msg))
  end.

Definition byte_of_Z (z : Z) : byte :=
  match Byte.of_N (Z.to_N (Z.land z 0xff)) with
  | Some b => b
  | None => x00
  end.

Definition Z_of_byte (b : byte) : Z := Z.of_N (Byte.to_N b).

(** [hashlib.md5(data).digest()]: 16 bytes. *)
Definition digest (data : list byte) : list byte :=
  let padded := pad (map Z_of_byte data) in
  let '(a, b, c, d) := blocks (List.length padded / 64) padded init in
  map byte_of_Z (le_bytes 4 a ++ le_bytes 4 b ++ le_bytes 4 c ++ le_bytes 4 d).

Definition hexdigit (n : N) : ascii :=
  nth (N.to_nat n) (list_ascii_of_string "0123456789abcdef") "0"%char.

Definition hex_of_byte (b : byte) : list ascii :=
  let n := Byte.to_N b in [hexdigit (n / 16); hexdigit (n mod 16)].

(** [bytes.hex()]: two lowercase hexadecimal digits per byte. *)
Definition hex (bs : list byte) : string :=
  string_of_list_ascii (flat_map hex_of_byte bs).

(** [bytes.fromhex] on the two digits of one byte. *)
Definition hexval (c : ascii) : N :=
  match c with
  | "0" => 0 | "1" => 1 | "2" => 2 | "3" => 3 | "4" => 4 | "5" => 5
  | "6" => 6 | "7" => 7 | "8" => 8 | "9" => 9 | "a" => 10 | "b" => 11
  | "c" => 12 | "d" => 13 | "e" => 14 | "f" => 15 | _ => 16
  end%char%N.

Definition unhex_byte (digits : list ascii) : option byte :=
  match digits with
  | [hi; lo] => Byte.of_N (16 * hexval hi + hexval lo)
  | _ => None
  end.

Definition lower_hex_digit (c : ascii) : bool := (hexval c <? 16)%N.

(** [hashlib.md5(data).hexdigest()]. *)
Definition hexdigest (data : list byte) : string := hex (digest data).

End MD5.

(** [s.encode()]: the bytes of the string. *)
Definition encode (s : string) : list byte := list_byte_of_string s.

(** ** Documents, events and the monad of asset bodies *)

(** [langchain_core.documents.Document]. *)
Record Document : Type := mkDocument {
  page_content : string;
  metadata : dict
}.

(** An embedding vector: [item.embedding], a list of floats. *)
Definition embedding : Type := list float.

(** One element of the [vectors] argument of [index.upsert]: id, vector and
    metadata. *)
Definition vector_record : Type := (string * embedding * dict)%type.

(** [dg.MaterializeResult(metadata=...)]. *)
Record MaterializeResult : Type := mkMaterializeResult {
  result_metadata : dict
}.

Inductive exn : Type :=
| KeyError (key : string)
| AttributeError (attribute : string)
| ExternalError (message : string).

Inductive result (A : Type) : Type :=
| Ok (a : A)
| Raise (e : exn).
Arguments Ok {A} a.
Arguments Raise {A} e.

(** What an asset does to the outside world, in the order it does it. A call
    to the embedding provider or to the scraper is recorded with its answer.
    [EvUpsert] carries the index name and namespace that were given to
    [pinecone.get_index], whose result is passed on to [index.upsert]. *)
Inductive event : Type :=
| EvCreateIndex (name : string) (dimension : nat)
| EvGetIndex (name namespace : string)
| EvEmbed (model : string) (input : list string)
          (response : result (list embedding))
| EvSleep (seconds : Q)
| EvUpsert (name namespace : string) (vectors : list vector_record)
| EvParseSitemap (response : result (list string))
| EvScrapePage (url : string) (response : result (option Document))
| EvAddOutputMetadata (md : dict).

(** The metadata clean-up that the three embedding assets apply to every
    document:
    [{k: v for k, v in doc.metadata.items()
      if isinstance(v, (str, int, float, bool))}]. *)
Definition sanitize (md : dict) : dict :=
  dict_comprehension
    (fun _ v => isinstance v [ty_str; ty_int; ty_float; ty_bool]) md.

(** [hashlib.md5(source.encode()).hexdigest()]. *)
Definition md5_hex (source : string) : string := MD5.hexdigest (encode source).

Declare Scope py_scope.
Delimit Scope py_scope with py.

Section Assets.

(** The state of the external services, and their answers: the embeddings
    endpoint of the OpenAI client and the two methods of [SitemapScraper].
    Each may fail, and each may answer differently from one call to the
    next. *)
Variable W : Type.
Variable openai_embeddings_create :
  string -> list string -> W -> result (list embedding) * W.
Variable scraper_parse_sitemap : W -> result (list string) * W.
Variable scraper_scrape_page : string -> W -> result (option Document) * W.

(** A computation returns a value or raises, emits events, and moves the
    external state. *)
Definition M (A : Type) : Type := W -> result A * list event * W.

Definition ret {A : Type} (a : A) : M A := fun w => (Ok a, [], w).

Definition raise {A : Type} (e : exn) : M A := fun w => (Raise e, [], w).

Definition bind {A B : Type} (m : M A) (f : A -> M B) : M B :=
  fun w =>
    match m w with
    | (Ok a, t1, w1) =>
        match f a w1 with
        | (r, t2, w2) => (r, t1 ++ t2, w2)
        end
    | (Raise e, t1, w1) => (Raise e, t1, w1)
    end.

Notation "x <- m ;; k" := (bind m (fun x => k))
  (at level 61, m at next level, right associativity) : py_scope.
Notation "m ;; k" := (bind m (fun _ => k))
  (at level 61, right associativity) : py_scope.
Local Open Scope py_scope.

Definition emit (e : event) : M unit := fun w => (Ok tt, [e], w).

(** [for x in xs: body], threading the variables the body assigns. *)
Fixpoint for_loop {A S : Type} (xs : list A) (body : A -> S -> M S) (s : S)
  : M S :=
  match xs with
  | [] => ret s
  | x :: xs' => s' <- body x s ;; for_loop xs' body s'
  end.

(** [[f(x) for x in xs]] when [f] may raise. *)
Fixpoint list_comprehension {A B : Type} (f : A -> M B) (xs : list A)
  : M (list B) :=
  match xs with
  | [] => ret []
  | x :: xs' => y <- f x ;; ys <- list_comprehension f xs' ;; ret (y :: ys)
  end.

(** [[item.embedding for item in
      client.embeddings.create(model=model, input=input).data]]. The client
    is the one the [with openai.get_client(context)] block provides; entering
    and leaving the block is not recorded. *)
Definition embeddings_create (model : string) (input : list string)
  : M (list embedding) :=
  fun w =>
    match openai_embeddings_create model input w with
    | (r, w') => (r, [EvEmbed model input r], w')
    end.

Definition parse_sitemap : M (list string) :=
  fun w =>
    match scraper_parse_sitemap w with
    | (r, w') => (r, [EvParseSitemap r], w')
    end.

Definition scrape_page (url : string) : M (option Document) :=
  fun w =>
    match scraper_scrape_page url w with
    | (r, w') => (r, [EvScrapePage url r], w')
    end.

Definition time_sleep (seconds : Q) : M unit := emit (EvSleep seconds).

Definition pinecone_create_index (name : string) (dimension : nat) : M unit :=
  emit (EvCreateIndex name dimension).

Definition pinecone_get_index (name namespace : string)
  : M (string * string) :=
  emit (EvGetIndex name namespace) ;; ret (name, namespace).

Definition index_upsert (index : string * string)
    (vectors : list vector_record) : M unit :=
  emit (EvUpsert (fst index) (snd index) vectors).

Definition add_output_metadata (md : dict) : M unit :=
  emit (EvAddOutputMetadata md).

(** [d[k]]. *)
Definition getitem (d : dict) (k : string) : M pyval :=
  match dict_lookup d k with
  | Some v => ret v
  | None => raise (KeyError k)
  end.

(** [v.encode()]: only a [str] has the method. *)
Definition str_encode (v : pyval) : M (list byte) :=
  match v with
  | PStr s => ret (encode s)
  | _ => raise (AttributeError "encode")
  end.

Definition len {A : Type} (l : list A) : Z := Z.of_nat (List.length l).

(** *** [github_issues_embeddings] *)

Definition github_issues_embeddings (github_issues_raw : list Document)
  : M MaterializeResult :=
  pinecone_create_index "dagster-knowledge" 1536 ;;
  index <- pinecone_get_index "dagster-knowledge" "dagster-github" ;;
  let texts := map page_content github_issues_raw in
  embeddings <- embeddings_create "text-embedding-3-small" texts ;;
  let metadata := map (fun doc => sanitize doc.(metadata)) github_issues_raw in
  index_upsert index
    (py_zip3 (map py_str (py_range (List.length texts))) embeddings
             metadata) ;;
  ret (mkMaterializeResult
         [("number_of_issues", PInt (len github_issues_raw))]).

(** *** [github_discussions_embeddings] *)

(** One iteration of the loop of the [with] block, for the index [i]. *)
Definition embed_batch (BATCH_SIZE : nat) (all_texts : list string)
    (i : nat) (all_embeddings : list embedding) : M (list embedding) :=
  let batch_texts := py_slice all_texts i (i + BATCH_SIZE) in
  batch_embeddings <-
    embeddings_create "text-embedding-3-small" batch_texts ;;
  let all_embeddings := all_embeddings ++ batch_embeddings in
  time_sleep 1 ;;
  ret all_embeddings.

(** The body of the [with] block: the loop over [range(0, len(all_texts),
    BATCH_SIZE)], which extends [all_embeddings] batch by batch. *)
Definition embed_in_batches (BATCH_SIZE : nat) (all_texts : list string)
  : M (list embedding) :=
  for_loop (py_range3 0 (List.length all_texts) BATCH_SIZE)
           (embed_batch BATCH_SIZE all_texts) [].

Definition BATCH_SIZE : nat := 20.

Definition github_discussions_embeddings
    (github_discussions_raw : list Document) : M MaterializeResult :=
  pinecone_create_index "dagster-knowledge" 1536 ;;
  index <- pinecone_get_index "dagster-knowledge" "dagster-github" ;;
  let all_texts := map page_content github_discussions_raw in
  all_embeddings <- embed_in_batches BATCH_SIZE all_texts ;;
  let metadata :=
    map (fun doc => sanitize doc.(metadata)) github_discussions_raw in
  index_upsert index
    (py_zip3 (map py_str (py_range (List.length all_texts)))
             all_embeddings metadata) ;;
  ret (mkMaterializeResult
         [("number_of_discussions", PInt (len github_discussions_raw))]).

(** *** [docs_scrape_raw] *)

(** [enumerate(xs, start)]. *)
Definition enumerate {A : Type} (xs : list A) (start : nat)
  : list (nat * A) :=
  combine (seq start (List.length xs)) xs.

(** One iteration of the scraping loop. *)
Definition scrape_one (i_url : nat * string) (documents : list Document)
  : M (list Document) :=
  doc <- scrape_page (snd i_url) ;;
  let documents :=
    match doc with
    | Some d => documents ++ [d]
    | None => documents
    end in
  time_sleep (1 # 2) ;;
  ret documents.

Definition docs_scrape_raw : M (list Document) :=
  sitemap <- parse_sitemap ;;
  let urls := py_slice sitemap 0 4 in
  documents <- for_loop (enumerate urls 1) scrape_one [] ;;
  add_output_metadata [("pages scraped", PInt (len urls))] ;;
  ret documents.

(** *** [docs_embedding] *)

(** [hashlib.md5(doc.metadata["source"].encode()).hexdigest()]. *)
Definition doc_id_of (doc : Document) : M string :=
  source <- getitem doc.(metadata) "source" ;;
  data <- str_encode source ;;
  ret (MD5.hexdigest data).

(** One iteration of the loop that prepares metadata and ids. *)
Definition prepare_doc (doc : Document)
    (md_ids : list dict * list string) : M (list dict * list string) :=
  let '(metadatas, doc_ids) := md_ids in
  let meta := sanitize doc.(metadata) in
  let metadatas := metadatas ++ [meta] in
  doc_id <- doc_id_of doc ;;
  let doc_ids := doc_ids ++ [doc_id] in
  ret (metadatas, doc_ids).

Definition docs_embedding (docs_scrape_raw : list Document)
  : M MaterializeResult :=
  pinecone_create_index "dagster-knowledge" 1536 ;;
  index <- pinecone_get_index "dagster-knowledge" "dagster-docs" ;;
  let texts := map page_content docs_scrape_raw in
  embeddings <- embeddings_create "text-embedding-3-small" texts ;;
  md_ids <- for_loop docs_scrape_raw prepare_doc ([], []) ;;
  let '(metadatas, doc_ids) := md_ids in
  index_upsert index (py_zip3 doc_ids embeddings metadatas) ;;
  urls_processed <-
    list_comprehension (fun doc => getitem doc.(metadata) "source")
                       docs_scrape_raw ;;
  ret (mkMaterializeResult
         [("documents_embedded", PInt (len docs_scrape_raw));
          ("embedding_dimension",
           PInt (match embeddings with
                 | e0 :: _ => len e0
                 | [] => 0%Z
                 end));
          ("urls_processed", PList urls_processed)]).

End Assets.

Arguments ret {W A} a w.
Arguments bind {W A B} m f w.
Arguments for_loop {W A S} xs body s w.
Arguments list_comprehension {W A B} f xs w.

(** ** Reading a run

    What the statements below say about a run is read off its trace. *)

Definition run_result {W A : Type} (r : result A * list event * W) : result A :=
  fst (fst r).

Definition run_trace {W A : Type} (r : result A * list event * W) : list event :=
  snd (fst r).

(** The calls made to the embedding provider, oldest first: input texts and
    answer. *)
Definition embed_calls (tr : list event)
  : list (list string * result (list embedding)) :=
  flat_map (fun ev => match ev with
                      | EvEmbed _ input r => [(input, r)]
                      | _ => []
                      end) tr.

Definition vectors_of (r : result (list embedding)) : list embedding :=
  match r with
  | Ok vs => vs
  | Raise _ => []
  end.

(** All vectors the provider returned during the run, in the order they came
    back. *)
Definition returned_vectors (tr : list event) : list embedding :=
  flat_map (fun c => vectors_of (snd c)) (embed_calls tr).

(** All texts the provider was given during the run. *)
Definition sent_texts (tr : list event) : list string :=
  flat_map fst (embed_calls tr).

(** Each text paired with the vector that came back at its position in the
    call that carried it. *)
Definition embedded_pairs (tr : list event) : list (string * embedding) :=
  flat_map (fun c => combine (fst c) (vectors_of (snd c))) (embed_calls tr).

(** The [vectors] arguments of the upserts of the run. *)
Definition upserts (tr : list event) : list (list vector_record) :=
  flat_map (fun ev => match ev with
                      | EvUpsert _ _ vectors => [vectors]
                      | _ => []
                      end) tr.

(** The pauses of the run. *)
Definition sleeps (tr : list event) : list Q :=
  flat_map (fun ev => match ev with
                      | EvSleep s => [s]
                      | _ => []
                      end) tr.

(** The pages asked from the scraper, with its answers. *)
Definition scrape_calls (tr : list event)
  : list (string * result (option Document)) :=
  flat_map (fun ev => match ev with
                      | EvScrapePage url r => [(url, r)]
                      | _ => []
                      end) tr.

(** The metadata attached to the output with [context.add_output_metadata]. *)
Definition output_metadata (tr : list event) : list dict :=
  flat_map (fun ev => match ev with
                      | EvAddOutputMetadata md => [md]
                      | _ => []
                      end) tr.

Definition record_id (r : vector_record) : string := fst (fst r).

(** The values the metadata filter lets through: string, integer,
    floating-point number, boolean. *)
Definition is_primitive (v : pyval) : bool :=
  match v with
  | PStr _ | PInt _ | PFloat _ | PBool _ => true
  | PNone | PList _ | PDict _ => false
  end.

(** The source URL of a scraped document, when its metadata has one. *)
Definition source_of (doc : Document) : option string :=
  match dict_lookup doc.(metadata) "source" with
  | Some (PStr s) => Some s
  | _ => None
  end.

(** The batches of the discussions asset: the successive values of
    [batch_texts]. *)
Definition batches (B : nat) (texts : list string) : list (list string) :=
  map (fun i => py_slice texts i (i + B)) (py_range3 0 (List.length texts) B).

(** What one completed iteration of the batch loop leaves in the trace: the
    provider call on the batch, then the pause. *)
Definition batch_events (c : list string) (vs : list embedding) : list event :=
  [EvEmbed "text-embedding-3-small" c (Ok vs); EvSleep 1].

(** What one completed iteration of the scraping loop leaves in the trace. *)
Definition scrape_events (url : string) (d : option Document) : list event :=
  [EvScrapePage url (Ok d); EvSleep (1 # 2)].

(** The documents among the answers of the scraper. *)
Definition scraped (answers : list (option Document)) : list Document :=
  flat_map (fun d => match d with Some doc => [doc] | None => [] end) answers.

(** The vectors [vs] are an answer of the provider to the texts [c]. *)
Definition answers {W : Type}
    (create : string -> list string -> W -> result (list embedding) * W)
    (c : list string) (vs : list embedding) : Prop :=
  exists w, fst (create "text-embedding-3-small" c w) = Ok vs.

(** The metadata prepared for the upsert: one cleaned mapping per document. *)
Definition prepared_metadata (docs : list Document) : list dict :=
  map (fun doc => sanitize doc.(metadata)) docs.

(** The ids of the issues and discussions assets:
    [[str(i) for i in range(n)]]. *)
Definition sequential_ids (n : nat) : list string := map py_str (py_range n).

(** The result of [docs_embedding] on documents with the sources [srcs],
    when the provider returned [vs]. *)
Definition docs_result (docs : list Document) (srcs : list string)
    (vs : list embedding) : MaterializeResult :=
  mkMaterializeResult
    [("documents_embedded", PInt (len docs));
     ("embedding_dimension",
      PInt (match vs with e0 :: _ => len e0 | [] => 0%Z end));
     ("urls_processed", PList (map PStr srcs))].

(** The documents among the answers recorded in a trace. *)
Definition scraped_documents (tr : list event) : list Document :=
  flat_map (fun c => match snd c with
                     | Ok (Some doc) => [doc]
                     | _ => []
                     end) (scrape_calls tr).

(** The number of pages for which the scraper answered [None]. *)
Definition null_answers (tr : list event) : nat :=
  List.length (filter (fun c => match snd c with
                                | Ok None => true
                                | _ => false
                                end) (scrape_calls tr)).

(** The trace of a run of the discussions asset in which the provider
    answered the successive batches with [resps]: index set-up, then for each
    batch the provider call followed by the pause, then the upsert. *)
Definition discussions_trace (docs : list Document)
    (resps : list (list embedding)) : list event :=
  [EvCreateIndex "dagster-knowledge" 1536;
   EvGetIndex "dagster-knowledge" "dagster-github"]
  ++ flat_map (fun cr => batch_events (fst cr) (snd cr))
              (combine (batches 20 (map page_content docs)) resps)
  ++ [EvUpsert "dagster-knowledge" "dagster-github"
               (py_zip3 (sequential_ids (List.length docs))
                        (List.concat resps) (prepared_metadata docs))].

(** The trace of a run of the issues asset in which the provider answered
    [vs]. *)
Definition issues_trace (docs : list Document) (vs : list embedding)
  : list event :=
  [EvCreateIndex "dagster-knowledge" 1536;
   EvGetIndex "dagster-knowledge" "dagster-github";
   EvEmbed "text-embedding-3-small" (map page_content docs) (Ok vs);
   EvUpsert "dagster-knowledge" "dagster-github"
            (py_zip3 (sequential_ids (List.length docs)) vs
                     (prepared_metadata docs))].

(** The trace of a run of the documentation asset on documents with the
    sources [srcs] in which the provider answered [vs]. *)
Definition docs_trace (docs : list Document) (srcs : list string)
    (vs : list embedding) : list event :=
  [EvCreateIndex "dagster-knowledge" 1536;
   EvGetIndex "dagster-knowledge" "dagster-docs";
   EvEmbed "text-embedding-3-small" (map page_content docs) (Ok vs);
   EvUpsert "dagster-knowledge" "dagster-docs"
            (py_zip3 (map md5_hex srcs) vs (prepared_metadata docs))].

(** The id an asset gives to the document at position [i]: its position in
    decimal for issues and discussions, the MD5 of its source URL for
    documentation pages. *)
Definition sequential_id (i : nat) (doc : Document) : option string :=
  Some (py_str i).

Definition content_id (i : nat) (doc : Document) : option string :=
  option_map md5_hex (source_of doc).

(** The run with trace [tr] kept texts, vectors, metadata and ids aligned with
    the documents: one upsert, built from an id sequence, the vectors the
    provider returned and the cleaned metadata, all as long as the document
    list, and at every position the text sent, the vector returned for it,
    the id and the cleaned metadata are those of the document there. *)
Definition run_aligned (id_at : nat -> Document -> option string)
    (docs : list Document) (tr : list event) : Prop :=
  exists (ids : list string) (records : list vector_record),
    upserts tr = [records]
    /\ records = py_zip3 ids (returned_vectors tr) (prepared_metadata docs)
    /\ List.length (sent_texts tr) = List.length docs
    /\ List.length (returned_vectors tr) = List.length docs
    /\ List.length (prepared_metadata docs) = List.length docs
    /\ List.length ids = List.length docs
    /\ List.length records = List.length docs
    /\ forall i doc,
         nth_error docs i = Some doc ->
         exists v id,
           nth_error (sent_texts tr) i = Some (page_content doc)
           /\ nth_error (returned_vectors tr) i = Some v
           /\ nth_error (embedded_pairs tr) i = Some (page_content doc, v)
           /\ id_at i doc = Some id
           /\ nth_error ids i = Some id
           /\ nth_error records i = Some (id, v, sanitize doc.(metadata)).

(** The upsert of the run with trace [tr] is the [zip] of an id per
    document, the vectors the provider returned and the cleaned metadata: it
    has as many records as the shortest of the three, and when the provider
    returned [m] vectors, fewer than there are documents, the records are
    those of the first [m] ids and metadata. *)
Definition zipped_upsert (docs : list Document) (tr : list event) : Prop :=
  exists (ids : list string) (records : list vector_record),
    let embs := returned_vectors tr in
    let mds := prepared_metadata docs in
    List.length ids = List.length docs
    /\ List.length mds = List.length docs
    /\ upserts tr = [records]
    /\ records = py_zip3 ids embs mds
    /\ List.length records
       = Nat.min (List.length ids)
                 (Nat.min (List.length embs) (List.length mds))
    /\ (List.length embs < List.length docs ->
        List.length records = List.length embs
        /\ records = py_zip3 (firstn (List.length embs) ids) embs
                             (firstn (List.length embs) mds)).

(** [int(s)] for a string of decimal digits. *)
Definition py_int (s : string) : option nat :=
  option_map Nat.of_uint (NilEmpty.uint_of_string s).

(** [ceil(n / b)] on naturals. *)
Definition ceil_div (n b : nat) : nat := (n + b - 1) / b.

(** The embedding provider never fails. *)
Definition provider_total {W : Type}
    (create : string -> list string -> W -> result (list embedding) * W)
  : Prop :=
  forall model input w, exists vs, fst (create model input w) = Ok vs.

(** The embedding provider returns one vector per input text. *)
Definition provider_aligned {W : Type}
    (create : string -> list string -> W -> result (list embedding) * W)
  : Prop :=
  forall model input w,
    exists vs, fst (create model input w) = Ok vs
               /\ List.length vs = List.length input.

(** The scraper never fails: a page that cannot be scraped is answered with
    [None]. *)
Definition scraper_total {W : Type}
    (parse : W -> result (list string) * W)
    (scrape : string -> W -> result (option Document) * W) : Prop :=
  (forall w, exists urls, fst (parse w) = Ok urls)
  /\ (forall url w, exists d, fst (scrape url w) = Ok d).

(** ** Sample collaborators and documents *)

Module Sample.

(** A provider that answers every text with a vector as long as the text,
    and counts its calls. *)
Definition provider (model : string) (input : list string) (calls : nat)
  : result (list embedding) * nat :=
  (Ok (map (fun t => repeat 1%float (String.length t)) input), S calls).

(** A provider that forgets the vector of the last text. *)
Definition short_provider (model : string) (input : list string) (calls : nat)
  : result (list embedding) * nat :=
  (Ok (removelast (map (fun t => repeat 1%float (String.length t)) input)),
   S calls).

Definition sitemap : list string :=
  ["https://docs.dagster.io/a"; "https://docs.dagster.io/b";
   "https://docs.dagster.io/c"; "https://docs.dagster.io/d";
   "https://docs.dagster.io/e"; "https://docs.dagster.io/f"].

Definition parse (calls : nat) : result (list string) * nat :=
  (Ok sitemap, S calls).

Definition page (url : string) : Document :=
  mkDocument ("content of " ++ url)
             [("source", PStr url); ("title", PStr "Docs")].

(** A scraper for which page [b] cannot be scraped. *)
Definition scrape (url : string) (calls : nat)
  : result (option Document) * nat :=
  (Ok (if String.eqb url "https://docs.dagster.io/b" then None
       else Some (page url)),
   S calls).

Definition issue (n : Z) (body : string) : Document :=
  mkDocument body
             [("number", PInt n); ("state", PStr "open");
              ("labels", PList [PStr "bug"]); ("closed_at", PNone);
              ("locked", PBool false); ("score", PFloat 0.5%float);
              ("user", PDict [("login", PStr "octocat")])].

Definition issues : list Document :=
  [issue 1 "first issue"; issue 2 "second"; issue 3 "third one"].

Definition pages : list Document :=
  [page "https://docs.dagster.io/a"; page "https://docs.dagster.io/c"].

(** 25 discussions. *)
Definition discussions : list Document :=
  map (fun n => issue (Z.of_nat n) (py_str n)) (seq 0 25).

End Sample.

(** ** The raw GitHub assets

    [github_issues_raw] and [github_discussions_raw] read the partition's time
    window from the context, log it, ask the GitHub resource for the items of
    the window and convert them to documents. *)

(** What a raw asset does to the outside world. [Raw] is whatever the GitHub
    client returns for a fetch. *)
Inductive github_event (Raw : Type) : Type :=
| GhLogInfo (message : string)
| GhGetIssues (start_date end_date : string) (response : result Raw)
| GhGetDiscussions (start_date end_date : string) (response : result Raw)
| GhConvertIssues (response : result (list Document))
| GhConvertDiscussions (response : result (list Document)).
Arguments GhLogInfo {Raw} message.
Arguments GhGetIssues {Raw} start_date end_date response.
Arguments GhGetDiscussions {Raw} start_date end_date response.
Arguments GhConvertIssues {Raw} response.
Arguments GhConvertDiscussions {Raw} response.

(** [str(n).zfill(width)]: the decimal digits of [n], with zeros in front up
    to [width] characters. *)
Definition zero_pad (width n : nat) : string :=
  string_of_list_ascii
    (repeat "0"%char (width - String.length (py_str n))) ++ py_str n.

(** The date a string of the form [YYYY-MM-DD] stands for. *)
Definition parse_date (s : string) : option (nat * nat * nat) :=
  match py_int (substring 0 4 s), py_int (substring 5 2 s),
        py_int (substring 8 2 s) with
  | Some y, Some m, Some d =>
      if (String.length s =? 10)
         && String.eqb (substring 4 1 s) "-"
         && String.eqb (substring 7 1 s) "-"
      then Some (y, m, d) else None
  | _, _, _ => None
  end.

Section GithubRaw.

(** The state of the outside world; the [datetime] values of the time window
    with the fields [strftime] reads and their [str]; the items the GitHub
    client returns; the four methods of [GithubResource] the assets call. *)
Variable W : Type.
Variable datetime : Type.
Variable dt_year dt_month dt_day : datetime -> nat.
Variable dt_str : datetime -> string.
Variable Raw : Type.
Variable github_get_issues : string -> string -> W -> result Raw * W.
Variable github_get_discussions : string -> string -> W -> result Raw * W.
Variable github_convert_issues_to_documents :
  Raw -> W -> result (list Document) * W.
Variable github_convert_discussions_to_documents :
  Raw -> W -> result (list Document) * W.

(** [dt.strftime("%Y-%m-%d")]: month and day on two digits, and the year on
    four, which is what every platform prints for the years from 1000 on (the
    partitions start on 2023-01-01). *)
Definition strftime_Ymd (dt : datetime) : string :=
  zero_pad 4 (dt_year dt) ++ "-" ++ zero_pad 2 (dt_month dt) ++ "-"
  ++ zero_pad 2 (dt_day dt).

Definition github_issues_raw (partition_time_window : datetime * datetime)
    (w : W) : result (list Document) * list (github_event Raw) * W :=
  let '(start, end_) := partition_time_window in
  let log :=
    GhLogInfo ("Finding issues from " ++ dt_str start ++ " to "
               ++ dt_str end_) in
  let start_date := strftime_Ymd start in
  let end_date := strftime_Ymd end_ in
  match github_get_issues start_date end_date w with
  | (Ok issues, w1) =>
      match github_convert_issues_to_documents issues w1 with
      | (r, w2) =>
          (r, [log; GhGetIssues start_date end_date (Ok issues);
               GhConvertIssues r], w2)
      end
  | (Raise e, w1) =>
      (Raise e, [log; GhGetIssues start_date end_date (Raise e)], w1)
  end.

Definition github_discussions_raw (partition_time_window : datetime * datetime)
    (w : W) : result (list Document) * list (github_event Raw) * W :=
  let '(start, end_) := partition_time_window in
  let log :=
    GhLogInfo ("Finding discussions from " ++ dt_str start ++ " to "
               ++ dt_str end_) in
  let start_date := strftime_Ymd start in
  let end_date := strftime_Ymd end_ in
  match github_get_discussions start_date end_date w with
  | (Ok discussions, w1) =>
      match github_convert_discussions_to_documents discussions w1 with
      | (r, w2) =>
          (r, [log; GhGetDiscussions start_date end_date (Ok discussions);
               GhConvertDiscussions r], w2)
      end
  | (Raise e, w1) =>
      (Raise e, [log; GhGetDiscussions start_date end_date (Raise e)], w1)
  end.

End GithubRaw.

(** The fetches of a raw asset's run: start date, end date, and whether the
    client answered. *)
Definition fetches {Raw : Type} (tr : list (github_event Raw))
  : list (string * string * bool) :=
  flat_map (fun ev => match ev with
                      | GhGetIssues s e (Ok _)
                      | GhGetDiscussions s e (Ok _) => [(s, e, true)]
                      | GhGetIssues s e (Raise _)
                      | GhGetDiscussions s e (Raise _) => [(s, e, false)]
                      | _ => []
                      end) tr.

(** The conversions of a raw asset's run. *)
Definition conversions {Raw : Type} (tr : list (github_event Raw))
  : list (result (list Document)) :=
  flat_map (fun ev => match ev with
                      | GhConvertIssues r | GhConvertDiscussions r => [r]
                      | _ => []
                      end) tr.

(** A [datetime] with a year of four digits, a month and a day of the
    month. *)
Definition valid_date {datetime : Type}
    (dt_year dt_month dt_day : datetime -> nat) (dt : datetime) : Prop :=
  1000 <= dt_year dt < 10 * 1000 /\ 1 <= dt_month dt <= 12
  /\ 1 <= dt_day dt <= 31.

Definition date_of_datetime {datetime : Type}
    (dt_year dt_month dt_day : datetime -> nat) (dt : datetime)
  : nat * nat * nat :=
  (dt_year dt, dt_month dt, dt_day dt).

(** ** The documentation pipeline

    [docs_embedding] takes the output of [docs_scrape_raw] as its
    [docs_scrape_raw] argument: the scraping asset runs first and the list it
    returns is handed to the embedding asset as it is. *)
Definition docs_pipeline (W : Type)
    (create : string -> list string -> W -> result (list embedding) * W)
    (parse : W -> result (list string) * W)
    (scrape : string -> W -> result (option Document) * W)
  : M W MaterializeResult :=
  bind (docs_scrape_raw W parse scrape) (docs_embedding W create).

(** ** More ways to read a run *)

(** The index name and namespace of each upsert of the run. *)
Definition upsert_targets (tr : list event) : list (string * string) :=
  flat_map (fun ev => match ev with
                      | EvUpsert name namespace _ => [(name, namespace)]
                      | _ => []
                      end) tr.

(** The value reported under [key] in the result of an asset. *)
Definition reported (res : MaterializeResult) (key : string) : option pyval :=
  dict_lookup (result_metadata res) key.

(** The scraper answers only with pages that carry a source URL. *)
Definition scraper_sets_source {W : Type}
    (scrape : string -> W -> result (option Document) * W) : Prop :=
  forall url w doc,
    fst (scrape url w) = Ok (Some doc) -> exists src, source_of doc = Some src.



(** ** Collaborators that fail *)

Module Faulty.

(** A provider whose second call is refused. *)
Definition provider (model : string) (input : list string) (calls : nat)
  : result (list embedding) * nat :=
  if calls =? 1 then (Raise (ExternalError "rate limit"), S calls)
  else (Ok (map (fun t => repeat 1%float (String.length t)) input), S calls).

(** A provider that is down. *)
Definition down (model : string) (input : list string) (calls : nat)
  : result (list embedding) * nat :=
  (Raise (ExternalError "connection refused"), S calls).

(** A scraper that times out on its third page. *)
Definition scrape (url : string) (calls : nat)
  : result (option Document) * nat :=
  if calls =? 3 then (Raise (ExternalError "timeout"), S calls)
  else (Ok (Some (Sample.page url)), S calls).

(** A sitemap that cannot be fetched. *)
Definition parse (calls : nat) : result (list string) * nat :=
  (Raise (ExternalError "no sitemap"), S calls).

(** A page without source URL, and one whose source is not a string. *)
Definition no_source : Document :=
  mkDocument "orphan page" [("title", PStr "Orphan")].

Definition numeric_source : Document :=
  mkDocument "odd page" [("source", PInt 42); ("title", PStr "Odd")].

(** A GitHub client: the items of a window are the texts of its issues. *)
Definition get_items (start_date end_date : string) (calls : nat)
  : result (list string) * nat :=
  (Ok [start_date; end_date], S calls).

Definition get_items_down (start_date end_date : string) (calls : nat)
  : result (list string) * nat :=
  (Raise (ExternalError "bad credentials"), S calls).

Definition convert (items : list string) (calls : nat)
  : result (list Document) * nat :=
  (Ok (map (fun t => mkDocument t [("kind", PStr "item")]) items), S calls).

End Faulty.

(** * Properties *)

(** ** Metadata clean-up *)

Lemma isinstance_primitive (v : pyval) :
  isinstance v [ty_str; ty_int; ty_float; ty_bool] = is_primitive v.
Proof. destruct v; reflexivity. Qed.

Lemma keys_app (d1 d2 : dict) : keys (d1 ++ d2) = keys d1 ++ keys d2.
Proof. apply map_app. Qed.

Lemma dict_setitem_fresh (d : dict) (k : string) (v : pyval) :
  ~ In k (keys d) -> dict_setitem d k v = d ++ [(k, v)].
Proof.
  induction d as [|[k' v'] d IH]; simpl; intros Hk.
  - reflexivity.
  - destruct (String.eqb_spec k' k) as [->|Hne].
    + exfalso. apply Hk. now left.
    + rewrite IH; [reflexivity|]. intros Hin. apply Hk. now right.
Qed.

Lemma dict_setitem_keys (d : dict) (k : string) (v : pyval) :
  In k (keys d) -> keys (dict_setitem d k v) = keys d.
Proof.
  induction d as [|[k' v'] d IH]; simpl; intros Hk.
  - contradiction.
  - destruct (String.eqb_spec k' k) as [->|Hne]; simpl.
    + reflexivity.
    + rewrite IH; [reflexivity|]. destruct Hk; [contradiction|assumption].
Qed.

Lemma dict_setitem_wf (d : dict) (k : string) (v : pyval) :
  dict_wf d -> dict_wf (dict_setitem d k v).
Proof.
  unfold dict_wf. intros Hd.
  destruct (in_dec string_dec k (keys d)) as [Hin|Hnin].
  - now rewrite dict_setitem_keys.
  - rewrite dict_setitem_fresh, keys_app by assumption. simpl.
    apply NoDup_app; [assumption | repeat constructor; intros [] |].
    intros x Hx [<-|[]]. contradiction.
Qed.

Lemma dict_setitem_values (P : pyval -> Prop) (d : dict) (k : string)
    (v : pyval) :
  Forall (fun kv => P (snd kv)) d -> P v ->
  Forall (fun kv => P (snd kv)) (dict_setitem d k v).
Proof.
  induction d as [|[k' v'] d IH]; simpl; intros Hd Hv.
  - now constructor.
  - inversion Hd; subst. destruct (String.eqb k' k); constructor; auto.
Qed.

(** On entries with distinct keys, none of them in the dict built so far, the
    comprehension appends the entries that pass the test, in order. *)
Lemma comprehension_fold (cond : string -> pyval -> bool)
    (items : list (string * pyval)) :
  forall acc : dict,
    NoDup (keys items) ->
    (forall k, In k (keys items) -> ~ In k (keys acc)) ->
    fold_left (fun acc kv => if cond (fst kv) (snd kv)
                             then dict_setitem acc (fst kv) (snd kv)
                             else acc) items acc
    = acc ++ filter (fun kv => cond (fst kv) (snd kv)) items.
Proof.
  induction items as [|[k v] items IH]; simpl; intros acc Hnd Hfresh.
  - now rewrite app_nil_r.
  - inversion Hnd as [|? ? Hk Hnd']; subst.
    destruct (cond k v).
    + rewrite dict_setitem_fresh by (apply Hfresh; now left).
      rewrite IH; [now rewrite <- app_assoc | assumption |].
      intros k' Hk'. rewrite keys_app, in_app_iff. simpl.
      intros [Hin|[->|[]]]; [|contradiction].
      now apply (Hfresh k'); [right|].
    + apply IH; [assumption|]. intros k' Hk'. apply Hfresh. now right.
Qed.

Lemma dict_comprehension_filter (cond : string -> pyval -> bool) (d : dict) :
  dict_wf d ->
  dict_comprehension cond d = filter (fun kv => cond (fst kv) (snd kv)) d.
Proof.
  intros Hd. unfold dict_comprehension.
  rewrite comprehension_fold; [reflexivity | assumption | intros k _ []].
Qed.

(** Whatever the entries, the comprehension builds a dict with distinct keys
    whose values all pass the test. *)
Lemma comprehension_invariant (cond : string -> pyval -> bool)
    (items : list (string * pyval)) :
  forall acc : dict,
    dict_wf acc ->
    Forall (fun kv => forall k, cond k (snd kv) = true) acc ->
    (forall k k' v, cond k v = cond k' v) ->
    let out := fold_left (fun acc kv => if cond (fst kv) (snd kv)
                                        then dict_setitem acc (fst kv) (snd kv)
                                        else acc) items acc in
    dict_wf out /\ Forall (fun kv => forall k, cond k (snd kv) = true) out.
Proof.
  induction items as [|[k v] items IH]; simpl; intros acc Hwf Hall Hcond.
  - now split.
  - destruct (cond k v) eqn:E.
    + apply IH; [now apply dict_setitem_wf | | assumption].
      apply (dict_setitem_values (fun v => forall k, cond k v = true));
        [assumption|]. intros k0. now rewrite (Hcond k0 k).
    + now apply IH.
Qed.

Lemma sanitize_filter (md : dict) :
  dict_wf md -> sanitize md = filter (fun kv => is_primitive (snd kv)) md.
Proof.
  intros Hwf. unfold sanitize. rewrite dict_comprehension_filter by assumption.
  apply filter_ext. intros [k v]. apply isinstance_primitive.
Qed.

Lemma sanitize_invariant (md : dict) :
  dict_wf (sanitize md)
  /\ Forall (fun kv => is_primitive (snd kv) = true) (sanitize md).
Proof.
  destruct (comprehension_invariant
              (fun _ v => isinstance v [ty_str; ty_int; ty_float; ty_bool])
              md []) as [Hwf Hall].
  - constructor.
  - constructor.
  - reflexivity.
  - split; [exact Hwf|]. fold (sanitize md) in Hall.
    eapply Forall_impl; [|exact Hall]. intros [k v] Hk. simpl in *.
    rewrite <- isinstance_primitive. exact (Hk k).
Qed.

Lemma filter_all_true {A : Type} (f : A -> bool) (l : list A) :
  Forall (fun x => f x = true) l -> filter f l = l.
Proof.
  induction 1 as [|x l Hx _ IH]; simpl; [reflexivity|]. now rewrite Hx, IH.
Qed.

(** C3: on every metadata mapping, the clean-up returns exactly the entries
    whose value is a string, an integer, a floating-point number or a boolean,
    in their original order; it is a total function, and a list, a nested
    object or null is dropped without any error. *)
Theorem sanitize_keeps_exactly_primitives (md : dict) :
  dict_wf md ->
  sanitize md = filter (fun kv => is_primitive (snd kv)) md
  /\ (forall k v, In (k, v) (sanitize md)
                  <-> In (k, v) md /\ is_primitive v = true)
  /\ (forall k items, ~ In (k, PList items) (sanitize md))
  /\ (forall k items, ~ In (k, PDict items) (sanitize md))
  /\ (forall k, ~ In (k, PNone) (sanitize md)).
Proof.
  intros Hwf. pose proof (sanitize_filter md Hwf) as E.
  assert (Hin : forall k v, In (k, v) (sanitize md)
                            <-> In (k, v) md /\ is_primitive v = true).
  { intros k v. rewrite E, filter_In. reflexivity. }
  split; [exact E|]. split; [exact Hin|].
  repeat split; intros k; intros; rewrite Hin; simpl; intros [_ H];
    discriminate.
Qed.

(** C7: cleaning metadata twice gives the same mapping as cleaning it once. *)
Theorem sanitize_idempotent (md : dict) :
  sanitize (sanitize md) = sanitize md.
Proof.
  destruct (sanitize_invariant md) as [Hwf Hall].
  rewrite (sanitize_filter (sanitize md) Hwf).
  now apply filter_all_true.
Qed.

(** ** [range], slices and [zip] *)

Lemma ceil_div_zero (b : nat) : 0 < b -> ceil_div 0 b = 0.
Proof. intros Hb. unfold ceil_div. apply Nat.div_small. lia. Qed.

Lemma ceil_div_step (n b : nat) :
  0 < b -> 0 < n -> ceil_div n b = S (ceil_div (n - b) b).
Proof.
  intros Hb Hn. unfold ceil_div.
  destruct (le_lt_dec b n) as [Hle|Hlt].
  - replace (n + b - 1) with ((n - b + b - 1) + 1 * b) by lia.
    rewrite Nat.div_add by lia. lia.
  - replace (n - b) with 0 by lia. simpl.
    rewrite (Nat.div_small (b - 1) b) by lia.
    symmetry. apply (Nat.div_unique _ _ 1 (n - 1)); lia.
Qed.

Lemma ceil_div_covers (n b : nat) : 0 < b -> n <= ceil_div n b * b.
Proof.
  intros Hb. unfold ceil_div.
  pose proof (Nat.div_mod_eq (n + b - 1) b) as E.
  pose proof (Nat.mod_upper_bound (n + b - 1) b) as Hr. nia.
Qed.

Lemma ceil_div_tight (n b k : nat) : 0 < b -> k < ceil_div n b -> k * b < n.
Proof.
  intros Hb. unfold ceil_div. intros Hk.
  pose proof (Nat.div_mod_eq (n + b - 1) b) as E.
  pose proof (Nat.mod_upper_bound (n + b - 1) b) as Hr. nia.
Qed.

(** [range(i, stop, step)] holds [i], [i + step], [i + 2 * step], ... up to
    [stop] excluded. *)
Lemma range_from_closed (step stop : nat) :
  0 < step ->
  forall bound i,
    stop - i <= bound ->
    range_from bound i stop step
    = map (fun k => i + k * step) (seq 0 (ceil_div (stop - i) step)).
Proof.
  intros Hs. induction bound as [|bound IH]; intros i Hb; simpl.
  - replace (stop - i) with 0 by lia. now rewrite ceil_div_zero.
  - destruct (Nat.ltb_spec i stop) as [Hlt|Hge].
    + rewrite ceil_div_step by lia. simpl. f_equal; [lia|].
      rewrite IH by lia. rewrite <- seq_shift, map_map.
      replace (stop - (i + step)) with (stop - i - step) by lia.
      apply map_ext. intros k. lia.
    + replace (stop - i) with 0 by lia. now rewrite ceil_div_zero.
Qed.

Lemma py_range3_closed (n step : nat) :
  0 < step ->
  py_range3 0 n step = map (fun k => k * step) (seq 0 (ceil_div n step)).
Proof.
  intros Hs. unfold py_range3. rewrite range_from_closed by lia.
  rewrite Nat.sub_0_r. reflexivity.
Qed.

Lemma py_range_seq (n : nat) : py_range n = seq 0 n.
Proof.
  unfold py_range. rewrite py_range3_closed by lia.
  replace (ceil_div n 1) with n
    by (unfold ceil_div; rewrite Nat.div_1_r; lia).
  rewrite <- (map_id (seq 0 n)) at 2. apply map_ext. intros k. lia.
Qed.

Lemma py_slice_step {A : Type} (l : list A) (i b : nat) :
  py_slice l i (i + b) = firstn b (skipn i l).
Proof. unfold py_slice. now replace (i + b - i) with b by lia. Qed.

Lemma py_slice_length {A : Type} (l : list A) (i b : nat) :
  List.length (py_slice l i (i + b)) = Nat.min b (List.length l - i).
Proof. now rewrite py_slice_step, length_firstn, length_skipn. Qed.

(** The slices taken at the values of the range, put end to end, give back
    the list from the first index on. *)
Lemma range_slices_concat {A : Type} (l : list A) (step : nat) :
  0 < step ->
  forall bound i,
    List.length l - i <= bound ->
    List.concat (map (fun j => py_slice l j (j + step))
                (range_from bound i (List.length l) step))
    = skipn i l.
Proof.
  intros Hs. induction bound as [|bound IH]; intros i Hb; simpl.
  - symmetry. apply skipn_all2. lia.
  - destruct (Nat.ltb_spec i (List.length l)) as [Hlt|Hge]; simpl.
    + rewrite IH by lia. rewrite py_slice_step.
      replace (skipn (i + step) l) with (skipn step (skipn i l))
        by (rewrite skipn_skipn; f_equal; lia).
      apply firstn_skipn.
    + symmetry. now apply skipn_all2.
Qed.

Lemma combine_app_same {A B : Type} (a1 a2 : list A) (b1 b2 : list B) :
  List.length a1 = List.length b1 ->
  combine (a1 ++ a2) (b1 ++ b2) = combine a1 b1 ++ combine a2 b2.
Proof.
  revert b1. induction a1 as [|x a1 IH]; intros [|y b1]; simpl;
    try discriminate; try reflexivity.
  intros [= Hlen]. now rewrite IH.
Qed.

Lemma combine_nth_error {A B : Type} (a : list A) (b : list B) (i : nat)
    (x : A) (y : B) :
  nth_error a i = Some x -> nth_error b i = Some y ->
  nth_error (combine a b) i = Some (x, y).
Proof.
  revert b i. induction a as [|x0 a IH]; intros [|y0 b] [|i]; simpl;
    try discriminate; try congruence.
  apply IH.
Qed.

Lemma py_zip3_length {A B C : Type} (a : list A) (b : list B) (c : list C) :
  List.length (py_zip3 a b c)
  = Nat.min (List.length a) (Nat.min (List.length b) (List.length c)).
Proof.
  revert b c. induction a as [|x a IH]; intros [|y b] [|z c]; simpl;
    try reflexivity.
  now rewrite IH.
Qed.

Lemma py_zip3_firstn {A B C : Type} (a : list A) (b : list B) (c : list C) :
  py_zip3 a b c
  = py_zip3 (firstn (List.length b) a) b (firstn (List.length b) c).
Proof.
  revert b c. induction a as [|x a IH]; intros [|y b] [|z c]; simpl;
    try reflexivity.
  now rewrite <- IH.
Qed.

Lemma py_zip3_nth_error {A B C : Type} (a : list A) (b : list B) (c : list C)
    (i : nat) (x : A) (y : B) (z : C) :
  nth_error a i = Some x -> nth_error b i = Some y -> nth_error c i = Some z ->
  nth_error (py_zip3 a b c) i = Some (x, y, z).
Proof.
  revert b c i. induction a as [|x0 a IH]; intros [|y0 b] [|z0 c] [|i]; simpl;
    try discriminate; try congruence.
  apply IH.
Qed.

Lemma py_zip3_nth_inv {A B C : Type} (a : list A) (b : list B) (c : list C)
    (i : nat) (x : A) (y : B) (z : C) :
  nth_error (py_zip3 a b c) i = Some (x, y, z) ->
  nth_error a i = Some x /\ nth_error b i = Some y /\ nth_error c i = Some z.
Proof.
  revert b c i. induction a as [|x0 a IH]; intros [|y0 b] [|z0 c] [|i]; simpl;
    try discriminate.
  - intros [= -> -> ->]. auto.
  - apply IH.
Qed.

(** *** The batches of the discussions asset *)

Lemma batches_closed (B : nat) (texts : list string) :
  0 < B ->
  batches B texts
  = map (fun k => py_slice texts (k * B) (k * B + B))
        (seq 0 (ceil_div (List.length texts) B)).
Proof.
  intros HB. unfold batches. rewrite py_range3_closed by assumption.
  now rewrite map_map.
Qed.

Lemma batches_length (B : nat) (texts : list string) :
  0 < B -> List.length (batches B texts) = ceil_div (List.length texts) B.
Proof.
  intros HB. rewrite batches_closed by assumption.
  now rewrite length_map, length_seq.
Qed.

Lemma batches_concat (B : nat) (texts : list string) :
  0 < B -> List.concat (batches B texts) = texts.
Proof.
  intros HB. unfold batches, py_range3.
  rewrite range_slices_concat by lia. reflexivity.
Qed.

Lemma batches_nth (B : nat) (texts : list string) (k : nat) :
  0 < B -> k < ceil_div (List.length texts) B ->
  nth_error (batches B texts) k = Some (py_slice texts (k * B) (k * B + B)).
Proof.
  intros HB Hk. rewrite batches_closed by assumption.
  rewrite nth_error_map, nth_error_seq.
  destruct (Nat.ltb_spec k (ceil_div (List.length texts) B)); [|lia].
  reflexivity.
Qed.

Lemma batches_sizes (B : nat) (texts : list string) :
  0 < B ->
  Forall (fun c => 1 <= List.length c <= B) (batches B texts).
Proof.
  intros HB. rewrite batches_closed by assumption.
  apply Forall_forall. intros c Hc. apply in_map_iff in Hc.
  destruct Hc as (k & <- & Hk). apply in_seq in Hk.
  rewrite py_slice_length.
  pose proof (ceil_div_tight (List.length texts) B k HB). lia.
Qed.

(** ** Runs of the assets *)

Section Runs.

Variable W : Type.
Variable create : string -> list string -> W -> result (list embedding) * W.
Variable parse : W -> result (list string) * W.
Variable scrape : string -> W -> result (option Document) * W.

Lemma embed_calls_app (t1 t2 : list event) :
  embed_calls (t1 ++ t2) = embed_calls t1 ++ embed_calls t2.
Proof. apply flat_map_app. Qed.

Lemma upserts_app (t1 t2 : list event) :
  upserts (t1 ++ t2) = upserts t1 ++ upserts t2.
Proof. apply flat_map_app. Qed.

Lemma sleeps_app (t1 t2 : list event) :
  sleeps (t1 ++ t2) = sleeps t1 ++ sleeps t2.
Proof. apply flat_map_app. Qed.

(** The events of the completed iterations of a batch loop. *)
Lemma batch_events_calls (cs : list (list string))
    (resps : list (list embedding)) :
  embed_calls (flat_map (fun cr => batch_events (fst cr) (snd cr))
                        (combine cs resps))
  = combine (firstn (List.length resps) cs)
            (map Ok (firstn (List.length cs) resps)).
Proof.
  revert resps. induction cs as [|c cs IH]; intros [|vs resps]; simpl;
    try reflexivity.
  now rewrite IH.
Qed.

(** *** The batch loop

    Whatever the provider does, the loop completes a number of iterations,
    each leaving the provider call followed by the pause, and then either is
    done or stops at a call that fails. *)
Lemma embed_loop_run (B : nat) (texts : list string) :
  forall (idxs : list nat) (acc : list embedding) (w : W),
    let cs := map (fun i => py_slice texts i (i + B)) idxs in
    exists (resps : list (list embedding)) (tail : list event)
           (r : result (list embedding)) (w' : W),
      for_loop idxs (embed_batch W create B texts) acc w
      = (r,
         flat_map (fun cr => batch_events (fst cr) (snd cr)) (combine cs resps)
         ++ tail,
         w')
      /\ Forall2 (answers create) (firstn (List.length resps) cs) resps
      /\ ((r = Ok (acc ++ List.concat resps) /\ tail = []
           /\ List.length resps = List.length cs)
          \/ (exists e c,
                 r = Raise e
                 /\ tail = [EvEmbed "text-embedding-3-small" c (Raise e)]
                 /\ nth_error cs (List.length resps) = Some c
                 /\ exists wk,
                     fst (create "text-embedding-3-small" c wk) = Raise e)).
Proof.
  induction idxs as [|i idxs IH]; intros acc w.
  - exists [], [], (Ok acc), w. split; [reflexivity|]. split; [constructor|].
    left. now rewrite app_nil_r.
  - simpl. unfold bind at 1. unfold embed_batch at 1.
    unfold bind at 1. unfold embeddings_create at 1.
    destruct (create "text-embedding-3-small" (py_slice texts i (i + B)) w)
      as [[vs|e] w1] eqn:Ecall.
    + simpl.
      destruct (IH (acc ++ vs) w1)
        as (resps & tail & r & w' & Erun & Hans & Hcase).
      rewrite Erun. exists (vs :: resps), tail, r, w'. split; [reflexivity|].
      split.
      { simpl. constructor; [|exact Hans]. exists w. now rewrite Ecall. }
      destruct Hcase as [(-> & -> & Hlen)|(e & c & -> & -> & Hc & He)].
      * left. simpl. rewrite <- app_assoc. auto.
      * right. exists e, c. simpl. auto.
    + exists [], [EvEmbed "text-embedding-3-small"
                          (py_slice texts i (i + B)) (Raise e)], (Raise e), w1.
      split; [reflexivity|]. split; [constructor|]. right.
      exists e, (py_slice texts i (i + B)). simpl. repeat split.
      exists w. now rewrite Ecall.
Qed.

Lemma embed_in_batches_run (B : nat) (texts : list string) (w : W) :
  exists (resps : list (list embedding)) (tail : list event)
         (r : result (list embedding)) (w' : W),
    embed_in_batches W create B texts w
    = (r,
       flat_map (fun cr => batch_events (fst cr) (snd cr))
                (combine (batches B texts) resps) ++ tail,
       w')
    /\ Forall2 (answers create)
               (firstn (List.length resps) (batches B texts)) resps
    /\ ((r = Ok (List.concat resps) /\ tail = []
         /\ List.length resps = List.length (batches B texts))
        \/ (exists e c,
               r = Raise e
               /\ tail = [EvEmbed "text-embedding-3-small" c (Raise e)]
               /\ nth_error (batches B texts) (List.length resps) = Some c
               /\ exists wk,
                   fst (create "text-embedding-3-small" c wk) = Raise e)).
Proof.
  unfold embed_in_batches, batches.
  exact (embed_loop_run B texts (py_range3 0 (List.length texts) B) [] w).
Qed.

(** With a provider that never fails the loop runs to its end. *)
Lemma embed_in_batches_total (B : nat) (texts : list string) (w : W) :
  provider_total create ->
  exists (resps : list (list embedding)) (w' : W),
    embed_in_batches W create B texts w
    = (Ok (List.concat resps),
       flat_map (fun cr => batch_events (fst cr) (snd cr))
                (combine (batches B texts) resps),
       w')
    /\ Forall2 (answers create) (batches B texts) resps.
Proof.
  intros Htot.
  destruct (embed_in_batches_run B texts w)
    as (resps & tail & r & w' & Erun & Hans & Hcase).
  destruct Hcase as [(-> & -> & Hlen)|(e & c & _ & _ & _ & wk & He)].
  - exists resps, w'. rewrite app_nil_r in Erun. split; [exact Erun|].
    rewrite Hlen, firstn_all in Hans. exact Hans.
  - destruct (Htot "text-embedding-3-small" c wk) as [vs Hvs]. congruence.
Qed.

Lemma answers_aligned (c : list string) (vs : list embedding) :
  provider_aligned create -> answers create c vs ->
  List.length vs = List.length c.
Proof.
  intros Hal [wk Hwk].
  destruct (Hal "text-embedding-3-small" c wk) as (vs' & E & Hlen). congruence.
Qed.

Lemma provider_aligned_total : provider_aligned create -> provider_total create.
Proof.
  intros Hal model input w. destruct (Hal model input w) as (vs & E & _).
  now exists vs.
Qed.

Lemma aligned_concat (cs : list (list string)) (resps : list (list embedding)) :
  Forall2 (fun c vs => List.length vs = List.length c) cs resps ->
  List.length (List.concat resps) = List.length (List.concat cs)
  /\ flat_map (fun cr => combine (fst cr) (snd cr)) (combine cs resps)
     = combine (List.concat cs) (List.concat resps).
Proof.
  induction 1 as [|c vs cs resps Hlen _ [IHlen IH]]; simpl.
  - now split.
  - split.
    + rewrite !length_app. lia.
    + rewrite IH. symmetry. apply combine_app_same. now symmetry.
Qed.

(** *** The three embedding assets, run *)

Lemma github_issues_embeddings_run (docs : list Document) (w : W) :
  github_issues_embeddings W create docs w
  = match create "text-embedding-3-small" (map page_content docs) w with
    | (Ok vs, w1) =>
        (Ok (mkMaterializeResult [("number_of_issues", PInt (len docs))]),
         [EvCreateIndex "dagster-knowledge" 1536;
          EvGetIndex "dagster-knowledge" "dagster-github";
          EvEmbed "text-embedding-3-small" (map page_content docs) (Ok vs);
          EvUpsert "dagster-knowledge" "dagster-github"
                   (py_zip3 (sequential_ids (List.length docs)) vs
                            (prepared_metadata docs))],
         w1)
    | (Raise e, w1) =>
        (Raise e,
         [EvCreateIndex "dagster-knowledge" 1536;
          EvGetIndex "dagster-knowledge" "dagster-github";
          EvEmbed "text-embedding-3-small" (map page_content docs) (Raise e)],
         w1)
    end.
Proof.
  unfold github_issues_embeddings, bind, embeddings_create,
    pinecone_create_index, pinecone_get_index, index_upsert, emit, ret,
    sequential_ids, prepared_metadata.
  simpl.
  destruct (create "text-embedding-3-small" (map page_content docs) w)
    as [[vs|e] w1]; simpl; [|reflexivity].
  now rewrite length_map.
Qed.

Lemma github_discussions_embeddings_run (docs : list Document) (w : W) :
  let texts := map page_content docs in
  exists (resps : list (list embedding)) (tail : list event)
         (r : result MaterializeResult) (w' : W),
    github_discussions_embeddings W create docs w
    = (r,
       [EvCreateIndex "dagster-knowledge" 1536;
        EvGetIndex "dagster-knowledge" "dagster-github"]
       ++ flat_map (fun cr => batch_events (fst cr) (snd cr))
                   (combine (batches BATCH_SIZE texts) resps)
       ++ tail,
       w')
    /\ Forall2 (answers create)
               (firstn (List.length resps) (batches BATCH_SIZE texts)) resps
    /\ ((r = Ok (mkMaterializeResult
                   [("number_of_discussions", PInt (len docs))])
         /\ tail = [EvUpsert "dagster-knowledge" "dagster-github"
                             (py_zip3 (sequential_ids (List.length docs))
                                      (List.concat resps)
                                      (prepared_metadata docs))]
         /\ List.length resps = List.length (batches BATCH_SIZE texts))
        \/ (exists e c,
               r = Raise e
               /\ tail = [EvEmbed "text-embedding-3-small" c (Raise e)]
               /\ nth_error (batches BATCH_SIZE texts) (List.length resps)
                  = Some c
               /\ exists wk,
                   fst (create "text-embedding-3-small" c wk) = Raise e)).
Proof.
  intros texts.
  destruct (embed_in_batches_run BATCH_SIZE texts w)
    as (resps & tail & r & w' & Erun & Hans & Hcase).
  unfold github_discussions_embeddings, bind at 1 2 3.
  unfold pinecone_create_index, pinecone_get_index, emit, bind at 1. simpl.
  fold texts. rewrite Erun.
  destruct Hcase as [(-> & -> & Hlen)|(e & c & -> & -> & Hc & He)].
  - exists resps,
      [EvUpsert "dagster-knowledge" "dagster-github"
                (py_zip3 (sequential_ids (List.length docs))
                         (List.concat resps) (prepared_metadata docs))],
      (Ok (mkMaterializeResult [("number_of_discussions", PInt (len docs))])),
      w'.
    split; [|split; [exact Hans|left; auto]].
    unfold bind, index_upsert, emit, ret, sequential_ids, prepared_metadata,
      texts. simpl. rewrite length_map, !app_nil_r. reflexivity.
  - exists resps, [EvEmbed "text-embedding-3-small" c (Raise e)], (Raise e), w'.
    split; [reflexivity|]. split; [exact Hans|]. right. exists e, c. auto.
Qed.

(** *** [docs_embedding] *)

Lemma doc_id_of_source (doc : Document) (src : string) (w : W) :
  source_of doc = Some src -> doc_id_of W doc w = (Ok (md5_hex src), [], w).
Proof.
  unfold source_of, doc_id_of, getitem, bind, md5_hex.
  destruct (dict_lookup (metadata doc) "source") as [[]|]; try discriminate.
  now intros [= ->].
Qed.

Lemma doc_id_of_no_source (doc : Document) (w : W) :
  source_of doc = None -> exists e, doc_id_of W doc w = (Raise e, [], w).
Proof.
  unfold source_of, doc_id_of, getitem, bind.
  destruct (dict_lookup (metadata doc) "source") as [[]|]; try discriminate;
    intros _; eexists; reflexivity.
Qed.

Lemma prepare_loop_ok (docs : list Document) :
  forall (srcs : list string) (mds : list dict) (ids : list string) (w : W),
    map source_of docs = map Some srcs ->
    for_loop docs (prepare_doc W) (mds, ids) w
    = (Ok (mds ++ prepared_metadata docs, ids ++ map md5_hex srcs), [], w).
Proof.
  induction docs as [|doc docs IH]; intros [|src srcs] mds ids w; simpl;
    try discriminate.
  - intros _. now rewrite !app_nil_r.
  - intros [= Hsrc Hrest]. unfold bind at 1. unfold prepare_doc at 1.
    unfold bind at 1. rewrite (doc_id_of_source doc src w Hsrc). simpl.
    rewrite (IH srcs) by assumption. now rewrite <- !app_assoc.
Qed.

Lemma prepare_loop_raise (docs : list Document) :
  Exists (fun doc => source_of doc = None) docs ->
  forall (acc : list dict * list string) (w : W),
    exists e, for_loop docs (prepare_doc W) acc w = (Raise e, [], w).
Proof.
  induction docs as [|doc docs IH]; intros Hex [mds ids] w.
  - inversion Hex.
  - simpl. unfold bind at 1. unfold prepare_doc at 1. unfold bind at 1.
    destruct (source_of doc) as [src|] eqn:Hsrc.
    + rewrite (doc_id_of_source doc src w Hsrc). simpl.
      inversion Hex as [? ? Hnone|? ? Hrest]; subst; [congruence|].
      destruct (IH Hrest (mds ++ [sanitize (metadata doc)],
                          ids ++ [md5_hex src]) w) as [e He].
      unfold prepare_doc in He. rewrite He. now exists e.
    + destruct (doc_id_of_no_source doc w Hsrc) as [e He]. rewrite He.
      now exists e.
Qed.

Lemma sources_comprehension (docs : list Document) :
  forall (srcs : list string) (w : W),
    map source_of docs = map Some srcs ->
    list_comprehension (fun doc => getitem W (metadata doc) "source") docs w
    = (Ok (map PStr srcs), [], w).
Proof.
  induction docs as [|doc docs IH]; intros [|src srcs] w; simpl;
    try discriminate; [reflexivity|].
  intros [= Hsrc Hrest]. unfold bind at 1. unfold getitem at 1.
  unfold source_of in Hsrc.
  destruct (dict_lookup (metadata doc) "source") as [[]|]; try discriminate.
  injection Hsrc as ->. simpl. unfold bind at 1.
  now rewrite (IH srcs w Hrest).
Qed.

(** Every document has a source, or one of them has none. *)
Lemma sources_dec (docs : list Document) :
  (exists srcs, map source_of docs = map Some srcs)
  \/ Exists (fun doc => source_of doc = None) docs.
Proof.
  induction docs as [|doc docs [[srcs IH]|IH]].
  - left. now exists [].
  - destruct (source_of doc) as [src|] eqn:E.
    + left. exists (src :: srcs). simpl. now rewrite E, IH.
    + right. now left.
  - right. now right.
Qed.

Lemma docs_embedding_run (docs : list Document) (srcs : list string) (w : W) :
  map source_of docs = map Some srcs ->
  docs_embedding W create docs w
  = match create "text-embedding-3-small" (map page_content docs) w with
    | (Ok vs, w1) =>
        (Ok (docs_result docs srcs vs),
         [EvCreateIndex "dagster-knowledge" 1536;
          EvGetIndex "dagster-knowledge" "dagster-docs";
          EvEmbed "text-embedding-3-small" (map page_content docs) (Ok vs);
          EvUpsert "dagster-knowledge" "dagster-docs"
                   (py_zip3 (map md5_hex srcs) vs (prepared_metadata docs))],
         w1)
    | (Raise e, w1) =>
        (Raise e,
         [EvCreateIndex "dagster-knowledge" 1536;
          EvGetIndex "dagster-knowledge" "dagster-docs";
          EvEmbed "text-embedding-3-small" (map page_content docs) (Raise e)],
         w1)
    end.
Proof.
  intros Hsrc.
  unfold docs_embedding, bind at 1 2 3.
  unfold pinecone_create_index, pinecone_get_index, emit, bind at 1,
    embeddings_create. simpl.
  destruct (create "text-embedding-3-small" (map page_content docs) w)
    as [[vs|e] w1]; [|reflexivity].
  unfold bind at 1. rewrite (prepare_loop_ok docs srcs [] [] w1 Hsrc).
  unfold bind at 1. unfold index_upsert, emit. simpl.
  unfold bind at 1. rewrite (sources_comprehension docs srcs w1 Hsrc).
  reflexivity.
Qed.

(** When a document has no source URL the run stops with an exception after
    the provider call, before any upsert. *)
Lemma docs_embedding_no_source (docs : list Document) (w : W) :
  Exists (fun doc => source_of doc = None) docs ->
  exists r tr w',
    docs_embedding W create docs w = (Raise r, tr, w') /\ upserts tr = [].
Proof.
  intros Hex.
  unfold docs_embedding, bind at 1 2 3.
  unfold pinecone_create_index, pinecone_get_index, emit, bind at 1,
    embeddings_create. simpl.
  destruct (create "text-embedding-3-small" (map page_content docs) w)
    as [[vs|e] w1].
  - unfold bind at 1.
    destruct (prepare_loop_raise docs Hex ([], []) w1) as [e He].
    rewrite He. do 3 eexists. split; reflexivity.
  - do 3 eexists. split; reflexivity.
Qed.

(** *** [docs_scrape_raw] *)

Lemma scrape_loop_total (urls : list string) :
  (forall url w, exists d, fst (scrape url w) = Ok d) ->
  forall (start : nat) (acc : list Document) (w : W),
    exists (ans : list (option Document)) (w' : W),
      for_loop (enumerate urls start) (scrape_one W scrape) acc w
      = (Ok (acc ++ scraped ans),
         flat_map (fun ua => scrape_events (fst ua) (snd ua))
                  (combine urls ans),
         w')
      /\ List.length ans = List.length urls.
Proof.
  intros Htot. induction urls as [|url urls IH]; intros start acc w.
  - exists [], w. simpl. now rewrite app_nil_r.
  - unfold enumerate. simpl. fold (enumerate urls (S start)).
    unfold bind at 1. unfold scrape_one at 1. unfold bind at 1.
    unfold scrape_page at 1. simpl.
    destruct (Htot url w) as [d Hd].
    destruct (scrape url w) as [r w1]. simpl in Hd. subst r. simpl.
    destruct (IH (S start)
                 (match d with Some d0 => acc ++ [d0] | None => acc end) w1)
      as (ans & w' & Erun & Hlen).
    rewrite Erun. exists (d :: ans), w'. split; [|simpl; now rewrite Hlen].
    destruct d; simpl; [now rewrite <- app_assoc | reflexivity].
Qed.

Lemma scrape_events_calls (urls : list string) (ans : list (option Document)) :
  List.length ans = List.length urls ->
  scrape_calls (flat_map (fun ua => scrape_events (fst ua) (snd ua))
                         (combine urls ans))
  = combine urls (map Ok ans).
Proof.
  revert ans. induction urls as [|url urls IH]; intros [|d ans]; simpl;
    try discriminate; try reflexivity.
  intros [= Hlen]. now rewrite IH.
Qed.

Lemma output_metadata_app (t1 t2 : list event) :
  output_metadata (t1 ++ t2) = output_metadata t1 ++ output_metadata t2.
Proof. apply flat_map_app. Qed.

Lemma scrape_calls_app (t1 t2 : list event) :
  scrape_calls (t1 ++ t2) = scrape_calls t1 ++ scrape_calls t2.
Proof. apply flat_map_app. Qed.

Lemma scrape_events_no_metadata (l : list (string * option Document)) :
  output_metadata (flat_map (fun ua => scrape_events (fst ua) (snd ua)) l)
  = [].
Proof. induction l as [|x l IH]; simpl; [reflexivity|exact IH]. Qed.

Lemma docs_scrape_raw_total (w : W) :
  scraper_total parse scrape ->
  exists (sitemap : list string) (ans : list (option Document)) (w' : W),
    fst (parse w) = Ok sitemap
    /\ List.length ans = List.length (firstn 4 sitemap)
    /\ docs_scrape_raw W parse scrape w
       = (Ok (scraped ans),
          [EvParseSitemap (Ok sitemap)]
          ++ flat_map (fun ua => scrape_events (fst ua) (snd ua))
                      (combine (firstn 4 sitemap) ans)
          ++ [EvAddOutputMetadata
                [("pages scraped", PInt (len (firstn 4 sitemap)))]],
          w').
Proof.
  intros [Hparse Hscrape].
  destruct (Hparse w) as [sitemap Hs].
  unfold docs_scrape_raw, bind at 1, parse_sitemap.
  destruct (parse w) as [r w1]. simpl in Hs. subst r.
  unfold py_slice. simpl skipn. simpl Nat.sub.
  exists sitemap. remember (firstn 4 sitemap) as urls eqn:Hurls.
  destruct (scrape_loop_total urls Hscrape 1 [] w1)
    as (ans & w' & Erun & Hlen).
  exists ans, w'. split; [reflexivity|]. split; [exact Hlen|].
  unfold bind at 1. rewrite Erun.
  unfold bind, add_output_metadata, emit, ret. simpl.
  reflexivity.
Qed.

Lemma scraped_of_calls (urls : list string) (ans : list (option Document)) :
  List.length ans = List.length urls ->
  flat_map (fun c : string * result (option Document) =>
              match snd c with Ok (Some doc) => [doc] | _ => [] end)
           (combine urls (map Ok ans))
  = scraped ans
  /\ List.length (scraped ans)
     + List.length (filter (fun c : string * result (option Document) =>
                              match snd c with Ok None => true | _ => false end)
                           (combine urls (map Ok ans)))
     = List.length urls.
Proof.
  revert ans. induction urls as [|url urls IH]; intros [|d ans]; simpl;
    try discriminate; [auto|].
  intros [= Hlen]. destruct (IH ans Hlen) as [E1 E2].
  destruct d; simpl; rewrite E1; split; try reflexivity; lia.
Qed.

(** C10: the scraping step asks the scraper for the first 4 URLs of the
    sitemap and no other; a URL answered with null adds no document, so at
    most 4 documents are returned; the reported "pages scraped" is the number
    of URLs asked for, which is the number of documents returned plus the
    number of null answers. *)
Theorem docs_scrape_raw_first_four (w : W) :
  scraper_total parse scrape ->
  exists (sitemap : list string) (documents : list Document)
         (tr : list event) (w' : W),
    fst (parse w) = Ok sitemap
    /\ docs_scrape_raw W parse scrape w = (Ok documents, tr, w')
    /\ map fst (scrape_calls tr) = firstn 4 sitemap
    /\ documents = scraped_documents tr
    /\ List.length documents <= 4
    /\ output_metadata tr
       = [[("pages scraped", PInt (len (scrape_calls tr)))]]
    /\ List.length (scrape_calls tr) = Nat.min 4 (List.length sitemap)
    /\ List.length documents + null_answers tr
       = List.length (scrape_calls tr).
Proof.
  intros Htot.
  destruct (docs_scrape_raw_total w Htot)
    as (sitemap & ans & w' & Hs & Hlen & Erun).
  exists sitemap, (scraped ans). eexists. exists w'.
  split; [exact Hs|]. split; [exact Erun|].
  pose proof (length_firstn 4 sitemap) as H4.
  remember (firstn 4 sitemap) as urls eqn:Hurls. clear Hurls.
  assert (Hcalls : scrape_calls
                     ([EvParseSitemap (Ok sitemap)]
                      ++ flat_map (fun ua => scrape_events (fst ua) (snd ua))
                                  (combine urls ans)
                      ++ [EvAddOutputMetadata
                            [("pages scraped", PInt (len urls))]])
                   = combine urls (map Ok ans)).
  { rewrite !scrape_calls_app, scrape_events_calls by assumption. simpl.
    now rewrite app_nil_r. }
  destruct (scraped_of_calls urls ans Hlen) as [E1 E2].
  assert (Hn : List.length (combine urls (map Ok ans)) = List.length urls).
  { rewrite length_combine, length_map, Hlen. apply Nat.min_id. }
  assert (Hfst : map fst (combine urls (map Ok ans)) = urls).
  { clear -Hlen. revert ans Hlen.
    induction urls as [|u urls IH]; intros [|d ans]; simpl;
      try discriminate; try reflexivity.
    intros [= Hlen]. now rewrite IH. }
  unfold scraped_documents, null_answers. rewrite Hcalls, Hn.
  repeat split.
  - exact Hfst.
  - now rewrite E1.
  - lia.
  - rewrite !output_metadata_app, scrape_events_no_metadata.
    unfold len. rewrite Hn. reflexivity.
  - exact H4.
  - exact E2.
Qed.

(** *** What the traces show *)

Lemma batch_trace_observed (cs : list (list string)) :
  forall resps : list (list embedding),
    List.length resps = List.length cs ->
    let tr := flat_map (fun cr => batch_events (fst cr) (snd cr))
                       (combine cs resps) in
    embed_calls tr = combine cs (map Ok resps)
    /\ map fst (embed_calls tr) = cs
    /\ sent_texts tr = List.concat cs
    /\ returned_vectors tr = List.concat resps
    /\ embedded_pairs tr
       = flat_map (fun cr => combine (fst cr) (snd cr)) (combine cs resps)
    /\ sleeps tr = repeat 1%Q (List.length cs)
    /\ upserts tr = [].
Proof.
  induction cs as [|c cs IH]; intros [|vs resps]; simpl; try discriminate.
  - intros _. repeat split.
  - intros [= Hlen]. destruct (IH resps Hlen) as (E1 & E2 & E3 & E4 & E5 & E6 & E7).
    unfold sent_texts, returned_vectors, embedded_pairs in *. simpl.
    rewrite E1 in *. simpl. repeat split; try congruence.
Qed.

Lemma discussions_trace_observed (docs : list Document)
    (resps : list (list embedding)) :
  List.length resps = List.length (batches 20 (map page_content docs)) ->
  let tr := discussions_trace docs resps in
  let cs := batches 20 (map page_content docs) in
  embed_calls tr = combine cs (map Ok resps)
  /\ map fst (embed_calls tr) = cs
  /\ sent_texts tr = map page_content docs
  /\ returned_vectors tr = List.concat resps
  /\ embedded_pairs tr
     = flat_map (fun cr => combine (fst cr) (snd cr)) (combine cs resps)
  /\ sleeps tr = repeat 1%Q (List.length cs)
  /\ upserts tr = [py_zip3 (sequential_ids (List.length docs))
                           (List.concat resps) (prepared_metadata docs)].
Proof.
  intros Hlen tr cs.
  destruct (batch_trace_observed cs resps Hlen)
    as (E1 & E2 & E3 & E4 & E5 & E6 & E7).
  assert (Hcalls : embed_calls tr = combine cs (map Ok resps)).
  { unfold tr, discussions_trace. rewrite !embed_calls_app. fold cs.
    rewrite E1. simpl. now rewrite app_nil_r. }
  unfold sent_texts, returned_vectors, embedded_pairs in *.
  rewrite Hcalls. rewrite E1 in E2, E3, E4, E5.
  repeat split; try assumption.
  - rewrite E3. unfold cs. apply batches_concat. lia.
  - unfold tr, discussions_trace. rewrite !sleeps_app. fold cs.
    rewrite E6. simpl. now rewrite app_nil_r.
  - unfold tr, discussions_trace. rewrite !upserts_app. fold cs.
    rewrite E7. reflexivity.
Qed.

Lemma sequential_ids_length (n : nat) : List.length (sequential_ids n) = n.
Proof.
  unfold sequential_ids. now rewrite py_range_seq, length_map, length_seq.
Qed.

Lemma sequential_ids_nth (n i : nat) :
  i < n -> nth_error (sequential_ids n) i = Some (py_str i).
Proof.
  intros Hi. unfold sequential_ids.
  rewrite py_range_seq, nth_error_map, nth_error_seq.
  destruct (Nat.ltb_spec i n); [reflexivity|lia].
Qed.

Lemma prepared_metadata_length (docs : list Document) :
  List.length (prepared_metadata docs) = List.length docs.
Proof. apply length_map. Qed.

Lemma run_aligned_intro (id_at : nat -> Document -> option string)
    (docs : list Document) (tr : list event) (ids : list string)
    (embs : list embedding) :
  upserts tr = [py_zip3 ids embs (prepared_metadata docs)] ->
  sent_texts tr = map page_content docs ->
  returned_vectors tr = embs ->
  embedded_pairs tr = combine (map page_content docs) embs ->
  List.length embs = List.length docs ->
  List.length ids = List.length docs ->
  (forall i doc, nth_error docs i = Some doc ->
                 exists id, id_at i doc = Some id /\ nth_error ids i = Some id) ->
  run_aligned id_at docs tr.
Proof.
  intros Hup Htexts Hvecs Hpairs Hlen Hids Hid.
  exists ids, (py_zip3 ids embs (prepared_metadata docs)).
  rewrite Htexts, Hvecs, Hpairs.
  change (List.length (A:=vector_record))
    with (List.length (A:=string * embedding * dict)).
  rewrite py_zip3_length, prepared_metadata_length, length_map, Hlen, Hids.
  repeat split; try assumption; try lia.
  intros i doc Hdoc.
  destruct (Hid i doc Hdoc) as (id & Hidat & Hnth).
  assert (Hi : i < List.length embs).
  { rewrite Hlen. apply nth_error_Some. congruence. }
  destruct (nth_error embs i) as [v|] eqn:Ev;
    [|apply nth_error_Some in Hi; contradiction].
  assert (Htext : nth_error (map page_content docs) i
                  = Some (page_content doc))
    by (now apply map_nth_error).
  exists v, id. repeat split; try assumption.
  - now apply combine_nth_error.
  - apply py_zip3_nth_error; try assumption.
    unfold prepared_metadata.
    now apply (map_nth_error (fun d => sanitize (metadata d))).
Qed.

(** *** Runs with a provider that never fails *)

Lemma issues_total (docs : list Document) (w : W) :
  provider_total create ->
  exists (vs : list embedding) (w' : W),
    answers create (map page_content docs) vs
    /\ github_issues_embeddings W create docs w
       = (Ok (mkMaterializeResult [("number_of_issues", PInt (len docs))]),
          issues_trace docs vs, w').
Proof.
  intros Htot. rewrite github_issues_embeddings_run.
  destruct (Htot "text-embedding-3-small" (map page_content docs) w)
    as [vs Hvs].
  destruct (create "text-embedding-3-small" (map page_content docs) w)
    as [r w1] eqn:Ecall. simpl in Hvs. subst r.
  exists vs, w1. split; [|reflexivity]. exists w. now rewrite Ecall.
Qed.

Lemma discussions_total (docs : list Document) (w : W) :
  provider_total create ->
  exists (resps : list (list embedding)) (w' : W),
    Forall2 (answers create) (batches 20 (map page_content docs)) resps
    /\ github_discussions_embeddings W create docs w
       = (Ok (mkMaterializeResult
                [("number_of_discussions", PInt (len docs))]),
          discussions_trace docs resps, w').
Proof.
  intros Htot.
  destruct (github_discussions_embeddings_run docs w)
    as (resps & tail & r & w' & Erun & Hans & Hcase).
  destruct Hcase as [(-> & -> & Hlen)|(e & c & _ & _ & _ & wk & He)].
  - exists resps, w'. split; [|exact Erun].
    rewrite Hlen, firstn_all in Hans. exact Hans.
  - destruct (Htot "text-embedding-3-small" c wk) as [vs Hvs]. congruence.
Qed.

Lemma docs_total (docs : list Document) (srcs : list string) (w : W) :
  provider_total create ->
  map source_of docs = map Some srcs ->
  exists (vs : list embedding) (w' : W),
    answers create (map page_content docs) vs
    /\ docs_embedding W create docs w
       = (Ok (docs_result docs srcs vs), docs_trace docs srcs vs, w').
Proof.
  intros Htot Hsrc. rewrite (docs_embedding_run docs srcs w Hsrc).
  destruct (Htot "text-embedding-3-small" (map page_content docs) w)
    as [vs Hvs].
  destruct (create "text-embedding-3-small" (map page_content docs) w)
    as [r w1] eqn:Ecall. simpl in Hvs. subst r.
  exists vs, w1. split; [|reflexivity]. exists w. now rewrite Ecall.
Qed.

Lemma sources_nth (docs : list Document) (srcs : list string) :
  map source_of docs = map Some srcs ->
  List.length srcs = List.length docs
  /\ forall i doc, nth_error docs i = Some doc ->
                   exists src, source_of doc = Some src
                               /\ nth_error srcs i = Some src.
Proof.
  intros Hsrc. split.
  - apply (f_equal (@List.length _)) in Hsrc. rewrite !length_map in Hsrc.
    now symmetry.
  - intros i doc Hdoc.
    pose proof (map_nth_error source_of i docs Hdoc) as H1.
    rewrite Hsrc, nth_error_map in H1.
    destruct (nth_error srcs i) as [src|]; [|discriminate].
    exists src. simpl in H1. split; [congruence|reflexivity].
Qed.

Lemma issues_aligned (docs : list Document) (vs : list embedding) :
  List.length vs = List.length docs ->
  run_aligned sequential_id docs (issues_trace docs vs).
Proof.
  intros Hlen.
  apply (run_aligned_intro sequential_id docs (issues_trace docs vs)
           (sequential_ids (List.length docs)) vs);
    try reflexivity; try assumption.
  - unfold sent_texts. simpl. now rewrite app_nil_r.
  - unfold returned_vectors. simpl. now rewrite app_nil_r.
  - unfold embedded_pairs. simpl. now rewrite app_nil_r.
  - apply sequential_ids_length.
  - intros i doc Hdoc. exists (py_str i). split; [reflexivity|].
    apply sequential_ids_nth. apply nth_error_Some. congruence.
Qed.

Lemma discussions_aligned (docs : list Document)
    (resps : list (list embedding)) :
  Forall2 (fun c vs => List.length vs = List.length c)
          (batches 20 (map page_content docs)) resps ->
  run_aligned sequential_id docs (discussions_trace docs resps).
Proof.
  intros Hall.
  assert (Hlen : List.length resps
                 = List.length (batches 20 (map page_content docs)))
    by (symmetry; eapply Forall2_length; eassumption).
  destruct (discussions_trace_observed docs resps Hlen)
    as (E1 & E2 & E3 & E4 & E5 & E6 & E7).
  destruct (aligned_concat _ _ Hall) as [Hcat Hpairs].
  rewrite batches_concat in Hcat, Hpairs by lia.
  apply (run_aligned_intro sequential_id docs (discussions_trace docs resps)
           (sequential_ids (List.length docs)) (List.concat resps));
    try assumption.
  - now rewrite E5.
  - now rewrite Hcat, length_map.
  - apply sequential_ids_length.
  - intros i doc Hdoc. exists (py_str i). split; [reflexivity|].
    apply sequential_ids_nth. apply nth_error_Some. congruence.
Qed.

Lemma docs_aligned (docs : list Document) (srcs : list string)
    (vs : list embedding) :
  map source_of docs = map Some srcs ->
  List.length vs = List.length docs ->
  run_aligned content_id docs (docs_trace docs srcs vs).
Proof.
  intros Hsrc Hlen. destruct (sources_nth docs srcs Hsrc) as [Hn Hnth].
  apply (run_aligned_intro content_id docs (docs_trace docs srcs vs)
           (map md5_hex srcs) vs);
    try reflexivity; try assumption.
  - unfold sent_texts. simpl. now rewrite app_nil_r.
  - unfold returned_vectors. simpl. now rewrite app_nil_r.
  - unfold embedded_pairs. simpl. now rewrite app_nil_r.
  - now rewrite length_map.
  - intros i doc Hdoc. destruct (Hnth i doc Hdoc) as (src & Hs & Hi).
    exists (md5_hex src). unfold content_id. rewrite Hs. split; [reflexivity|].
    now apply map_nth_error.
Qed.

Lemma answers_all_aligned (cs : list (list string))
    (resps : list (list embedding)) :
  provider_aligned create ->
  Forall2 (answers create) cs resps ->
  Forall2 (fun c vs => List.length vs = List.length c) cs resps.
Proof.
  intros Hal. induction 1; constructor; auto.
  now apply answers_aligned.
Qed.

(** C1: when the provider returns one vector per input text, every run of an
    embedding asset sends as many texts, gets as many vectors, and upserts as
    many ids and cleaned metadata mappings as there are input documents, and
    at each position the text, the vector returned for it, the id and the
    metadata are those of the document at that position. The documentation
    asset does so on documents that all carry a source URL; with a document
    that has none it raises before any upsert. *)
Theorem embedding_runs_aligned (docs : list Document) (w : W) :
  provider_aligned create ->
  (exists res tr w',
      github_issues_embeddings W create docs w = (Ok res, tr, w')
      /\ run_aligned sequential_id docs tr)
  /\ (exists res tr w',
         github_discussions_embeddings W create docs w = (Ok res, tr, w')
         /\ run_aligned sequential_id docs tr)
  /\ ((exists srcs, map source_of docs = map Some srcs) ->
      exists res tr w',
        docs_embedding W create docs w = (Ok res, tr, w')
        /\ run_aligned content_id docs tr)
  /\ (Exists (fun doc => source_of doc = None) docs ->
      exists e tr w',
        docs_embedding W create docs w = (Raise e, tr, w')
        /\ upserts tr = []).
Proof.
  intros Hal. pose proof (provider_aligned_total Hal) as Htot.
  split; [|split; [|split]].
  - destruct (issues_total docs w Htot) as (vs & w' & Hans & Erun).
    do 3 eexists. split; [exact Erun|]. apply issues_aligned.
    rewrite (answers_aligned _ _ Hal Hans). apply length_map.
  - destruct (discussions_total docs w Htot) as (resps & w' & Hans & Erun).
    do 3 eexists. split; [exact Erun|]. apply discussions_aligned.
    now apply answers_all_aligned.
  - intros [srcs Hsrc].
    destruct (docs_total docs srcs w Htot Hsrc) as (vs & w' & Hans & Erun).
    do 3 eexists. split; [exact Erun|]. apply docs_aligned; [assumption|].
    rewrite (answers_aligned _ _ Hal Hans). apply length_map.
  - intros Hex. now apply docs_embedding_no_source.
Qed.

Lemma zipped_upsert_intro (docs : list Document) (tr : list event)
    (ids : list string) :
  List.length ids = List.length docs ->
  upserts tr = [py_zip3 ids (returned_vectors tr) (prepared_metadata docs)] ->
  zipped_upsert docs tr.
Proof.
  intros Hids Hup.
  exists ids, (py_zip3 ids (returned_vectors tr) (prepared_metadata docs)).
  cbv zeta.
  change (List.length (A:=vector_record))
    with (List.length (A:=string * embedding * dict)).
  rewrite py_zip3_length, prepared_metadata_length, Hids.
  repeat split; try assumption; try lia.
  apply py_zip3_firstn.
Qed.

(** C9: in every embedding asset the records given to the upsert are the
    [zip] of the ids, the returned vectors and the cleaned metadata, so their
    number is the smallest of the three lengths; when the provider returns
    fewer vectors than there are texts the run completes all the same, and
    the ids and metadata beyond the last vector are left out. *)
Theorem upsert_truncates_to_shortest (docs : list Document) (w : W) :
  provider_total create ->
  (exists res tr w',
      github_issues_embeddings W create docs w = (Ok res, tr, w')
      /\ zipped_upsert docs tr)
  /\ (exists res tr w',
         github_discussions_embeddings W create docs w = (Ok res, tr, w')
         /\ zipped_upsert docs tr)
  /\ ((exists srcs, map source_of docs = map Some srcs) ->
      exists res tr w',
        docs_embedding W create docs w = (Ok res, tr, w')
        /\ zipped_upsert docs tr).
Proof.
  intros Htot. split; [|split].
  - destruct (issues_total docs w Htot) as (vs & w' & _ & Erun).
    do 3 eexists. split; [exact Erun|].
    apply (zipped_upsert_intro docs _ (sequential_ids (List.length docs))).
    + apply sequential_ids_length.
    + unfold returned_vectors. simpl. now rewrite app_nil_r.
  - destruct (discussions_total docs w Htot) as (resps & w' & Hans & Erun).
    do 3 eexists. split; [exact Erun|].
    assert (Hlen : List.length resps
                   = List.length (batches 20 (map page_content docs)))
      by (symmetry; eapply Forall2_length; eassumption).
    destruct (discussions_trace_observed docs resps Hlen)
      as (_ & _ & _ & E4 & _ & _ & E7).
    apply (zipped_upsert_intro docs _ (sequential_ids (List.length docs))).
    + apply sequential_ids_length.
    + now rewrite E4.
  - intros [srcs Hsrc].
    destruct (docs_total docs srcs w Htot Hsrc) as (vs & w' & _ & Erun).
    do 3 eexists. split; [exact Erun|].
    apply (zipped_upsert_intro docs _ (map md5_hex srcs)).
    + rewrite length_map. now apply sources_nth.
    + unfold returned_vectors. simpl. now rewrite app_nil_r.
Qed.

(** *** Sequential ids *)

Lemma py_int_str (i : nat) : py_int (py_str i) = Some i.
Proof.
  unfold py_int, py_str. rewrite NilEmpty.usu. simpl.
  now rewrite DecimalNat.Unsigned.of_to.
Qed.

Lemma py_str_inj (i j : nat) : py_str i = py_str j -> i = j.
Proof.
  intros E. apply (f_equal py_int) in E. rewrite !py_int_str in E. congruence.
Qed.

Lemma zip_sequential_ids (n : nat) (embs : list embedding) (mds : list dict) :
  forall i rec,
    nth_error (py_zip3 (sequential_ids n) embs mds) i = Some rec ->
    i < n /\ record_id rec = py_str i.
Proof.
  intros i [[id v] md] Hrec.
  apply py_zip3_nth_inv in Hrec. destruct Hrec as (Hid & _ & _).
  assert (Hi : i < n).
  { rewrite <- (sequential_ids_length n). apply nth_error_Some. congruence. }
  split; [exact Hi|]. rewrite (sequential_ids_nth n i Hi) in Hid.
  unfold record_id. simpl. congruence.
Qed.

(** C6: in the issues asset and in the discussions asset the id of the record
    at position [i] of the upsert is [i] written in decimal, whatever the
    provider answers; and when the provider returns one vector per text there
    is such a record for every [i] from 0 to the number of documents minus
    one. *)
Theorem sequential_ids_are_positions (docs : list Document) (w : W) :
  (forall records i rec,
      (In records (upserts (run_trace (github_issues_embeddings W create docs w)))
       \/ In records
            (upserts (run_trace (github_discussions_embeddings W create docs w))))
      ->
      nth_error records i = Some rec ->
      i < List.length docs
      /\ record_id rec = py_str i
      /\ py_int (record_id rec) = Some i)
  /\ (provider_aligned create ->
      (exists res tr w' records,
          github_issues_embeddings W create docs w = (Ok res, tr, w')
          /\ upserts tr = [records]
          /\ List.length records = List.length docs
          /\ forall i, i < List.length docs ->
                       option_map record_id (nth_error records i)
                       = Some (py_str i))
      /\ (exists res tr w' records,
             github_discussions_embeddings W create docs w = (Ok res, tr, w')
             /\ upserts tr = [records]
             /\ List.length records = List.length docs
             /\ forall i, i < List.length docs ->
                          option_map record_id (nth_error records i)
                          = Some (py_str i))).
Proof.
  split.
  - intros records i rec Hin Hrec.
    assert (Hzip : exists embs,
               records = py_zip3 (sequential_ids (List.length docs)) embs
                                 (prepared_metadata docs)).
    { destruct Hin as [Hin|Hin].
      - rewrite github_issues_embeddings_run in Hin.
        destruct (create "text-embedding-3-small" (map page_content docs) w)
          as [[vs|e] w1]; simpl in Hin; [|contradiction].
        destruct Hin as [<-|[]]. now exists vs.
      - destruct (github_discussions_embeddings_run docs w)
          as (resps & tail & r & w' & Erun & _ & Hcase).
        rewrite Erun in Hin. unfold run_trace in Hin. simpl in Hin.
        rewrite upserts_app in Hin.
        assert (Hloop : upserts
                          (flat_map (fun cr => batch_events (fst cr) (snd cr))
                                    (combine
                                       (batches BATCH_SIZE
                                                (map page_content docs))
                                       resps)) = []).
        { clear. generalize (combine (batches BATCH_SIZE
                                              (map page_content docs)) resps).
          induction l as [|x l IH]; simpl; [reflexivity|exact IH]. }
        rewrite Hloop in Hin. simpl in Hin.
        destruct Hcase as [(_ & -> & _)|(e & c & _ & -> & _)];
          simpl in Hin; [|contradiction].
        destruct Hin as [<-|[]]. now exists (List.concat resps). }
    destruct Hzip as [embs ->].
    destruct (zip_sequential_ids _ _ _ _ _ Hrec) as [Hi Hid].
    repeat split; try assumption. rewrite Hid. apply py_int_str.
  - intros Hal. pose proof (provider_aligned_total Hal) as Htot.
    assert (Hids : forall tr,
               run_aligned sequential_id docs tr ->
               exists records,
                 upserts tr = [records]
                 /\ List.length records = List.length docs
                 /\ forall i, i < List.length docs ->
                              option_map record_id (nth_error records i)
                              = Some (py_str i)).
    { intros tr (ids & records & Hup & _ & _ & _ & _ & _ & Hlen & Hpos).
      exists records. repeat split; try assumption.
      intros i Hi. destruct (nth_error docs i) as [doc|] eqn:Hdoc;
        [|apply nth_error_None in Hdoc; lia].
      destruct (Hpos i doc Hdoc) as (v & id & _ & _ & _ & Hid & _ & Hrec).
      rewrite Hrec. unfold sequential_id in Hid. unfold record_id. simpl.
      congruence. }
    split.
    + destruct (issues_total docs w Htot) as (vs & w' & Hans & Erun).
      destruct (Hids (issues_trace docs vs)) as (records & H1 & H2 & H3).
      { apply issues_aligned. rewrite (answers_aligned _ _ Hal Hans).
        apply length_map. }
      do 3 eexists. exists records. split; [exact Erun|]. auto.
    + destruct (discussions_total docs w Htot) as (resps & w' & Hans & Erun).
      destruct (Hids (discussions_trace docs resps))
        as (records & H1 & H2 & H3).
      { apply discussions_aligned. now apply answers_all_aligned. }
      do 3 eexists. exists records. split; [exact Erun|]. auto.
Qed.

(** *** Batches and pauses *)

Lemma batches_25 (texts : list string) :
  List.length texts = 25 ->
  map (@List.length string) (batches 20 texts) = [20; 5].
Proof.
  intros Hlen. rewrite batches_closed by lia. rewrite Hlen.
  change (ceil_div 25 20) with 2. cbn [map seq].
  rewrite !py_slice_length, Hlen. reflexivity.
Qed.

(** C2: texts embedded with a batch size [B] are cut into consecutive batches
    of at most [B] texts; with a provider that answers every call there is
    exactly one call per batch, in order, [ceil(N / B)] of them; the vectors
    collected are the answers put end to end, which pairs the i-th vector with
    the i-th text when each answer has one vector per text. The discussions
    asset does this with batches of 20: on 25 documents it makes two calls, of
    20 and 5 texts, and collects 25 vectors in the order of the documents. *)
Theorem batched_embedding_calls (B : nat) (texts : list string)
    (docs : list Document) (w : W) :
  0 < B ->
  provider_total create ->
  (exists all_embeddings tr w',
      embed_in_batches W create B texts w = (Ok all_embeddings, tr, w')
      /\ map fst (embed_calls tr) = batches B texts
      /\ List.concat (batches B texts) = texts
      /\ Forall (fun c => 1 <= List.length c <= B) (batches B texts)
      /\ (forall k, k < ceil_div (List.length texts) B ->
                    nth_error (batches B texts) k
                    = Some (py_slice texts (k * B) (k * B + B)))
      /\ List.length (embed_calls tr) = ceil_div (List.length texts) B
      /\ all_embeddings = returned_vectors tr
      /\ (provider_aligned create ->
          List.length all_embeddings = List.length texts
          /\ embedded_pairs tr = combine texts all_embeddings))
  /\ (exists res tr w',
         github_discussions_embeddings W create docs w = (Ok res, tr, w')
         /\ map fst (embed_calls tr) = batches 20 (map page_content docs)
         /\ List.length (embed_calls tr) = ceil_div (List.length docs) 20
         /\ (List.length docs = 25 ->
             map (@List.length string) (map fst (embed_calls tr)) = [20; 5]
             /\ (provider_aligned create ->
                 List.length (returned_vectors tr) = 25
                 /\ embedded_pairs tr
                    = combine (map page_content docs) (returned_vectors tr)))).
Proof.
  intros HB Htot. split.
  - destruct (embed_in_batches_total B texts w Htot)
      as (resps & w' & Erun & Hans).
    assert (Hlen : List.length resps = List.length (batches B texts))
      by (symmetry; eapply Forall2_length; eassumption).
    destruct (batch_trace_observed (batches B texts) resps Hlen)
      as (E1 & E2 & E3 & E4 & E5 & E6 & E7).
    do 3 eexists. split; [exact Erun|].
    split; [exact E2|]. split; [now apply batches_concat|].
    split; [now apply batches_sizes|].
    split; [intros k Hk; now apply batches_nth|].
    split.
    { rewrite <- (length_map fst), E2. now apply batches_length. }
    split; [now rewrite E4|].
    intros Hal.
    destruct (aligned_concat _ _ (answers_all_aligned _ _ Hal Hans))
      as [Hcat Hpairs].
    rewrite batches_concat in Hcat, Hpairs by assumption.
    split; [exact Hcat|]. now rewrite E5.
  - destruct (discussions_total docs w Htot) as (resps & w' & Hans & Erun).
    assert (Hlen : List.length resps
                   = List.length (batches 20 (map page_content docs)))
      by (symmetry; eapply Forall2_length; eassumption).
    destruct (discussions_trace_observed docs resps Hlen)
      as (E1 & E2 & E3 & E4 & E5 & E6 & E7).
    do 3 eexists. split; [exact Erun|].
    split; [exact E2|].
    split.
    { rewrite <- (length_map fst), E2, batches_length by lia.
      now rewrite length_map. }
    intros H25. split.
    { rewrite E2. apply batches_25. now rewrite length_map. }
    intros Hal.
    destruct (aligned_concat _ _ (answers_all_aligned _ _ Hal Hans))
      as [Hcat Hpairs].
    rewrite batches_concat in Hcat, Hpairs by lia.
    rewrite E4, E5, Hcat, length_map. auto.
Qed.

(** C8: in the discussions asset every provider call that returns is
    followed at once by a pause of one second, the last one included; a run
    is the index set-up, then call and pause for each batch in turn, then the
    upsert, unless a call fails, which ends the run there. With a provider
    that answers every call there are [ceil(N / 20)] calls and as many pauses
    of one second. *)
Theorem pause_after_each_batch (docs : list Document) (w : W) :
  (exists (resps : list (list embedding)) (tail : list event),
      run_trace (github_discussions_embeddings W create docs w)
      = [EvCreateIndex "dagster-knowledge" 1536;
         EvGetIndex "dagster-knowledge" "dagster-github"]
        ++ flat_map (fun cr => [EvEmbed "text-embedding-3-small" (fst cr)
                                        (Ok (snd cr));
                                EvSleep 1])
                    (combine (batches 20 (map page_content docs)) resps)
        ++ tail
      /\ ((exists records,
              tail = [EvUpsert "dagster-knowledge" "dagster-github" records]
              /\ List.length resps = ceil_div (List.length docs) 20)
          \/ (exists e c,
                 tail = [EvEmbed "text-embedding-3-small" c (Raise e)]
                 /\ run_result (github_discussions_embeddings W create docs w)
                    = Raise e)))
  /\ (provider_total create ->
      exists resps res w',
        github_discussions_embeddings W create docs w
        = (Ok res, discussions_trace docs resps, w')
        /\ List.length resps = ceil_div (List.length docs) 20
        /\ List.length (embed_calls (discussions_trace docs resps))
           = ceil_div (List.length docs) 20
        /\ sleeps (discussions_trace docs resps)
           = repeat 1%Q (ceil_div (List.length docs) 20)).
Proof.
  assert (Hn : List.length (batches 20 (map page_content docs))
               = ceil_div (List.length docs) 20).
  { rewrite batches_length by lia. now rewrite length_map. }
  split.
  - destruct (github_discussions_embeddings_run docs w)
      as (resps & tail & r & w' & Erun & _ & Hcase).
    exists resps, tail. rewrite Erun. split; [reflexivity|].
    destruct Hcase as [(_ & -> & Hlen)|(e & c & -> & -> & _)].
    + left. eexists. split; [reflexivity|].
      change BATCH_SIZE with 20 in Hlen. now rewrite Hlen.
    + right. exists e, c. split; reflexivity.
  - intros Htot.
    destruct (discussions_total docs w Htot) as (resps & w' & Hans & Erun).
    assert (Hlen : List.length resps
                   = List.length (batches 20 (map page_content docs)))
      by (symmetry; eapply Forall2_length; eassumption).
    destruct (discussions_trace_observed docs resps Hlen)
      as (E1 & E2 & E3 & E4 & E5 & E6 & E7).
    exists resps. do 2 eexists. split; [exact Erun|].
    split; [now rewrite Hlen|].
    split; [|now rewrite E6, Hn].
    rewrite <- (length_map fst), E2. exact Hn.
Qed.

(** C4 (amended): on an empty document list the discussions asset makes no
    provider call, while the issues asset and the documentation asset make
    exactly one, with an empty list of texts; when that call returns,
    whatever it returns, the upsert is empty and the reported count is zero. *)
Theorem empty_input_runs (w : W) :
  github_discussions_embeddings W create [] w
  = (Ok (mkMaterializeResult [("number_of_discussions", PInt 0)]),
     [EvCreateIndex "dagster-knowledge" 1536;
      EvGetIndex "dagster-knowledge" "dagster-github";
      EvUpsert "dagster-knowledge" "dagster-github" []],
     w)
  /\ github_issues_embeddings W create [] w
     = match create "text-embedding-3-small" [] w with
       | (Ok vs, w1) =>
           (Ok (mkMaterializeResult [("number_of_issues", PInt 0)]),
            [EvCreateIndex "dagster-knowledge" 1536;
             EvGetIndex "dagster-knowledge" "dagster-github";
             EvEmbed "text-embedding-3-small" [] (Ok vs);
             EvUpsert "dagster-knowledge" "dagster-github" []],
            w1)
       | (Raise e, w1) =>
           (Raise e,
            [EvCreateIndex "dagster-knowledge" 1536;
             EvGetIndex "dagster-knowledge" "dagster-github";
             EvEmbed "text-embedding-3-small" [] (Raise e)],
            w1)
       end
  /\ docs_embedding W create [] w
     = match create "text-embedding-3-small" [] w with
       | (Ok vs, w1) =>
           (Ok (mkMaterializeResult
                  [("documents_embedded", PInt 0);
                   ("embedding_dimension",
                    PInt (match vs with e0 :: _ => len e0 | [] => 0%Z end));
                   ("urls_processed", PList [])]),
            [EvCreateIndex "dagster-knowledge" 1536;
             EvGetIndex "dagster-knowledge" "dagster-docs";
             EvEmbed "text-embedding-3-small" [] (Ok vs);
             EvUpsert "dagster-knowledge" "dagster-docs" []],
            w1)
       | (Raise e, w1) =>
           (Raise e,
            [EvCreateIndex "dagster-knowledge" 1536;
             EvGetIndex "dagster-knowledge" "dagster-docs";
             EvEmbed "text-embedding-3-small" [] (Raise e)],
            w1)
       end
  /\ embed_calls (run_trace (github_discussions_embeddings W create [] w)) = []
  /\ List.length
       (embed_calls (run_trace (github_issues_embeddings W create [] w))) = 1
  /\ List.length (embed_calls (run_trace (docs_embedding W create [] w))) = 1.
Proof.
  assert (E1 : github_discussions_embeddings W create [] w
               = (Ok (mkMaterializeResult
                        [("number_of_discussions", PInt 0)]),
                  [EvCreateIndex "dagster-knowledge" 1536;
                   EvGetIndex "dagster-knowledge" "dagster-github";
                   EvUpsert "dagster-knowledge" "dagster-github" []],
                  w)) by reflexivity.
  pose proof (github_issues_embeddings_run [] w) as E2.
  pose proof (docs_embedding_run [] [] w eq_refl) as E3.
  simpl in E2, E3.
  split; [exact E1|]. split.
  { rewrite E2.
    destruct (create "text-embedding-3-small" [] w) as [[vs|e] w1];
      reflexivity. }
  split.
  { rewrite E3.
    destruct (create "text-embedding-3-small" [] w) as [[vs|e] w1];
      reflexivity. }
  split; [now rewrite E1|].
  rewrite E2, E3.
  destruct (create "text-embedding-3-small" [] w) as [[vs|e] w1];
    split; reflexivity.
Qed.

End Runs.

(** ** Content-derived ids *)

Lemma string_of_list_ascii_length (l : list ascii) :
  String.length (string_of_list_ascii l) = List.length l.
Proof. induction l as [|c l IH]; simpl; congruence. Qed.

Lemma unhex_hex_of_byte (b : byte) :
  MD5.unhex_byte (MD5.hex_of_byte b) = Some b.
Proof. destruct b; reflexivity. Qed.

Lemma hex_of_byte_lower (b : byte) :
  forallb MD5.lower_hex_digit (MD5.hex_of_byte b) = true.
Proof. destruct b; reflexivity. Qed.

Lemma hex_of_byte_inj (b1 b2 : byte) :
  MD5.hex_of_byte b1 = MD5.hex_of_byte b2 -> b1 = b2.
Proof.
  intros E. apply (f_equal MD5.unhex_byte) in E.
  rewrite !unhex_hex_of_byte in E. congruence.
Qed.

Lemma hex_inj (bs1 bs2 : list byte) : MD5.hex bs1 = MD5.hex bs2 -> bs1 = bs2.
Proof.
  unfold MD5.hex. intros E.
  apply (f_equal list_ascii_of_string) in E.
  rewrite !list_ascii_of_string_of_list_ascii in E.
  revert bs2 E. induction bs1 as [|b1 bs1 IH]; intros [|b2 bs2]; simpl;
    try discriminate; [reflexivity|].
  intros [= Hhi Hlo Hrest]. f_equal; [|now apply IH].
  apply hex_of_byte_inj. unfold MD5.hex_of_byte. congruence.
Qed.

Lemma hex_length (bs : list byte) :
  String.length (MD5.hex bs) = 2 * List.length bs.
Proof.
  unfold MD5.hex. rewrite string_of_list_ascii_length.
  induction bs as [|b bs IH]; simpl; [reflexivity|]. rewrite IH. lia.
Qed.

Lemma hex_lower (bs : list byte) :
  forallb MD5.lower_hex_digit (list_ascii_of_string (MD5.hex bs)) = true.
Proof.
  unfold MD5.hex. rewrite list_ascii_of_string_of_list_ascii.
  induction bs as [|b bs IH]; [reflexivity|].
  change (flat_map MD5.hex_of_byte (b :: bs))
    with (MD5.hex_of_byte b ++ flat_map MD5.hex_of_byte bs).
  now rewrite forallb_app, hex_of_byte_lower, IH.
Qed.

Lemma digest_length (data : list byte) : List.length (MD5.digest data) = 16.
Proof.
  unfold MD5.digest.
  destruct (MD5.blocks _ _ MD5.init) as [[[a b] c] d]. reflexivity.
Qed.

Lemma encode_inj (s1 s2 : string) : encode s1 = encode s2 -> s1 = s2.
Proof.
  unfold encode. intros E. apply (f_equal string_of_list_byte) in E.
  now rewrite !string_of_list_byte_of_string in E.
Qed.

Lemma md5_hex_format (url : string) :
  String.length (md5_hex url) = 32
  /\ forallb MD5.lower_hex_digit (list_ascii_of_string (md5_hex url)) = true.
Proof.
  unfold md5_hex, MD5.hexdigest. split.
  - now rewrite hex_length, digest_length.
  - apply hex_lower.
Qed.

Lemma md5_hex_eq (u1 u2 : string) :
  md5_hex u1 = md5_hex u2 ->
  u1 = u2 \/ (u1 <> u2 /\ MD5.digest (encode u1) = MD5.digest (encode u2)).
Proof.
  intros E. destruct (string_dec u1 u2) as [Heq|Hne]; [now left|right].
  split; [exact Hne|]. now apply hex_inj.
Qed.

Lemma docs_embedding_ok_inv (W : Type)
    (create : string -> list string -> W -> result (list embedding) * W)
    (docs : list Document) (w w' : W) (res : MaterializeResult)
    (tr : list event) :
  docs_embedding W create docs w = (Ok res, tr, w') ->
  exists srcs vs,
    map source_of docs = map Some srcs
    /\ tr = docs_trace docs srcs vs
    /\ res = docs_result docs srcs vs.
Proof.
  intros Erun. destruct (sources_dec docs) as [[srcs Hsrc]|Hex].
  - rewrite (docs_embedding_run W create docs srcs w Hsrc) in Erun.
    destruct (create "text-embedding-3-small" (map page_content docs) w)
      as [[vs|e] w1]; [|discriminate].
    injection Erun as <- <- <-. now exists srcs, vs.
  - destruct (docs_embedding_no_source W create docs w Hex)
      as (e & tr' & w'' & E & _). congruence.
Qed.

Lemma docs_record_id (docs : list Document) (srcs : list string)
    (vs : list embedding) (i : nat) (rec : vector_record) :
  map source_of docs = map Some srcs ->
  nth_error (py_zip3 (map md5_hex srcs) vs (prepared_metadata docs)) i
  = Some rec ->
  exists doc src,
    nth_error docs i = Some doc
    /\ source_of doc = Some src
    /\ record_id rec = md5_hex src.
Proof.
  intros Hsrc Hrec. destruct rec as [[id v] md].
  apply py_zip3_nth_inv in Hrec. destruct Hrec as (Hid & _ & Hmd).
  destruct (sources_nth docs srcs Hsrc) as [Hlen Hnth].
  destruct (nth_error docs i) as [doc|] eqn:Hdoc.
  - destruct (Hnth i doc Hdoc) as (src & Hs & Hi).
    exists doc, src. repeat split; try assumption.
    rewrite nth_error_map, Hi in Hid. simpl in Hid. unfold record_id. simpl.
    congruence.
  - apply nth_error_None in Hdoc.
    assert (i < List.length (map md5_hex srcs))
      by (apply nth_error_Some; congruence).
    rewrite length_map in *. lia.
Qed.

(** C5: the id the documentation asset gives to a page is the lowercase
    hexadecimal MD5 digest of the page's source URL: 32 digits among 0-9 and
    a-f, computed by MD5 as RFC 1321 defines it. It depends on the URL alone,
    so the same URL gets the same id at any position, in any run and whatever
    the provider answers, and two URLs get the same id only when they are
    equal or their MD5 digests collide. *)
Theorem content_id_is_md5_of_source :
  (forall (W : Type) create (docs : list Document) (w w' : W) res tr,
      docs_embedding W create docs w = (Ok res, tr, w') ->
      exists records,
        upserts tr = [records]
        /\ forall i rec,
             nth_error records i = Some rec ->
             exists doc url,
               nth_error docs i = Some doc
               /\ source_of doc = Some url
               /\ record_id rec = md5_hex url)
  /\ (forall (W : Type) create (docs : list Document) (w : W) urls,
         provider_aligned create ->
         map source_of docs = map Some urls ->
         exists res tr w' records,
           docs_embedding W create docs w = (Ok res, tr, w')
           /\ upserts tr = [records]
           /\ map record_id records = map md5_hex urls)
  /\ (forall (W1 W2 : Type) create1 create2 (docs1 docs2 : list Document)
             (w1 w1' : W1) (w2 w2' : W2) r1 r2 tr1 tr2 recs1 recs2
             i j rec1 rec2 d1 d2 url,
         docs_embedding W1 create1 docs1 w1 = (Ok r1, tr1, w1') ->
         docs_embedding W2 create2 docs2 w2 = (Ok r2, tr2, w2') ->
         upserts tr1 = [recs1] -> upserts tr2 = [recs2] ->
         nth_error docs1 i = Some d1 -> nth_error docs2 j = Some d2 ->
         source_of d1 = Some url -> source_of d2 = Some url ->
         nth_error recs1 i = Some rec1 -> nth_error recs2 j = Some rec2 ->
         record_id rec1 = record_id rec2)
  /\ (forall url,
         String.length (md5_hex url) = 32
         /\ forallb MD5.lower_hex_digit (list_ascii_of_string (md5_hex url))
            = true)
  /\ (forall u1 u2,
         md5_hex u1 = md5_hex u2 ->
         u1 = u2
         \/ (u1 <> u2 /\ MD5.digest (encode u1) = MD5.digest (encode u2)))
  /\ md5_hex "" = "d41d8cd98f00b204e9800998ecf8427e"
  /\ md5_hex "abc" = "900150983cd24fb0d6963f7d28e17f72"
  /\ md5_hex "message digest" = "f96b697d7cb7938d525a2f31aaf161d0".
Proof.
  assert (Hids : forall (W : Type) create (docs : list Document) (w w' : W)
                        res tr,
             docs_embedding W create docs w = (Ok res, tr, w') ->
             exists records,
               upserts tr = [records]
               /\ forall i rec,
                    nth_error records i = Some rec ->
                    exists doc url,
                      nth_error docs i = Some doc
                      /\ source_of doc = Some url
                      /\ record_id rec = md5_hex url).
  { intros W create docs w w' res tr Erun.
    destruct (docs_embedding_ok_inv W create docs w w' res tr Erun)
      as (srcs & vs & Hsrc & -> & _).
    eexists. split; [reflexivity|]. intros i rec Hrec.
    now apply (docs_record_id docs srcs vs i rec). }
  split; [exact Hids|]. split; [|split; [|split; [|split]]].
  - intros W create docs w urls Hal Hsrc.
    destruct (docs_total W create docs urls w
                (provider_aligned_total W create Hal) Hsrc)
      as (vs & w' & Hans & Erun).
    do 3 eexists. eexists. split; [exact Erun|]. split; [reflexivity|].
    pose proof (answers_aligned W create _ _ Hal Hans) as Hlen.
    rewrite length_map in Hlen.
    destruct (sources_nth docs urls Hsrc) as [Hn _].
    unfold prepared_metadata. clear -Hlen Hn.
    revert vs urls Hlen Hn.
    induction docs as [|d docs IH]; intros [|v vs] [|u urls]; simpl;
      try discriminate; [reflexivity|].
    intros [= Hlen] [= Hn]. f_equal. now apply IH.
  - intros W1 W2 create1 create2 docs1 docs2 w1 w1' w2 w2' r1 r2 tr1 tr2
           recs1 recs2 i j rec1 rec2 d1 d2 url
           E1 E2 U1 U2 D1 D2 S1 S2 R1 R2.
    destruct (Hids _ _ _ _ _ _ _ E1) as (recs1' & U1' & H1).
    destruct (Hids _ _ _ _ _ _ _ E2) as (recs2' & U2' & H2).
    assert (recs1' = recs1) by congruence.
    assert (recs2' = recs2) by congruence. subst.
    destruct (H1 i rec1 R1) as (d1' & u1 & D1' & S1' & ->).
    destruct (H2 j rec2 R2) as (d2' & u2 & D2' & S2' & ->).
    congruence.
  - exact md5_hex_format.
  - exact md5_hex_eq.
  - repeat split; vm_compute; reflexivity.
Qed.

(** ** The properties on sample runs *)

Lemma sample_provider_aligned : provider_aligned Sample.provider.
Proof.
  intros model input w. eexists. split; [reflexivity|]. apply length_map.
Qed.

Lemma sample_provider_total : provider_total Sample.provider.
Proof. intros model input w. eexists. reflexivity. Qed.

Lemma sample_short_provider_total : provider_total Sample.short_provider.
Proof. intros model input w. eexists. reflexivity. Qed.

Lemma sample_scraper_total : scraper_total Sample.parse Sample.scrape.
Proof. split; intros; eexists; reflexivity. Qed.

Lemma sample_issue_wf : dict_wf (metadata (Sample.issue 1 "first issue")).
Proof.
  unfold dict_wf. simpl.
  repeat (constructor; [simpl; intuition discriminate|]). constructor.
Qed.

Lemma sample_pages_sources :
  exists srcs, map source_of Sample.pages = map Some srcs.
Proof.
  exists ["https://docs.dagster.io/a"; "https://docs.dagster.io/c"].
  reflexivity.
Qed.

Lemma sanitize_keeps_exactly_primitives_witness :
  dict_wf (metadata (Sample.issue 1 "first issue"))
  /\ sanitize (metadata (Sample.issue 1 "first issue"))
     = [("number", PInt 1); ("state", PStr "open"); ("locked", PBool false);
        ("score", PFloat 0.5%float)].
Proof.
  split; [exact sample_issue_wf|].
  exact (proj1 (sanitize_keeps_exactly_primitives
                  (metadata (Sample.issue 1 "first issue")) sample_issue_wf)).
Defined.

Lemma embedding_runs_aligned_witness :
  provider_aligned Sample.provider
  /\ (exists res tr w',
         github_issues_embeddings nat Sample.provider Sample.issues 0
         = (Ok res, tr, w')
         /\ run_aligned sequential_id Sample.issues tr)
  /\ (exists res tr w',
         github_discussions_embeddings nat Sample.provider
                                       Sample.discussions 0
         = (Ok res, tr, w')
         /\ run_aligned sequential_id Sample.discussions tr)
  /\ (exists res tr w',
         docs_embedding nat Sample.provider Sample.pages 0 = (Ok res, tr, w')
         /\ run_aligned content_id Sample.pages tr).
Proof.
  split; [exact sample_provider_aligned|]. split; [|split].
  - exact (proj1 (embedding_runs_aligned nat Sample.provider Sample.issues 0
                    sample_provider_aligned)).
  - exact (proj1 (proj2 (embedding_runs_aligned nat Sample.provider
                           Sample.discussions 0 sample_provider_aligned))).
  - exact (proj1 (proj2 (proj2 (embedding_runs_aligned
                                  nat Sample.provider Sample.pages 0
                                  sample_provider_aligned)))
                 sample_pages_sources).
Defined.

Lemma batched_embedding_calls_witness :
  0 < 20
  /\ provider_total Sample.provider
  /\ exists res tr w',
       github_discussions_embeddings nat Sample.provider Sample.discussions 0
       = (Ok res, tr, w')
       /\ List.length (embed_calls tr) = 2
       /\ map (@List.length string) (map fst (embed_calls tr)) = [20; 5]
       /\ List.length (returned_vectors tr) = 25.
Proof.
  split; [lia|]. split; [exact sample_provider_total|].
  destruct (proj2 (batched_embedding_calls
                     nat Sample.provider 20
                     (map page_content Sample.discussions)
                     Sample.discussions 0
                     (Nat.lt_0_succ 19) sample_provider_total))
    as (res & tr & w' & Erun & _ & Hn & H25).
  destruct (H25 eq_refl) as [Hsizes Hal].
  destruct (Hal sample_provider_aligned) as [Hvecs _].
  exists res, tr, w'. repeat split; assumption.
Defined.

Lemma sequential_ids_are_positions_witness :
  provider_aligned Sample.provider
  /\ exists res tr w' records,
       github_issues_embeddings nat Sample.provider Sample.issues 0
       = (Ok res, tr, w')
       /\ upserts tr = [records]
       /\ List.length records = 3
       /\ map record_id records = ["0"; "1"; "2"].
Proof.
  split; [exact sample_provider_aligned|].
  destruct (proj1 (proj2 (sequential_ids_are_positions
                            nat Sample.provider Sample.issues 0)
                         sample_provider_aligned))
    as (res & tr & w' & records & Erun & Hup & Hlen & Hid).
  exists res, tr, w', records. repeat split; try assumption.
  destruct records as [|r0 [|r1 [|r2 [|r3 records]]]]; try discriminate.
  pose proof (Hid 0 ltac:(simpl; lia)) as H0.
  pose proof (Hid 1 ltac:(simpl; lia)) as H1.
  pose proof (Hid 2 ltac:(simpl; lia)) as H2.
  simpl in H0, H1, H2. injection H0 as H0. injection H1 as H1.
  injection H2 as H2. simpl. now rewrite H0, H1, H2.
Defined.

Lemma pause_after_each_batch_witness :
  provider_total Sample.provider
  /\ exists resps res w',
       github_discussions_embeddings nat Sample.provider Sample.discussions 0
       = (Ok res, discussions_trace Sample.discussions resps, w')
       /\ List.length resps = 2
       /\ sleeps (discussions_trace Sample.discussions resps) = [1%Q; 1%Q].
Proof.
  split; [exact sample_provider_total|].
  destruct (proj2 (pause_after_each_batch nat Sample.provider
                                          Sample.discussions 0)
                  sample_provider_total)
    as (resps & res & w' & Erun & Hlen & _ & Hsleeps).
  exists resps, res, w'. repeat split; assumption.
Defined.

Lemma upsert_truncates_to_shortest_witness :
  provider_total Sample.short_provider
  /\ (exists res tr w',
         github_issues_embeddings nat Sample.short_provider Sample.issues 0
         = (Ok res, tr, w')
         /\ zipped_upsert Sample.issues tr)
  /\ (exists res tr w',
         github_discussions_embeddings nat Sample.short_provider
                                       Sample.discussions 0
         = (Ok res, tr, w')
         /\ zipped_upsert Sample.discussions tr)
  /\ (exists res tr w',
         docs_embedding nat Sample.short_provider Sample.pages 0
         = (Ok res, tr, w')
         /\ zipped_upsert Sample.pages tr)
  /\ map (@List.length vector_record)
         (upserts (run_trace (github_issues_embeddings
                                nat Sample.short_provider Sample.issues 0)))
     = [2]
  /\ List.length Sample.issues = 3.
Proof.
  split; [exact sample_short_provider_total|].
  split; [|split; [|split; [|split; reflexivity]]].
  - exact (proj1 (upsert_truncates_to_shortest
                    nat Sample.short_provider Sample.issues 0
                    sample_short_provider_total)).
  - exact (proj1 (proj2 (upsert_truncates_to_shortest
                           nat Sample.short_provider Sample.discussions 0
                           sample_short_provider_total))).
  - exact (proj2 (proj2 (upsert_truncates_to_shortest
                           nat Sample.short_provider Sample.pages 0
                           sample_short_provider_total))
                 sample_pages_sources).
Defined.

Lemma docs_scrape_raw_first_four_witness :
  scraper_total Sample.parse Sample.scrape
  /\ (exists sitemap documents tr w',
       fst (Sample.parse 0) = Ok sitemap
       /\ docs_scrape_raw nat Sample.parse Sample.scrape 0
          = (Ok documents, tr, w')
       /\ map fst (scrape_calls tr) = firstn 4 sitemap
       /\ documents = scraped_documents tr
       /\ List.length documents <= 4
       /\ output_metadata tr
          = [[("pages scraped", PInt (len (scrape_calls tr)))]]
       /\ List.length (scrape_calls tr) = Nat.min 4 (List.length sitemap)
       /\ List.length documents + null_answers tr
          = List.length (scrape_calls tr))
  /\ output_metadata
       (run_trace (docs_scrape_raw nat Sample.parse Sample.scrape 0))
     = [[("pages scraped", PInt 4)]]
  /\ option_map (@List.length Document)
                (match run_result
                         (docs_scrape_raw nat Sample.parse Sample.scrape 0)
                 with
                 | Ok documents => Some documents
                 | Raise _ => None
                 end)
     = Some 3.
Proof.
  split; [exact sample_scraper_total|]. split; [|split; reflexivity].
  exact (docs_scrape_raw_first_four nat Sample.parse Sample.scrape 0
                                    sample_scraper_total).
Defined.

Lemma content_id_is_md5_of_source_witness :
  provider_aligned Sample.provider
  /\ map source_of Sample.pages
     = map Some ["https://docs.dagster.io/a"; "https://docs.dagster.io/c"]
  /\ exists res tr w' records,
       docs_embedding nat Sample.provider Sample.pages 0 = (Ok res, tr, w')
       /\ upserts tr = [records]
       /\ map record_id records
          = map md5_hex ["https://docs.dagster.io/a";
                         "https://docs.dagster.io/c"].
Proof.
  split; [exact sample_provider_aligned|]. split; [reflexivity|].
  exact (proj1 (proj2 content_id_is_md5_of_source)
               nat Sample.provider Sample.pages 0
               ["https://docs.dagster.io/a"; "https://docs.dagster.io/c"]
               sample_provider_aligned eq_refl).
Defined.

(** C4, as stated, fails: on an empty document list the issues asset and the
    documentation asset each call the provider once, with no text. *)
Lemma empty_input_still_calls_provider :
  embed_calls
    (run_trace (github_issues_embeddings nat Sample.provider [] 0))
  = [([], Ok [])]
  /\ embed_calls (run_trace (docs_embedding nat Sample.provider [] 0))
     = [([], Ok [])]
  /\ List.length
       (embed_calls
          (run_trace (github_issues_embeddings nat Sample.provider [] 0)))
     <> 0.
Proof. repeat split; try reflexivity. discriminate. Qed.

(** Sample runs, computed. *)

Example sample_scrape_run :
  exists documents tr w',
    docs_scrape_raw nat Sample.parse Sample.scrape 0 = (Ok documents, tr, w')
    /\ map fst (scrape_calls tr)
       = ["https://docs.dagster.io/a"; "https://docs.dagster.io/b";
          "https://docs.dagster.io/c"; "https://docs.dagster.io/d"]
    /\ output_metadata tr = [[("pages scraped", PInt 4)]]
    /\ List.length documents = 3
    /\ sleeps tr = [1 # 2; 1 # 2; 1 # 2; 1 # 2]%Q.
Proof. do 3 eexists. repeat split; reflexivity. Qed.

Example sample_short_run :
  exists res tr w',
    github_issues_embeddings nat Sample.short_provider Sample.issues 0
    = (Ok res, tr, w')
    /\ List.length (returned_vectors tr) = 2
    /\ map (map record_id) (upserts tr) = [["0"; "1"]]
    /\ res = mkMaterializeResult [("number_of_issues", PInt 3)].
Proof. do 3 eexists. repeat split; reflexivity. Qed.

Example sample_missing_source :
  exists tr w',
    docs_embedding nat Sample.provider
                   [mkDocument "page" [("title", PStr "no source")]] 0
    = (Raise (KeyError "source"), tr, w')
    /\ upserts tr = [].
Proof. do 2 eexists. split; reflexivity. Qed.

Example sample_batches :
  map (@List.length string)
      (batches 20 (map page_content Sample.discussions)) = [20; 5]
  /\ py_range3 0 25 20 = [0; 20]
  /\ py_range3 0 40 20 = [0; 20]
  /\ py_range3 0 41 20 = [0; 20; 40]
  /\ py_range 3 = [0; 1; 2]
  /\ py_str 0 = "0" /\ py_str 24 = "24" /\ py_str 100 = "100".
Proof. repeat split; reflexivity. Qed.

(** * Further properties *)

(** ** When the provider fails *)

Section Failures.

Variable W : Type.
Variable create : string -> list string -> W -> result (list embedding) * W.

Lemma docs_embedding_provider_raises (docs : list Document) (w w1 : W)
    (e : exn) :
  create "text-embedding-3-small" (map page_content docs) w = (Raise e, w1) ->
  docs_embedding W create docs w
  = (Raise e,
     [EvCreateIndex "dagster-knowledge" 1536;
      EvGetIndex "dagster-knowledge" "dagster-docs";
      EvEmbed "text-embedding-3-small" (map page_content docs) (Raise e)],
     w1).
Proof.
  intros Ecall.
  unfold docs_embedding, bind at 1 2 3.
  unfold pinecone_create_index, pinecone_get_index, emit, bind at 1,
    embeddings_create. simpl.
  now rewrite Ecall.
Qed.

(** X1: when the single provider call of the issues asset or of the
    documentation asset raises, the run raises that same exception right
    after the call: nothing is upserted, and for the documentation asset this
    holds even if some document has no source URL. *)
Theorem provider_failure_aborts_single_call (docs : list Document) (w w1 : W)
    (e : exn) :
  create "text-embedding-3-small" (map page_content docs) w = (Raise e, w1) ->
  (exists tr,
      github_issues_embeddings W create docs w = (Raise e, tr, w1)
      /\ upserts tr = []
      /\ last tr (EvSleep 0)
         = EvEmbed "text-embedding-3-small" (map page_content docs) (Raise e))
  /\ (exists tr,
         docs_embedding W create docs w = (Raise e, tr, w1)
         /\ upserts tr = []
         /\ last tr (EvSleep 0)
            = EvEmbed "text-embedding-3-small" (map page_content docs)
                      (Raise e)).
Proof.
  intros Ecall. split.
  - rewrite github_issues_embeddings_run, Ecall.
    eexists. split; [reflexivity|]. split; reflexivity.
  - rewrite (docs_embedding_provider_raises docs w w1 e Ecall).
    eexists. split; [reflexivity|]. split; reflexivity.
Qed.

Lemma batch_events_partial (cs : list (list string))
    (resps : list (list embedding)) :
  List.length resps <= List.length cs ->
  let tr := flat_map (fun cr => batch_events (fst cr) (snd cr))
                     (combine cs resps) in
  embed_calls tr = combine (firstn (List.length resps) cs) (map Ok resps)
  /\ sleeps tr = repeat 1%Q (List.length resps)
  /\ upserts tr = []
  /\ returned_vectors tr = List.concat resps.
Proof.
  intros Hle tr.
  assert (Hlen : List.length resps
                 = List.length (firstn (List.length resps) cs))
    by (rewrite length_firstn; lia).
  destruct (batch_trace_observed (firstn (List.length resps) cs) resps Hlen)
    as (E1 & _ & _ & E4 & _ & E6 & E7).
  unfold tr. rewrite (combine_firstn_r cs resps).
  rewrite <- Hlen in E6. auto.
Qed.

(** X2: when a provider call of the discussions asset raises, the run raises
    that exception at once: the batches before it were embedded and each was
    followed by its pause, the failing call is the last event, and nothing is
    upserted, so the vectors already obtained are lost. *)
Theorem batch_failure_discards_embeddings (docs : list Document) (w w' : W)
    (e : exn) (tr : list event) :
  github_discussions_embeddings W create docs w = (Raise e, tr, w') ->
  exists (resps : list (list embedding)) (c : list string),
    List.length resps < ceil_div (List.length docs) 20
    /\ nth_error (batches 20 (map page_content docs)) (List.length resps)
       = Some c
    /\ tr = [EvCreateIndex "dagster-knowledge" 1536;
             EvGetIndex "dagster-knowledge" "dagster-github"]
            ++ flat_map (fun cr => [EvEmbed "text-embedding-3-small" (fst cr)
                                            (Ok (snd cr));
                                    EvSleep 1])
                        (combine (batches 20 (map page_content docs)) resps)
            ++ [EvEmbed "text-embedding-3-small" c (Raise e)]
    /\ upserts tr = []
    /\ sleeps tr = repeat 1%Q (List.length resps)
    /\ List.length (embed_calls tr) = S (List.length resps)
    /\ returned_vectors tr = List.concat resps.
Proof.
  intros Erun.
  destruct (github_discussions_embeddings_run W create docs w)
    as (resps & tail & r & w'' & Erun' & _ & Hcase).
  rewrite Erun in Erun'.
  assert (Hr : r = Raise e) by congruence.
  assert (Htr : tr = [EvCreateIndex "dagster-knowledge" 1536;
                      EvGetIndex "dagster-knowledge" "dagster-github"]
                     ++ flat_map (fun cr => batch_events (fst cr) (snd cr))
                                 (combine (batches BATCH_SIZE
                                                   (map page_content docs))
                                          resps)
                     ++ tail) by congruence.
  clear Erun'. subst r.
  destruct Hcase as [(Hr & _)|(e' & c & Hr & -> & Hc & _)]; [discriminate|].
  injection Hr as <-. change BATCH_SIZE with 20 in *.
  assert (Hlt : List.length resps
                < List.length (batches 20 (map page_content docs)))
    by (apply nth_error_Some; congruence).
  exists resps, c.
  destruct (batch_events_partial (batches 20 (map page_content docs)) resps
              ltac:(lia)) as (E1 & E2 & E3 & E4).
  split; [rewrite batches_length, length_map in Hlt by lia; exact Hlt|].
  split; [exact Hc|]. split; [exact Htr|]. rewrite Htr.
  split; [rewrite !upserts_app, E3; reflexivity|].
  split.
  { rewrite !sleeps_app, E2. simpl. now rewrite app_nil_r. }
  split.
  { rewrite !embed_calls_app, E1. simpl.
    rewrite length_app, length_combine, length_map, length_firstn. simpl. lia. }
  unfold returned_vectors in *. rewrite !embed_calls_app, !flat_map_app.
  rewrite E4. simpl. now rewrite app_nil_r.
Qed.

End Failures.

(** ** Documents without a usable source URL *)

Section MissingSource.

Variable W : Type.
Variable create : string -> list string -> W -> result (list embedding) * W.

Lemma doc_id_of_missing_key (doc : Document) (w : W) :
  dict_lookup (metadata doc) "source" = None ->
  doc_id_of W doc w = (Raise (KeyError "source"), [], w).
Proof.
  intros Hk. unfold doc_id_of, getitem, bind. now rewrite Hk.
Qed.

Lemma doc_id_of_not_str (doc : Document) (v : pyval) (w : W) :
  dict_lookup (metadata doc) "source" = Some v ->
  type_of v <> ty_str ->
  doc_id_of W doc w = (Raise (AttributeError "encode"), [], w).
Proof.
  intros Hk Hv. unfold doc_id_of, getitem, bind. rewrite Hk. simpl.
  destruct v; try reflexivity. now contradiction Hv.
Qed.

Lemma prepare_loop_stops (good : list Document) (bad : Document)
    (rest : list Document) (e : exn) :
  forall (srcs : list string) (acc : list dict * list string) (w : W),
    map source_of good = map Some srcs ->
    doc_id_of W bad w = (Raise e, [], w) ->
    for_loop (good ++ bad :: rest) (prepare_doc W) acc w = (Raise e, [], w).
Proof.
  induction good as [|doc good IH]; intros [|src srcs] [mds ids] w Hsrc Hbad;
    try discriminate.
  - simpl. unfold bind at 1. unfold prepare_doc at 1. unfold bind at 1.
    now rewrite Hbad.
  - injection Hsrc as Hdoc Hsrc. simpl.
    unfold bind at 1. unfold prepare_doc at 1. unfold bind at 1.
    rewrite (doc_id_of_source W doc src w Hdoc). simpl.
    pose proof (IH srcs (mds ++ [sanitize (metadata doc)],
                         ids ++ [md5_hex src]) w Hsrc Hbad) as E.
    unfold prepare_doc in E. now rewrite E.
Qed.

Lemma docs_embedding_stops (good : list Document) (bad : Document)
    (rest : list Document) (srcs : list string) (e : exn) (w w1 : W)
    (vs : list embedding) :
  map source_of good = map Some srcs ->
  create "text-embedding-3-small" (map page_content (good ++ bad :: rest)) w
  = (Ok vs, w1) ->
  doc_id_of W bad w1 = (Raise e, [], w1) ->
  docs_embedding W create (good ++ bad :: rest) w
  = (Raise e,
     [EvCreateIndex "dagster-knowledge" 1536;
      EvGetIndex "dagster-knowledge" "dagster-docs";
      EvEmbed "text-embedding-3-small"
              (map page_content (good ++ bad :: rest)) (Ok vs)],
     w1).
Proof.
  intros Hsrc Ecall Hbad.
  unfold docs_embedding, bind at 1 2 3.
  unfold pinecone_create_index, pinecone_get_index, emit, bind at 1,
    embeddings_create. simpl.
  rewrite Ecall. unfold bind at 1.
  now rewrite (prepare_loop_stops good bad rest e srcs ([], []) w1 Hsrc Hbad).
Qed.

(** X3: the documentation asset asks the provider for the vectors of all the
    documents before it looks at any source URL. If the first document
    without a usable source has no "source" key the run then raises
    [KeyError("source")], and if its source is not a string it raises
    [AttributeError]; in both cases the provider call has been made and
    nothing is upserted. *)
Theorem missing_source_raises_after_embedding (good : list Document)
    (bad : Document) (rest : list Document) (srcs : list string) (w w1 : W)
    (vs : list embedding) :
  map source_of good = map Some srcs ->
  create "text-embedding-3-small" (map page_content (good ++ bad :: rest)) w
  = (Ok vs, w1) ->
  let tr := [EvCreateIndex "dagster-knowledge" 1536;
             EvGetIndex "dagster-knowledge" "dagster-docs";
             EvEmbed "text-embedding-3-small"
                     (map page_content (good ++ bad :: rest)) (Ok vs)] in
  (dict_lookup (metadata bad) "source" = None ->
   docs_embedding W create (good ++ bad :: rest) w
   = (Raise (KeyError "source"), tr, w1))
  /\ (forall v,
         dict_lookup (metadata bad) "source" = Some v ->
         type_of v <> ty_str ->
         docs_embedding W create (good ++ bad :: rest) w
         = (Raise (AttributeError "encode"), tr, w1))
  /\ upserts tr = []
  /\ List.length (embed_calls tr) = 1.
Proof.
  intros Hsrc Ecall tr. split; [|split; [|split; reflexivity]].
  - intros Hk. apply (docs_embedding_stops good bad rest srcs _ w w1 vs);
      try assumption.
    now apply doc_id_of_missing_key.
  - intros v Hk Hv.
    apply (docs_embedding_stops good bad rest srcs _ w w1 vs);
      try assumption.
    now apply (doc_id_of_not_str bad v).
Qed.

End MissingSource.

(** ** More on the metadata clean-up *)

Lemma dict_lookup_not_in (d : dict) (k : string) :
  ~ In k (keys d) -> dict_lookup d k = None.
Proof.
  induction d as [|[k' v'] d IH]; simpl; intros Hk; [reflexivity|].
  destruct (String.eqb_spec k' k) as [->|Hne].
  - exfalso. apply Hk. now left.
  - apply IH. intros Hin. apply Hk. now right.
Qed.

Lemma keys_filter_incl (f : string * pyval -> bool) (d : dict) (k : string) :
  In k (keys (filter f d)) -> In k (keys d).
Proof.
  unfold keys. rewrite !in_map_iff. intros ([k' v] & <- & Hin).
  apply filter_In in Hin. exists (k', v). now split.
Qed.

Lemma sanitize_filter_lookup (md : dict) (k : string) :
  dict_wf md ->
  dict_lookup (sanitize md) k
  = match dict_lookup md k with
    | Some v => if is_primitive v then Some v else None
    | None => None
    end.
Proof.
  intros Hwf. rewrite (sanitize_filter md Hwf).
  induction md as [|[k' v'] md IH]; [reflexivity|].
  inversion Hwf as [|? ? Hk Hwf']; subst. simpl.
  destruct (String.eqb_spec k' k) as [->|Hne].
  - destruct (is_primitive v'); simpl.
    + now rewrite String.eqb_refl.
    + apply dict_lookup_not_in. intros Hin. apply Hk.
      now apply keys_filter_incl in Hin.
  - destruct (is_primitive v'); simpl.
    + destruct (String.eqb_spec k' k); [contradiction|]. now apply IH.
    + now apply IH.
Qed.

(** X4: on a dict, looking a key up after the clean-up gives the value the
    key had before when that value is a string, an integer, a float or a
    boolean, and nothing otherwise: the clean-up never changes a value it
    keeps and never brings in a key; its result is a dict with no more
    entries than the original. *)
Theorem sanitize_lookup (md : dict) (k : string) :
  dict_wf md ->
  dict_lookup (sanitize md) k
  = match dict_lookup md k with
    | Some v => if is_primitive v then Some v else None
    | None => None
    end
  /\ (In k (keys (sanitize md)) -> In k (keys md))
  /\ List.length (sanitize md) <= List.length md
  /\ dict_wf (sanitize md).
Proof.
  intros Hwf. split; [now apply sanitize_filter_lookup|].
  split; [|split].
  - rewrite (sanitize_filter md Hwf). apply keys_filter_incl.
  - rewrite (sanitize_filter md Hwf). apply filter_length_le.
  - apply sanitize_invariant.
Qed.

Lemma sanitize_lookup_witness :
  dict_wf (metadata (Sample.issue 1 "first issue"))
  /\ dict_lookup (sanitize (metadata (Sample.issue 1 "first issue"))) "state"
     = Some (PStr "open")
  /\ dict_lookup (sanitize (metadata (Sample.issue 1 "first issue"))) "labels"
     = None.
Proof.
  split; [exact sample_issue_wf|]. split.
  - exact (proj1 (sanitize_lookup (metadata (Sample.issue 1 "first issue"))
                                  "state" sample_issue_wf)).
  - exact (proj1 (sanitize_lookup (metadata (Sample.issue 1 "first issue"))
                                  "labels" sample_issue_wf)).
Defined.

(** ** What every run of an embedding asset does *)

Section Protocol.

Variable W : Type.
Variable create : string -> list string -> W -> result (list embedding) * W.

Lemma docs_embedding_cases (docs : list Document) (w : W) :
  (exists srcs vs w',
      map source_of docs = map Some srcs
      /\ docs_embedding W create docs w
         = (Ok (docs_result docs srcs vs), docs_trace docs srcs vs, w'))
  \/ (exists e resp w',
         docs_embedding W create docs w
         = (Raise e,
            [EvCreateIndex "dagster-knowledge" 1536;
             EvGetIndex "dagster-knowledge" "dagster-docs";
             EvEmbed "text-embedding-3-small" (map page_content docs) resp],
            w')).
Proof.
  destruct (create "text-embedding-3-small" (map page_content docs) w)
    as [[vs|e] w1] eqn:Ecall.
  - destruct (sources_dec docs) as [[srcs Hsrc]|Hex].
    + left. exists srcs, vs, w1. split; [exact Hsrc|].
      now rewrite (docs_embedding_run W create docs srcs w Hsrc), Ecall.
    + right.
      destruct (prepare_loop_raise W docs Hex ([], []) w1) as [e He].
      exists e, (Ok vs), w1.
      unfold docs_embedding, bind at 1 2 3.
      unfold pinecone_create_index, pinecone_get_index, emit, bind at 1,
        embeddings_create. simpl.
      rewrite Ecall. unfold bind at 1. now rewrite He.
  - right. exists e, (Raise e), w1.
    now apply docs_embedding_provider_raises.
Qed.

Lemma batch_events_no_upsert (l : list (list string * list embedding)) :
  upserts (flat_map (fun cr => batch_events (fst cr) (snd cr)) l) = []
  /\ upsert_targets (flat_map (fun cr => batch_events (fst cr) (snd cr)) l)
     = [].
Proof. induction l as [|x l [IH1 IH2]]; simpl; auto. Qed.

Lemma upsert_targets_app (t1 t2 : list event) :
  upsert_targets (t1 ++ t2) = upsert_targets t1 ++ upsert_targets t2.
Proof. apply flat_map_app. Qed.


End Protocol.

(** ** Records, counts and namespaces *)

Section Records.

Variable W : Type.
Variable create : string -> list string -> W -> result (list embedding) * W.

Lemma issues_trace_observed (docs : list Document) (vs : list embedding) :
  let tr := issues_trace docs vs in
  returned_vectors tr = vs
  /\ upserts tr = [py_zip3 (sequential_ids (List.length docs)) vs
                          (prepared_metadata docs)]
  /\ upsert_targets tr = [("dagster-knowledge", "dagster-github")].
Proof.
  unfold returned_vectors. simpl. rewrite app_nil_r. auto.
Qed.

Lemma docs_trace_observed (docs : list Document) (srcs : list string)
    (vs : list embedding) :
  let tr := docs_trace docs srcs vs in
  returned_vectors tr = vs
  /\ upserts tr = [py_zip3 (map md5_hex srcs) vs (prepared_metadata docs)]
  /\ upsert_targets tr = [("dagster-knowledge", "dagster-docs")].
Proof.
  unfold returned_vectors. simpl. rewrite app_nil_r. auto.
Qed.

Lemma discussions_trace_targets (docs : list Document)
    (resps : list (list embedding)) :
  upsert_targets (discussions_trace docs resps)
  = [("dagster-knowledge", "dagster-github")].
Proof.
  unfold discussions_trace. rewrite !upsert_targets_app.
  destruct (batch_events_no_upsert
              (combine (batches 20 (map page_content docs)) resps))
    as [_ Hno].
  rewrite Hno. reflexivity.
Qed.

Lemma zip_count (ids : list string) (vs : list embedding) (mds : list dict)
    (n : nat) :
  List.length ids = n -> List.length mds = n ->
  List.length (py_zip3 ids vs mds) = Nat.min n (List.length vs).
Proof. intros Hi Hm. rewrite py_zip3_length, Hi, Hm. lia. Qed.

(** X6: the count an embedding asset reports is the number of its input
    documents, not the number of records it upserted: with a provider that
    answers every call the run returns that count, and the upsert holds
    [min(count, number of vectors returned)] records, hence never more than
    reported and fewer when vectors are missing. *)
Theorem reported_count_is_input_length (docs : list Document) (w : W) :
  provider_total create ->
  (exists res tr w' records,
      github_issues_embeddings W create docs w = (Ok res, tr, w')
      /\ reported res "number_of_issues" = Some (PInt (len docs))
      /\ upserts tr = [records]
      /\ List.length records
         = Nat.min (List.length docs) (List.length (returned_vectors tr)))
  /\ (exists res tr w' records,
         github_discussions_embeddings W create docs w = (Ok res, tr, w')
         /\ reported res "number_of_discussions" = Some (PInt (len docs))
         /\ upserts tr = [records]
         /\ List.length records
            = Nat.min (List.length docs) (List.length (returned_vectors tr)))
  /\ ((exists srcs, map source_of docs = map Some srcs) ->
      exists res tr w' records,
        docs_embedding W create docs w = (Ok res, tr, w')
        /\ reported res "documents_embedded" = Some (PInt (len docs))
        /\ upserts tr = [records]
        /\ List.length records
           = Nat.min (List.length docs) (List.length (returned_vectors tr))).
Proof.
  intros Htot. split; [|split].
  - destruct (issues_total W create docs w Htot) as (vs & w' & _ & Erun).
    destruct (issues_trace_observed docs vs) as (E1 & E2 & _).
    do 4 eexists. split; [exact Erun|]. split; [reflexivity|].
    split; [exact E2|]. rewrite E1.
    apply zip_count;
      [apply sequential_ids_length | apply prepared_metadata_length].
  - destruct (discussions_total W create docs w Htot)
      as (resps & w' & Hans & Erun).
    assert (Hlen : List.length resps
                   = List.length (batches 20 (map page_content docs)))
      by (symmetry; eapply Forall2_length; eassumption).
    destruct (discussions_trace_observed docs resps Hlen)
      as (_ & _ & _ & E4 & _ & _ & E7).
    do 4 eexists. split; [exact Erun|]. split; [reflexivity|].
    split; [exact E7|]. rewrite E4.
    apply zip_count;
      [apply sequential_ids_length | apply prepared_metadata_length].
  - intros [srcs Hsrc].
    destruct (docs_total W create docs srcs w Htot Hsrc)
      as (vs & w' & _ & Erun).
    destruct (docs_trace_observed docs srcs vs) as (E1 & E2 & _).
    do 4 eexists. split; [exact Erun|]. split; [reflexivity|].
    split; [exact E2|]. rewrite E1.
    apply zip_count; [|apply prepared_metadata_length].
    rewrite length_map. now apply sources_nth.
Qed.

Lemma aligned_record_id (docs : list Document) (tr : list event) (i : nat) :
  run_aligned sequential_id docs tr ->
  i < List.length docs ->
  exists records rec,
    upserts tr = [records]
    /\ nth_error records i = Some rec
    /\ record_id rec = py_str i.
Proof.
  intros (ids & records & Hup & _ & _ & _ & _ & _ & _ & Hpos) Hi.
  destruct (nth_error docs i) as [doc|] eqn:Hdoc;
    [|apply nth_error_None in Hdoc; lia].
  destruct (Hpos i doc Hdoc) as (v & id & _ & _ & _ & Hid & _ & Hrec).
  exists records, (id, v, sanitize (metadata doc)).
  repeat split; try assumption.
  unfold sequential_id in Hid. unfold record_id. simpl. congruence.
Qed.

(** X7: the issues asset and the discussions asset upsert into the same
    index and the same namespace, "dagster-github" of "dagster-knowledge",
    and both number their records from "0": the i-th issue and the i-th
    discussion are written under the same index, namespace and id. The
    documentation asset writes to the namespace "dagster-docs". *)
Theorem issues_and_discussions_share_ids (issues discussions : list Document)
    (pages : list Document) (w1 w2 w3 : W) (i : nat) :
  provider_aligned create ->
  i < List.length issues ->
  i < List.length discussions ->
  (exists records1 records2 rec1 rec2,
      upserts (run_trace (github_issues_embeddings W create issues w1))
      = [records1]
      /\ upserts
           (run_trace (github_discussions_embeddings W create discussions w2))
         = [records2]
      /\ nth_error records1 i = Some rec1
      /\ nth_error records2 i = Some rec2
      /\ record_id rec1 = record_id rec2
      /\ upsert_targets
           (run_trace (github_issues_embeddings W create issues w1))
         = [("dagster-knowledge", "dagster-github")]
      /\ upsert_targets
           (run_trace (github_discussions_embeddings W create discussions w2))
         = [("dagster-knowledge", "dagster-github")])
  /\ Forall (fun target => target = ("dagster-knowledge", "dagster-docs"))
            (upsert_targets (run_trace (docs_embedding W create pages w3))).
Proof.
  intros Hal Hi1 Hi2. pose proof (provider_aligned_total W create Hal) as Htot.
  split.
  - destruct (issues_total W create issues w1 Htot)
      as (vs & w1' & Hans1 & Erun1).
    destruct (discussions_total W create discussions w2 Htot)
      as (resps & w2' & Hans2 & Erun2).
    rewrite Erun1, Erun2. unfold run_trace. simpl fst. simpl snd.
    destruct (aligned_record_id issues (issues_trace issues vs) i)
      as (records1 & rec1 & U1 & R1 & I1); [|assumption|].
    { apply issues_aligned.
      rewrite (answers_aligned W create _ _ Hal Hans1). apply length_map. }
    destruct (aligned_record_id discussions
                (discussions_trace discussions resps) i)
      as (records2 & rec2 & U2 & R2 & I2); [|assumption|].
    { apply discussions_aligned. now apply (answers_all_aligned W create). }
    exists records1, records2, rec1, rec2.
    pose proof (discussions_trace_targets discussions resps) as T2.
    destruct (issues_trace_observed issues vs) as (_ & _ & T1).
    repeat split; try assumption; congruence.
  - destruct (docs_embedding_cases W create pages w3)
      as [(srcs & vs & w' & _ & ->)|(e & resp & w' & ->)].
    + unfold run_trace. simpl fst. simpl snd.
      destruct (docs_trace_observed pages srcs vs) as (_ & _ & ->).
      repeat constructor.
    + constructor.
Qed.

(** X8: in the batches of the discussions asset every batch but the last is
    full, and the last one holds what is left: batch [k] has [B] texts when
    another batch follows it and [N - k * B] texts, between 1 and [B], when it
    is the last. *)
Theorem batches_full_but_last (B : nat) (texts : list string) (k : nat)
    (c : list string) :
  0 < B ->
  nth_error (batches B texts) k = Some c ->
  k < ceil_div (List.length texts) B
  /\ c = py_slice texts (k * B) (k * B + B)
  /\ (S k < ceil_div (List.length texts) B -> List.length c = B)
  /\ (S k = ceil_div (List.length texts) B ->
      List.length c = List.length texts - k * B
      /\ 1 <= List.length c <= B).
Proof.
  intros HB Hc.
  assert (Hk : k < ceil_div (List.length texts) B).
  { rewrite <- batches_length by assumption. apply nth_error_Some.
    congruence. }
  rewrite (batches_nth B texts k HB Hk) in Hc. injection Hc as <-.
  split; [exact Hk|]. split; [reflexivity|].
  rewrite py_slice_length.
  pose proof (ceil_div_tight (List.length texts) B k HB Hk) as Hlow.
  split.
  - intros Hnext.
    pose proof (ceil_div_tight (List.length texts) B (S k) HB Hnext). nia.
  - intros Hlast. pose proof (ceil_div_covers (List.length texts) B HB).
    rewrite <- Hlast in *. nia.
Qed.

End Records.

(** ** What the upserted records hold *)

Section RecordContents.

Variable W : Type.
Variable create : string -> list string -> W -> result (list embedding) * W.

Lemma source_of_lookup (doc : Document) (url : string) :
  source_of doc = Some url ->
  dict_lookup (metadata doc) "source" = Some (PStr url).
Proof.
  unfold source_of.
  destruct (dict_lookup (metadata doc) "source") as [[]|]; try discriminate.
  now intros [= ->].
Qed.

(** X9: every record the documentation asset upserts for dict metadata still
    carries, under "source" in its cleaned metadata, the URL whose MD5 is the
    record's id: the id of a stored record can be recomputed from the record
    itself. *)
Theorem docs_record_carries_source (docs : list Document) (w w' : W)
    (res : MaterializeResult) (tr : list event)
    (records : list vector_record) (i : nat) (rec : vector_record) :
  Forall (fun doc => dict_wf (metadata doc)) docs ->
  docs_embedding W create docs w = (Ok res, tr, w') ->
  upserts tr = [records] ->
  nth_error records i = Some rec ->
  exists url,
    dict_lookup (snd rec) "source" = Some (PStr url)
    /\ record_id rec = md5_hex url.
Proof.
  intros Hwf Erun Hup Hrec.
  destruct (docs_embedding_ok_inv W create docs w w' res tr Erun)
    as (srcs & vs & Hsrc & -> & _).
  destruct (docs_trace_observed docs srcs vs) as (_ & E2 & _).
  rewrite E2 in Hup. injection Hup as <-.
  destruct rec as [[id v] md].
  apply py_zip3_nth_inv in Hrec. destruct Hrec as (Hid & _ & Hmd).
  unfold prepared_metadata in Hmd. rewrite nth_error_map in Hmd.
  destruct (nth_error docs i) as [doc|] eqn:Hdoc; [|discriminate].
  simpl in Hmd. injection Hmd as <-.
  destruct (sources_nth docs srcs Hsrc) as [_ Hnth].
  destruct (Hnth i doc Hdoc) as (url & Hurl & Hi).
  rewrite nth_error_map, Hi in Hid. simpl in Hid. injection Hid as <-.
  exists url. split; [|reflexivity]. simpl.
  assert (Hd : dict_wf (metadata doc)).
  { rewrite Forall_forall in Hwf. apply Hwf.
    eapply nth_error_In; eassumption. }
  rewrite (sanitize_filter_lookup (metadata doc) "source" Hd).
  now rewrite (source_of_lookup doc url Hurl).
Qed.

Lemma zip_record_ids (ids : list string) (vs : list embedding)
    (mds : list dict) :
  List.length ids = List.length vs ->
  List.length ids = List.length mds ->
  map record_id (py_zip3 ids vs mds) = ids.
Proof.
  revert vs mds. induction ids as [|id ids IH]; intros [|v vs] [|md mds];
    simpl; try discriminate; [reflexivity|].
  intros [= H1] [= H2]. f_equal. now apply IH.
Qed.

(** X10: when the documentation asset returns, with one vector per text, its
    result lists the source URLs of the documents in order under
    "urls_processed", the id of the i-th upserted record is the MD5 of the
    i-th listed URL, and "embedding_dimension" is the length of the first
    vector returned, or 0 when there is none. *)
Theorem docs_result_matches_upsert (docs : list Document)
    (urls : list string) (w : W) :
  provider_aligned create ->
  map source_of docs = map Some urls ->
  exists res tr w' records,
    docs_embedding W create docs w = (Ok res, tr, w')
    /\ reported res "urls_processed" = Some (PList (map PStr urls))
    /\ upserts tr = [records]
    /\ map record_id records = map md5_hex urls
    /\ reported res "embedding_dimension"
       = Some (PInt (match returned_vectors tr with
                     | e0 :: _ => len e0
                     | [] => 0%Z
                     end))
    /\ reported res "documents_embedded" = Some (PInt (len records)).
Proof.
  intros Hal Hsrc.
  destruct (docs_total W create docs urls w
              (provider_aligned_total W create Hal) Hsrc)
    as (vs & w' & Hans & Erun).
  pose proof (answers_aligned W create _ _ Hal Hans) as Hlen.
  rewrite length_map in Hlen.
  destruct (sources_nth docs urls Hsrc) as [Hn _].
  destruct (docs_trace_observed docs urls vs) as (E1 & E2 & _).
  do 4 eexists. split; [exact Erun|]. split; [reflexivity|].
  split; [exact E2|]. split.
  { apply zip_record_ids; rewrite length_map, ?prepared_metadata_length;
      congruence. }
  split; [now rewrite E1|].
  unfold reported, docs_result. simpl. unfold len.
  change (List.length (A:=vector_record))
    with (List.length (A:=string * embedding * dict)).
  rewrite py_zip3_length, length_map, prepared_metadata_length, Hn, Hlen.
  now rewrite !Nat.min_id.
Qed.

Lemma hd_error_slice {A : Type} (l : list A) (i b : nat) :
  0 < b -> hd_error (py_slice l i (i + b)) = nth_error l i.
Proof.
  intros Hb. rewrite py_slice_step.
  destruct b as [|b]; [lia|]. revert i.
  induction l as [|x l IH]; intros [|i]; simpl; try reflexivity.
  apply IH.
Qed.

Lemma combine_ok_inv (cs : list (list string))
    (resps : list (list embedding)) (c0 c1 : list string)
    (r0 r1 : list embedding)
    (rest : list (list string * result (list embedding))) :
  combine cs (map Ok resps) = (c0, Ok r0) :: (c1, Ok r1) :: rest ->
  exists cs' resps',
    cs = c0 :: c1 :: cs' /\ resps = r0 :: r1 :: resps'.
Proof.
  destruct cs as [|a [|b cs]], resps as [|x [|y resps]]; simpl;
    try discriminate.
  intros [= -> -> -> ->]. now exists cs, resps.
Qed.

(** X11: in the discussions asset a batch answered with too few vectors
    shifts every later vector to an earlier document. When the first call
    returns [m] vectors, fewer than 20, the first vector returned by the
    second call, whose first text is that of document 20, is upserted with
    the id and the metadata of document [m]. *)
Theorem short_batch_shifts_vectors (docs : list Document) (w w' : W)
    (res : MaterializeResult) (tr : list event)
    (c0 c1 : list string) (r0 r1 : list embedding) (v : embedding)
    (rest : list (list string * result (list embedding))) :
  github_discussions_embeddings W create docs w = (Ok res, tr, w') ->
  embed_calls tr = (c0, Ok r0) :: (c1, Ok (v :: r1)) :: rest ->
  List.length r0 < 20 ->
  exists records doc_m doc_20,
    upserts tr = [records]
    /\ nth_error docs (List.length r0) = Some doc_m
    /\ nth_error docs 20 = Some doc_20
    /\ hd_error c1 = Some (page_content doc_20)
    /\ nth_error records (List.length r0)
       = Some (py_str (List.length r0), v, sanitize (metadata doc_m)).
Proof.
  intros Erun Hcalls Hshort.
  destruct (github_discussions_embeddings_run W create docs w)
    as (resps & tail & r & w'' & Erun' & _ & Hcase).
  rewrite Erun in Erun'.
  destruct Hcase as [(Hr & Htail & Hlen)|(e & c & Hr & _)];
    [|subst r; discriminate].
  subst tail. change BATCH_SIZE with 20 in *.
  assert (Htr : tr = discussions_trace docs resps)
    by (unfold discussions_trace; congruence).
  clear Erun'. subst tr.
  destruct (discussions_trace_observed docs resps Hlen)
    as (E1 & _ & _ & _ & _ & _ & E7).
  rewrite E1 in Hcalls.
  destruct (combine_ok_inv _ _ _ _ _ _ _ Hcalls)
    as (cs' & resps' & Hcs & Hresps).
  assert (H1 : 1 < ceil_div (List.length docs) 20).
  { rewrite <- (length_map page_content), <- batches_length by lia.
    rewrite Hcs. simpl. lia. }
  pose proof (ceil_div_tight (List.length docs) 20 1 ltac:(lia) H1) as Hn.
  pose proof (batches_nth 20 (map page_content docs) 1 ltac:(lia)
                ltac:(now rewrite length_map)) as Hb1.
  rewrite Hcs in Hb1. simpl in Hb1. injection Hb1 as Hc1.
  destruct (nth_error docs 20) as [doc_20|] eqn:H20;
    [|apply nth_error_None in H20; lia].
  destruct (nth_error docs (List.length r0)) as [doc_m|] eqn:Hm;
    [|apply nth_error_None in Hm; lia].
  eexists. exists doc_m, doc_20. split; [exact E7|].
  split; [reflexivity|]. split; [reflexivity|]. split.
  - rewrite Hc1. change 40 with (20 + 20).
    rewrite hd_error_slice by lia. now apply map_nth_error.
  - apply py_zip3_nth_error.
    + apply sequential_ids_nth. lia.
    + rewrite Hresps. simpl. rewrite nth_error_app2 by lia.
      now rewrite Nat.sub_diag.
    + unfold prepared_metadata.
      now apply (map_nth_error (fun d => sanitize (metadata d))).
Qed.

End RecordContents.

(** ** The scraping asset, whatever the scraper does *)

Section Scraping.

Variable W : Type.
Variable create : string -> list string -> W -> result (list embedding) * W.
Variable parse : W -> result (list string) * W.
Variable scrape : string -> W -> result (option Document) * W.

Lemma scrape_loop_run (urls : list string) :
  forall (start : nat) (acc : list Document) (w : W),
    exists (ans : list (option Document)) (tail : list event)
           (r : result (list Document)) (w' : W),
      for_loop (enumerate urls start) (scrape_one W scrape) acc w
      = (r,
         flat_map (fun ua => scrape_events (fst ua) (snd ua))
                  (combine urls ans) ++ tail,
         w')
      /\ Forall2 (fun url a => exists wk, fst (scrape url wk) = Ok a)
                 (firstn (List.length ans) urls) ans
      /\ ((r = Ok (acc ++ scraped ans) /\ tail = []
           /\ List.length ans = List.length urls)
          \/ (exists e url,
                 r = Raise e
                 /\ tail = [EvScrapePage url (Raise e)]
                 /\ nth_error urls (List.length ans) = Some url
                 /\ exists wk, fst (scrape url wk) = Raise e)).
Proof.
  induction urls as [|url urls IH]; intros start acc w.
  - exists [], [], (Ok acc), w. split; [reflexivity|]. split; [constructor|].
    left. simpl. now rewrite app_nil_r.
  - unfold enumerate. simpl. fold (enumerate urls (S start)).
    unfold bind at 1. unfold scrape_one at 1. unfold bind at 1.
    unfold scrape_page at 1. simpl.
    destruct (scrape url w) as [[d|e] w1] eqn:Ecall.
    + simpl.
      destruct (IH (S start)
                   (match d with Some d0 => acc ++ [d0] | None => acc end) w1)
        as (ans & tail & r & w' & Erun & Hans & Hcase).
      rewrite Erun. exists (d :: ans), tail, r, w'.
      split; [reflexivity|]. split.
      { simpl. constructor; [|exact Hans]. exists w. now rewrite Ecall. }
      destruct Hcase as [(-> & -> & Hlen)|(e & u & -> & -> & Hu & He)].
      * left. simpl. rewrite Hlen. repeat split.
        destruct d; simpl; [now rewrite <- app_assoc | reflexivity].
      * right. exists e, u. simpl. auto.
    + exists [], [EvScrapePage url (Raise e)], (Raise e), w1.
      split; [reflexivity|]. split; [constructor|]. right.
      exists e, url. simpl. repeat split. exists w. now rewrite Ecall.
Qed.

Lemma scrape_events_observed (urls : list string)
    (ans : list (option Document)) :
  let tr := flat_map (fun ua => scrape_events (fst ua) (snd ua))
                     (combine urls ans) in
  sleeps tr = repeat (1 # 2)%Q (Nat.min (List.length urls) (List.length ans))
  /\ embed_calls tr = []
  /\ upserts tr = []
  /\ output_metadata tr = [].
Proof.
  revert ans. induction urls as [|url urls IH]; intros [|a ans]; simpl;
    try (repeat split; reflexivity).
  destruct (IH ans) as (E1 & E2 & E3 & E4). simpl in *.
  rewrite E1. auto.
Qed.

(** X12: with a scraper that does not raise, the scraping asset requests the
    pages one after the other and pauses half a second after every request,
    also after a page answered with null and after the last page: the run is
    the sitemap request, then request and pause for each of the first 4 URLs,
    then the output metadata; it never calls the embedding provider nor
    upserts. *)
Theorem scrape_pauses_after_every_page (w : W) :
  scraper_total parse scrape ->
  exists (sitemap : list string) (ans : list (option Document))
         (documents : list Document) (tr : list event) (w' : W),
    fst (parse w) = Ok sitemap
    /\ docs_scrape_raw W parse scrape w = (Ok documents, tr, w')
    /\ tr = [EvParseSitemap (Ok sitemap)]
            ++ flat_map (fun ua => [EvScrapePage (fst ua) (Ok (snd ua));
                                    EvSleep (1 # 2)])
                        (combine (firstn 4 sitemap) ans)
            ++ [EvAddOutputMetadata
                  [("pages scraped", PInt (len (firstn 4 sitemap)))]]
    /\ List.length ans = Nat.min 4 (List.length sitemap)
    /\ sleeps tr = repeat (1 # 2)%Q (Nat.min 4 (List.length sitemap))
    /\ embed_calls tr = []
    /\ upserts tr = [].
Proof.
  intros Htot.
  destruct (docs_scrape_raw_total W parse scrape w Htot)
    as (sitemap & ans & w' & Hs & Hlen & Erun).
  exists sitemap, ans, (scraped ans). eexists. exists w'.
  split; [exact Hs|]. split; [exact Erun|]. split; [reflexivity|].
  destruct (scrape_events_observed (firstn 4 sitemap) ans)
    as (E1 & E2 & E3 & _).
  rewrite Hlen, Nat.min_id, length_firstn in E1.
  split; [now rewrite Hlen, length_firstn|].
  split; [rewrite !sleeps_app, E1; simpl; now rewrite app_nil_r|].
  split; [rewrite !embed_calls_app, E2; reflexivity|].
  rewrite !upserts_app, E3. reflexivity.
Qed.


End Scraping.

(** ** From the sitemap to the vector store *)

Section Pipeline.

Variable W : Type.
Variable create : string -> list string -> W -> result (list embedding) * W.
Variable parse : W -> result (list string) * W.
Variable scrape : string -> W -> result (option Document) * W.

Lemma docs_scrape_raw_answers (w : W) :
  scraper_total parse scrape ->
  exists (sitemap : list string) (ans : list (option Document)) (w' : W),
    fst (parse w) = Ok sitemap
    /\ List.length ans = List.length (firstn 4 sitemap)
    /\ Forall2 (fun url a => exists wk, fst (scrape url wk) = Ok a)
               (firstn 4 sitemap) ans
    /\ docs_scrape_raw W parse scrape w
       = (Ok (scraped ans),
          [EvParseSitemap (Ok sitemap)]
          ++ flat_map (fun ua => scrape_events (fst ua) (snd ua))
                      (combine (firstn 4 sitemap) ans)
          ++ [EvAddOutputMetadata
                [("pages scraped", PInt (len (firstn 4 sitemap)))]],
          w').
Proof.
  intros [Hparse Hscrape].
  destruct (Hparse w) as [sitemap Hs].
  unfold docs_scrape_raw, bind at 1, parse_sitemap.
  destruct (parse w) as [r w1]. simpl in Hs. subst r.
  unfold py_slice. simpl skipn. simpl Nat.sub.
  exists sitemap. remember (firstn 4 sitemap) as urls eqn:Hurls.
  destruct (scrape_loop_run W scrape urls 1 [] w1)
    as (ans & tail & r & w' & Erun & Hans & Hcase).
  destruct Hcase as [(-> & -> & Hlen)|(e & url & _ & _ & _ & wk & He)].
  - exists ans, w'. split; [reflexivity|]. split; [exact Hlen|].
    split; [now rewrite Hlen, firstn_all in Hans|].
    unfold bind at 1. rewrite Erun.
    unfold bind, add_output_metadata, emit, ret. simpl.
    now rewrite app_nil_r.
  - destruct (Hscrape url wk) as [d Hd]. congruence.
Qed.

Lemma scraped_sources (urls : list string) (ans : list (option Document)) :
  scraper_sets_source scrape ->
  Forall2 (fun url a => exists wk, fst (scrape url wk) = Ok a) urls ans ->
  exists srcs, map source_of (scraped ans) = map Some srcs.
Proof.
  intros Hsrc. induction 1 as [|url a urls ans [wk Ha] _ [srcs IH]].
  - now exists [].
  - destruct a as [doc|]; simpl; [|now exists srcs].
    destruct (Hsrc url wk doc Ha) as [src Hdoc].
    exists (src :: srcs). simpl. now rewrite Hdoc, IH.
Qed.

Lemma docs_trace_no_scrape (docs : list Document) (srcs : list string)
    (vs : list embedding) :
  scrape_calls (docs_trace docs srcs vs) = []
  /\ output_metadata (docs_trace docs srcs vs) = []
  /\ embed_calls (docs_trace docs srcs vs) = [(map page_content docs, Ok vs)].
Proof. repeat split. Qed.

(** X14: the documentation pipeline, scraping then embedding, with a scraper
    that does not raise and whose pages carry their source URL and a provider
    that returns one vector per text: it calls the provider exactly once,
    with the texts of the scraped documents, at most 4, and upserts one record
    per scraped document; the count of documents embedded plus the number of
    pages answered with null is the number of pages scraped that was
    reported. *)
Theorem docs_pipeline_counts (w : W) :
  scraper_total parse scrape ->
  scraper_sets_source scrape ->
  provider_aligned create ->
  exists (sitemap : list string) (documents : list Document)
         (res : MaterializeResult) (tr : list event) (w' : W)
         (records : list vector_record),
    fst (parse w) = Ok sitemap
    /\ docs_pipeline W create parse scrape w = (Ok res, tr, w')
    /\ documents = scraped_documents tr
    /\ map fst (embed_calls tr) = [map page_content documents]
    /\ upserts tr = [records]
    /\ List.length records = List.length documents
    /\ List.length documents <= 4
    /\ reported res "documents_embedded" = Some (PInt (len documents))
    /\ output_metadata tr
       = [[("pages scraped",
            PInt (Z.of_nat (List.length documents + null_answers tr)))]]
    /\ List.length documents + null_answers tr
       = Nat.min 4 (List.length sitemap).
Proof.
  intros Htot Hsets Hal.
  destruct (docs_scrape_raw_answers w Htot)
    as (sitemap & ans & w1 & Hs & Hlen & Hans & Erun1).
  destruct (scraped_sources _ _ Hsets Hans) as [srcs Hsrc].
  destruct (docs_total W create (scraped ans) srcs w1
              (provider_aligned_total W create Hal) Hsrc)
    as (vs & w2 & Hvs & Erun2).
  pose proof (answers_aligned W create _ _ Hal Hvs) as Hvlen.
  rewrite length_map in Hvlen.
  pose proof (length_firstn 4 sitemap) as H4.
  remember (firstn 4 sitemap) as urls eqn:Hurls. clear Hurls.
  exists sitemap, (scraped ans). do 3 eexists.
  exists (py_zip3 (map md5_hex srcs) vs (prepared_metadata (scraped ans))).
  split; [exact Hs|]. split.
  { unfold docs_pipeline, bind. rewrite Erun1, Erun2. reflexivity. }
  destruct (scrape_events_observed urls ans) as (_ & E2 & E3 & E4).
  destruct (docs_trace_no_scrape (scraped ans) srcs vs) as (D1 & D2 & D3).
  destruct (docs_trace_observed (scraped ans) srcs vs) as (_ & D4 & _).
  destruct (scraped_of_calls urls ans Hlen) as [S1 S2].
  assert (Hcalls :
            scrape_calls
              (([EvParseSitemap (Ok sitemap)]
                ++ flat_map (fun ua => scrape_events (fst ua) (snd ua))
                            (combine urls ans)
                ++ [EvAddOutputMetadata [("pages scraped", PInt (len urls))]])
               ++ docs_trace (scraped ans) srcs vs)
            = combine urls (map Ok ans)).
  { rewrite !scrape_calls_app, D1, scrape_events_calls by assumption. simpl.
    now rewrite !app_nil_r. }
  unfold scraped_documents, null_answers. rewrite Hcalls, S1.
  destruct (sources_nth (scraped ans) srcs Hsrc) as [Hn _].
  assert (Hle : List.length (scraped ans) <= 4) by lia.
  repeat split.
  - rewrite !embed_calls_app, E2, D3. reflexivity.
  - rewrite !upserts_app, E3, D4. reflexivity.
  - change (List.length (A:=vector_record))
      with (List.length (A:=string * embedding * dict)).
    rewrite py_zip3_length, length_map, prepared_metadata_length, Hn, Hvlen.
    now rewrite !Nat.min_id.
  - exact Hle.
  - rewrite !output_metadata_app, E4, D2. simpl. unfold len.
    now rewrite S2.
  - lia.
Qed.

End Pipeline.

(** ** The raw GitHub assets *)

Lemma zero_pad_4 (y : nat) :
  y < 10 * 1000 ->
  String.length (zero_pad 4 y) = 4 /\ py_int (zero_pad 4 y) = Some y.
Proof.
  intros Hy.
  assert (Hall : forallb (fun n =>
                            (String.length (zero_pad 4 n) =? 4)
                            && match py_int (zero_pad 4 n) with
                               | Some k => k =? n
                               | None => false
                               end) (seq 0 (10 * 1000)) = true)
    by (vm_compute; reflexivity).
  rewrite forallb_forall in Hall.
  specialize (Hall y ltac:(apply in_seq; lia)).
  apply andb_prop in Hall. destruct Hall as [H1 H2].
  apply Nat.eqb_eq in H1. split; [exact H1|].
  destruct (py_int (zero_pad 4 y)) as [k|]; [|discriminate].
  apply Nat.eqb_eq in H2. now subst.
Qed.

Lemma zero_pad_2 (n : nat) :
  n < 100 ->
  String.length (zero_pad 2 n) = 2 /\ py_int (zero_pad 2 n) = Some n.
Proof.
  intros Hn.
  assert (Hall : forallb (fun n =>
                            (String.length (zero_pad 2 n) =? 2)
                            && match py_int (zero_pad 2 n) with
                               | Some k => k =? n
                               | None => false
                               end) (seq 0 100) = true)
    by (vm_compute; reflexivity).
  rewrite forallb_forall in Hall.
  specialize (Hall n ltac:(apply in_seq; lia)).
  apply andb_prop in Hall. destruct Hall as [H1 H2].
  apply Nat.eqb_eq in H1. split; [exact H1|].
  destruct (py_int (zero_pad 2 n)) as [k|]; [|discriminate].
  apply Nat.eqb_eq in H2. now subst.
Qed.

Lemma parse_date_format (a b c : string) :
  String.length a = 4 -> String.length b = 2 -> String.length c = 2 ->
  String.length (a ++ "-" ++ b ++ "-" ++ c) = 10
  /\ parse_date (a ++ "-" ++ b ++ "-" ++ c)
     = match py_int a, py_int b, py_int c with
       | Some y, Some m, Some d => Some (y, m, d)
       | _, _, _ => None
       end.
Proof.
  destruct a as [|a1 [|a2 [|a3 [|a4 [|]]]]]; try discriminate.
  destruct b as [|b1 [|b2 [|]]]; try discriminate.
  destruct c as [|c1 [|c2 [|]]]; try discriminate.
  intros _ _ _. split; [reflexivity|].
  unfold parse_date. simpl substring. simpl String.length.
  destruct (py_int (String a1 (String a2 (String a3 (String a4 "")))));
    [|reflexivity].
  destruct (py_int (String b1 (String b2 ""))); [|reflexivity].
  destruct (py_int (String c1 (String c2 ""))); reflexivity.
Qed.

Section RawAssets.

Variable W : Type.
Variable datetime : Type.
Variable dt_year dt_month dt_day : datetime -> nat.
Variable dt_str : datetime -> string.
Variable Raw : Type.
Variable get_issues get_discussions : string -> string -> W -> result Raw * W.
Variable convert_issues convert_discussions :
  Raw -> W -> result (list Document) * W.

Lemma strftime_Ymd_parses (dt : datetime) :
  valid_date dt_year dt_month dt_day dt ->
  String.length (strftime_Ymd datetime dt_year dt_month dt_day dt) = 10
  /\ parse_date (strftime_Ymd datetime dt_year dt_month dt_day dt)
     = Some (date_of_datetime dt_year dt_month dt_day dt).
Proof.
  intros (Hy & Hm & Hd). unfold strftime_Ymd.
  unfold date_of_datetime.
  destruct (zero_pad_4 (dt_year dt) ltac:(lia)) as [L1 P1].
  destruct (zero_pad_2 (dt_month dt) ltac:(lia)) as [L2 P2].
  destruct (zero_pad_2 (dt_day dt) ltac:(lia)) as [L3 P3].
  destruct (parse_date_format _ _ _ L1 L2 L3) as [HL HP].
  split; [exact HL|]. rewrite HP, P1, P2, P3. reflexivity.
Qed.

(** X15: both raw GitHub assets ask the client exactly once, for the window
    of the partition, with its start and its end written as 10-character
    [YYYY-MM-DD] dates from which year, month and day read back; the
    documents returned are the answer of the converter, which is called once
    when the fetch succeeds and never when the fetch raises, in which case the
    asset raises the same exception. *)
Theorem raw_assets_fetch_the_window (start end_ : datetime) (w : W) :
  valid_date dt_year dt_month dt_day start ->
  valid_date dt_year dt_month dt_day end_ ->
  let issues_run :=
    github_issues_raw W datetime dt_year dt_month dt_day dt_str Raw
                      get_issues convert_issues (start, end_) w in
  let discussions_run :=
    github_discussions_raw W datetime dt_year dt_month dt_day dt_str Raw
                           get_discussions convert_discussions
                           (start, end_) w in
  let well_run (run : result (list Document) * list (github_event Raw) * W) :=
    exists s e ok,
      fetches (snd (fst run)) = [(s, e, ok)]
      /\ String.length s = 10 /\ String.length e = 10
      /\ parse_date s
         = Some (date_of_datetime dt_year dt_month dt_day start)
      /\ parse_date e
         = Some (date_of_datetime dt_year dt_month dt_day end_)
      /\ ((ok = true /\ conversions (snd (fst run)) = [fst (fst run)])
          \/ (ok = false /\ conversions (snd (fst run)) = []
              /\ exists exc, fst (fst run) = Raise exc)) in
  well_run issues_run /\ well_run discussions_run.
Proof.
  intros Hs He issues_run discussions_run well_run.
  destruct (strftime_Ymd_parses start Hs) as [Ls Ps].
  destruct (strftime_Ymd_parses end_ He) as [Le Pe].
  split.
  - unfold well_run, issues_run, github_issues_raw.
    destruct (get_issues _ _ w) as [[issues|exc] w1].
    + destruct (convert_issues issues w1) as [r w2].
      do 2 eexists. exists true. split; [reflexivity|].
      repeat split; try assumption. left. split; reflexivity.
    + do 2 eexists. exists false. split; [reflexivity|].
      repeat split; try assumption. right.
      repeat split. now exists exc.
  - unfold well_run, discussions_run, github_discussions_raw.
    destruct (get_discussions _ _ w) as [[discussions|exc] w1].
    + destruct (convert_discussions discussions w1) as [r w2].
      do 2 eexists. exists true. split; [reflexivity|].
      repeat split; try assumption. left. split; reflexivity.
    + do 2 eexists. exists false. split; [reflexivity|].
      repeat split; try assumption. right.
      repeat split. now exists exc.
Qed.

End RawAssets.

(** ** The further properties on sample runs *)

Lemma sample_scraper_sets_source : scraper_sets_source Sample.scrape.
Proof.
  intros url w doc H. unfold Sample.scrape in H. simpl in H.
  destruct (String.eqb url "https://docs.dagster.io/b"); [discriminate|].
  injection H as <-. now exists url.
Qed.

Lemma sample_pages_wf :
  Forall (fun doc => dict_wf (metadata doc)) Sample.pages.
Proof.
  repeat constructor; simpl; intuition discriminate.
Qed.

Lemma provider_failure_aborts_single_call_witness :
  Faulty.down "text-embedding-3-small" (map page_content Sample.issues) 0
  = (Raise (ExternalError "connection refused"), 1)
  /\ (exists tr,
         github_issues_embeddings nat Faulty.down Sample.issues 0
         = (Raise (ExternalError "connection refused"), tr, 1)
         /\ upserts tr = []
         /\ last tr (EvSleep 0)
            = EvEmbed "text-embedding-3-small"
                      (map page_content Sample.issues)
                      (Raise (ExternalError "connection refused"))).
Proof.
  split; [reflexivity|].
  exact (proj1 (provider_failure_aborts_single_call
                  nat Faulty.down Sample.issues 0 1
                  (ExternalError "connection refused") eq_refl)).
Defined.

Lemma batch_failure_discards_embeddings_witness :
  exists tr w',
    github_discussions_embeddings nat Faulty.provider Sample.discussions 0
    = (Raise (ExternalError "rate limit"), tr, w')
    /\ upserts tr = []
    /\ sleeps tr = [1%Q]
    /\ List.length (returned_vectors tr) = 20.
Proof.
  eassert (E : github_discussions_embeddings nat Faulty.provider
                 Sample.discussions 0
               = (Raise (ExternalError "rate limit"), _, _))
    by (vm_compute; reflexivity).
  destruct (batch_failure_discards_embeddings _ _ _ _ _ _ _ E)
    as (resps & c & _ & _ & _ & Hup & Hsleeps & Hcalls & _).
  do 2 eexists. split; [exact E|]. split; [exact Hup|].
  split; [|vm_compute; reflexivity].
  rewrite Hsleeps.
  replace (List.length resps) with 1; [reflexivity|].
  vm_compute in Hcalls. now injection Hcalls.
Defined.

Lemma missing_source_raises_after_embedding_witness :
  map source_of [Sample.page "https://docs.dagster.io/a"]
  = map Some ["https://docs.dagster.io/a"]
  /\ dict_lookup (metadata Faulty.no_source) "source" = None
  /\ run_result (docs_embedding nat Sample.provider
                   ([Sample.page "https://docs.dagster.io/a"]
                    ++ Faulty.no_source :: []) 0)
     = Raise (KeyError "source")
  /\ run_result (docs_embedding nat Sample.provider
                   ([Sample.page "https://docs.dagster.io/a"]
                    ++ Faulty.numeric_source :: []) 0)
     = Raise (AttributeError "encode").
Proof.
  split; [reflexivity|]. split; [reflexivity|]. split.
  - rewrite (proj1 (missing_source_raises_after_embedding
                      nat Sample.provider
                      [Sample.page "https://docs.dagster.io/a"]
                      Faulty.no_source []
                      ["https://docs.dagster.io/a"] 0 1 _ eq_refl eq_refl)
                   eq_refl).
    reflexivity.
  - rewrite (proj1 (proj2 (missing_source_raises_after_embedding
                             nat Sample.provider
                             [Sample.page "https://docs.dagster.io/a"]
                             Faulty.numeric_source []
                             ["https://docs.dagster.io/a"] 0 1 _
                             eq_refl eq_refl))
                   (PInt 42) eq_refl ltac:(discriminate)).
    reflexivity.
Defined.

Lemma reported_count_is_input_length_witness :
  provider_total Sample.short_provider
  /\ exists res tr w' records,
       github_issues_embeddings nat Sample.short_provider Sample.issues 0
       = (Ok res, tr, w')
       /\ reported res "number_of_issues" = Some (PInt (len Sample.issues))
       /\ upserts tr = [records]
       /\ List.length records
          = Nat.min (List.length Sample.issues)
                    (List.length (returned_vectors tr)).
Proof.
  split; [exact sample_short_provider_total|].
  exact (proj1 (reported_count_is_input_length
                  nat Sample.short_provider Sample.issues 0
                  sample_short_provider_total)).
Defined.

Lemma issues_and_discussions_share_ids_witness :
  provider_aligned Sample.provider
  /\ 2 < List.length Sample.issues
  /\ 2 < List.length Sample.discussions
  /\ exists records1 records2 rec1 rec2,
       upserts (run_trace (github_issues_embeddings
                             nat Sample.provider Sample.issues 0))
       = [records1]
       /\ upserts (run_trace (github_discussions_embeddings
                                nat Sample.provider Sample.discussions 1))
          = [records2]
       /\ nth_error records1 2 = Some rec1
       /\ nth_error records2 2 = Some rec2
       /\ record_id rec1 = record_id rec2
       /\ upsert_targets (run_trace (github_issues_embeddings
                                       nat Sample.provider Sample.issues 0))
          = [("dagster-knowledge", "dagster-github")]
       /\ upsert_targets (run_trace (github_discussions_embeddings
                                       nat Sample.provider
                                       Sample.discussions 1))
          = [("dagster-knowledge", "dagster-github")].
Proof.
  split; [exact sample_provider_aligned|].
  split; [simpl; lia|]. split; [simpl; lia|].
  exact (proj1 (issues_and_discussions_share_ids
                  nat Sample.provider Sample.issues Sample.discussions
                  Sample.pages 0 1 2 2 sample_provider_aligned
                  ltac:(simpl; lia) ltac:(simpl; lia))).
Defined.

Lemma batches_full_but_last_witness :
  0 < 20
  /\ nth_error (batches 20 (map page_content Sample.discussions)) 1
     = Some (py_slice (map page_content Sample.discussions) 20 40)
  /\ List.length (py_slice (map page_content Sample.discussions) 20 40)
     = List.length (map page_content Sample.discussions) - 1 * 20.
Proof.
  split; [lia|]. split; [reflexivity|].
  exact (proj1 (proj2 (proj2 (proj2
           (batches_full_but_last
              20 (map page_content Sample.discussions) 1
              (py_slice (map page_content Sample.discussions) 20 40)
              (Nat.lt_0_succ 19) eq_refl))) eq_refl)).
Defined.

Lemma docs_record_carries_source_witness :
  Forall (fun doc => dict_wf (metadata doc)) Sample.pages
  /\ exists res tr w' records rec,
       docs_embedding nat Sample.provider Sample.pages 0 = (Ok res, tr, w')
       /\ upserts tr = [records]
       /\ nth_error records 1 = Some rec
       /\ exists url,
            dict_lookup (snd rec) "source" = Some (PStr url)
            /\ record_id rec = md5_hex url.
Proof.
  split; [exact sample_pages_wf|].
  eassert (E : docs_embedding nat Sample.provider Sample.pages 0
               = (Ok _, _, _)) by (vm_compute; reflexivity).
  match type of E with
  | _ = (Ok ?res, ?tr, ?w') =>
      eassert (U : upserts tr = [_]) by (vm_compute; reflexivity);
      match type of U with
      | _ = [?records] =>
          eassert (R : nth_error records 1 = Some _)
            by (vm_compute; reflexivity);
          match type of R with
          | _ = Some ?rec =>
              exists res, tr, w', records, rec;
              split; [exact E|]; split; [exact U|]; split; [exact R|];
              exact (docs_record_carries_source
                       nat Sample.provider Sample.pages 0 w' res tr records
                       1 rec sample_pages_wf E U R)
          end
      end
  end.
Defined.

Lemma docs_result_matches_upsert_witness :
  provider_aligned Sample.provider
  /\ map source_of Sample.pages
     = map Some ["https://docs.dagster.io/a"; "https://docs.dagster.io/c"]
  /\ exists res tr w' records,
       docs_embedding nat Sample.provider Sample.pages 0 = (Ok res, tr, w')
       /\ reported res "urls_processed"
          = Some (PList (map PStr ["https://docs.dagster.io/a";
                                   "https://docs.dagster.io/c"]))
       /\ upserts tr = [records]
       /\ map record_id records
          = map md5_hex ["https://docs.dagster.io/a";
                         "https://docs.dagster.io/c"]
       /\ reported res "embedding_dimension"
          = Some (PInt (match returned_vectors tr with
                        | e0 :: _ => len e0
                        | [] => 0%Z
                        end))
       /\ reported res "documents_embedded" = Some (PInt (len records)).
Proof.
  split; [exact sample_provider_aligned|]. split; [reflexivity|].
  exact (docs_result_matches_upsert
           nat Sample.provider Sample.pages
           ["https://docs.dagster.io/a"; "https://docs.dagster.io/c"] 0
           sample_provider_aligned eq_refl).
Defined.

Lemma short_batch_shifts_vectors_witness :
  exists res tr w' c0 c1 r0 r1 v rest records doc_m doc_20,
    github_discussions_embeddings nat Sample.short_provider
                                  Sample.discussions 0
    = (Ok res, tr, w')
    /\ embed_calls tr = (c0, Ok r0) :: (c1, Ok (v :: r1)) :: rest
    /\ List.length r0 = 19
    /\ upserts tr = [records]
    /\ nth_error Sample.discussions 19 = Some doc_m
    /\ nth_error Sample.discussions 20 = Some doc_20
    /\ hd_error c1 = Some (page_content doc_20)
    /\ nth_error records 19 = Some ("19", v, sanitize (metadata doc_m)).
Proof.
  eassert (E : github_discussions_embeddings nat Sample.short_provider
                 Sample.discussions 0
               = (Ok _, _, _)) by (vm_compute; reflexivity).
  match type of E with
  | _ = (Ok ?res, ?tr, ?w') =>
      eassert (C : embed_calls tr = (_, Ok _) :: (_, Ok (_ :: _)) :: _)
        by (vm_compute; reflexivity);
      match type of C with
      | _ = (?c0, Ok ?r0) :: (?c1, Ok (?v :: ?r1)) :: ?rest =>
          assert (L : List.length r0 < 20) by (vm_compute; lia);
          destruct (short_batch_shifts_vectors
                      nat Sample.short_provider Sample.discussions 0 w' res
                      tr c0 c1 r0 r1 v rest E C L)
            as (records & doc_m & doc_20 & U & M & D & H & R);
          exists res, tr, w', c0, c1, r0, r1, v, rest, records, doc_m, doc_20;
          repeat split; try assumption; reflexivity
      end
  end.
Defined.

Lemma scrape_pauses_after_every_page_witness :
  scraper_total Sample.parse Sample.scrape
  /\ exists sitemap ans documents tr w',
       fst (Sample.parse 0) = Ok sitemap
       /\ docs_scrape_raw nat Sample.parse Sample.scrape 0
          = (Ok documents, tr, w')
       /\ tr = [EvParseSitemap (Ok sitemap)]
               ++ flat_map (fun ua => [EvScrapePage (fst ua) (Ok (snd ua));
                                       EvSleep (1 # 2)])
                           (combine (firstn 4 sitemap) ans)
               ++ [EvAddOutputMetadata
                     [("pages scraped", PInt (len (firstn 4 sitemap)))]]
       /\ List.length ans = Nat.min 4 (List.length sitemap)
       /\ sleeps tr = repeat (1 # 2)%Q (Nat.min 4 (List.length sitemap))
       /\ embed_calls tr = []
       /\ upserts tr = [].
Proof.
  split; [exact sample_scraper_total|].
  exact (scrape_pauses_after_every_page nat Sample.parse Sample.scrape 0
                                        sample_scraper_total).
Defined.


Lemma docs_pipeline_counts_witness :
  scraper_total Sample.parse Sample.scrape
  /\ scraper_sets_source Sample.scrape
  /\ provider_aligned Sample.provider
  /\ exists sitemap documents res tr w' records,
       fst (Sample.parse 0) = Ok sitemap
       /\ docs_pipeline nat Sample.provider Sample.parse Sample.scrape 0
          = (Ok res, tr, w')
       /\ documents = scraped_documents tr
       /\ map fst (embed_calls tr) = [map page_content documents]
       /\ upserts tr = [records]
       /\ List.length records = List.length documents
       /\ List.length documents <= 4
       /\ reported res "documents_embedded" = Some (PInt (len documents))
       /\ output_metadata tr
          = [[("pages scraped",
               PInt (Z.of_nat (List.length documents + null_answers tr)))]]
       /\ List.length documents + null_answers tr
          = Nat.min 4 (List.length sitemap).
Proof.
  split; [exact sample_scraper_total|].
  split; [exact sample_scraper_sets_source|].
  split; [exact sample_provider_aligned|].
  exact (docs_pipeline_counts nat Sample.provider Sample.parse Sample.scrape 0
           sample_scraper_total sample_scraper_sets_source
           sample_provider_aligned).
Defined.

Lemma raw_assets_fetch_the_window_witness :
  valid_date (fun dt : nat * nat * nat => fst (fst dt))
             (fun dt => snd (fst dt)) (fun dt => snd dt) (2023, 1, 1)
  /\ valid_date (fun dt : nat * nat * nat => fst (fst dt))
                (fun dt => snd (fst dt)) (fun dt => snd dt) (2023, 1, 8)
  /\ (exists s e ok,
         fetches
           (snd (fst (github_issues_raw
                        nat (nat * nat * nat) (fun dt => fst (fst dt))
                        (fun dt => snd (fst dt)) (fun dt => snd dt)
                        (fun dt => "a date") (list string)
                        Faulty.get_items Faulty.convert
                        ((2023, 1, 1), (2023, 1, 8)) 0)))
         = [(s, e, ok)]
         /\ String.length s = 10 /\ String.length e = 10
         /\ parse_date s = Some (2023, 1, 1)
         /\ parse_date e = Some (2023, 1, 8))
  /\ fetches
       (snd (fst (github_issues_raw
                    nat (nat * nat * nat) (fun dt => fst (fst dt))
                    (fun dt => snd (fst dt)) (fun dt => snd dt)
                    (fun dt => "a date") (list string)
                    Faulty.get_items Faulty.convert
                    ((2023, 1, 1), (2023, 1, 8)) 0)))
     = [("2023-01-01", "2023-01-08", true)]
  /\ fetches
       (snd (fst (github_discussions_raw
                    nat (nat * nat * nat) (fun dt => fst (fst dt))
                    (fun dt => snd (fst dt)) (fun dt => snd dt)
                    (fun dt => "a date") (list string)
                    Faulty.get_items_down Faulty.convert
                    ((2023, 1, 1), (2023, 1, 8)) 0)))
     = [("2023-01-01", "2023-01-08", false)].
Proof.
  assert (H1 : valid_date (fun dt : nat * nat * nat => fst (fst dt))
                          (fun dt => snd (fst dt)) (fun dt => snd dt)
                          (2023, 1, 1))
    by (unfold valid_date; simpl; lia).
  assert (H2 : valid_date (fun dt : nat * nat * nat => fst (fst dt))
                          (fun dt => snd (fst dt)) (fun dt => snd dt)
                          (2023, 1, 8))
    by (unfold valid_date; simpl; lia).
  split; [exact H1|]. split; [exact H2|].
  split; [|split; reflexivity].
  destruct (raw_assets_fetch_the_window
              nat (nat * nat * nat) (fun dt => fst (fst dt))
              (fun dt => snd (fst dt)) (fun dt => snd dt)
              (fun dt => "a date") (list string)
              Faulty.get_items Faulty.get_items_down
              Faulty.convert Faulty.convert
              (2023, 1, 1) (2023, 1, 8) 0 H1 H2)
    as [(s & e & ok & F & Ls & Le & Ps & Pe & _) _].
  exists s, e, ok. repeat split; assumption.
Defined.
